(** * Sly2Decomp presentation layer: frame channel, target resolver,
      display state machine and the Graphics front end.

    Shallow embedding of
      - game/OpenGLRenderer.cpp  (make_fbo, OpenGLRenderer::setup_frame)
      - game/opengl.cpp          (gl_send_chain, render_game_frame, gl_vsync,
                                  gl_sync_path, the OpenGLDisplay methods)
      - game/Display.h, Display.cpp (GraphicsDisplay, Display::GetMainDisplay)
      - game/Graphics.cpp        (Graphics::get_window_width, get_fullscreen,
                                  get_mapped_button, set_fullscreen, Loop)
      - game/Peripherals.cpp     (keys, pads, button mapping, input mode)
      - common/versions.cpp      (game_name_to_version, valid_game_version)

    Conventions.  A C++ [int] is a [Z]; signed overflow is undefined in the
    source and no operation modelled here relies on it.  A [u64] is a [Z]
    with its wrap-around at 2^64 written out.  A nullable pointer is an
    [option].  Calls that only draw (bind, clear, viewport, swap) or only
    read a clock are left out: they touch none of the fields below. *)

From Stdlib Require Import ZArith List Bool Lia String.
From stdpp Require Import base numbers option list.
Import ListNotations.

Local Open Scope Z_scope.

(* ===================================================================== *)
(** ** Target resolver: game/OpenGLRenderer.cpp                           *)
(* ===================================================================== *)

Module Renderer.

(** [struct Fbo].  The struct is declared in OpenGLRenderer.h; the fields are
    the ones [make_fbo] and [setup_frame] write. *)
Record Fbo := mkFbo {
  valid : bool;
  fbo_id : Z;
  tex_id : option Z;
  zbuf_stencil_id : option Z;
  multisampled : bool;
  multisample_count : Z;
  is_window : bool;
  width : Z;
  height : Z
}.

(** Modelled from the spec: the default-constructed [Fbo] of OpenGLRenderer.h
    (the header is not part of the sources).  The spec's RenderTarget starts
    without storage ("the Target Resolver owns zero, one, or two non-window
    RenderTargets"), so a fresh [Fbo] is not valid and holds no handle. *)
Definition default_fbo : Fbo :=
  mkFbo false (-1) None None false 0 false 0 0.

(** Modelled from the spec: [Fbo::matches] of OpenGLRenderer.h.  The spec
    compares "the cached (width, height, sampleCount) tuple" of a valid target
    with "(desiredWidth, desiredHeight, desiredSampleCount)". *)
Definition matches (f : Fbo) (w h msaa : Z) : bool :=
  valid f && (width f =? w) && (height f =? h) && (multisample_count f =? msaa).

(** The part of the OpenGL context that target creation touches: the names
    that are alive, and how many names [glGen*] has handed out. *)
Record GLContext := mkGL {
  framebuffers : list Z;
  textures : list Z;
  renderbuffers : list Z;
  names_generated : Z
}.

Definition glGenFramebuffers (gl : GLContext) : Z * GLContext :=
  let id := names_generated gl + 1 in
  (id, mkGL (id :: framebuffers gl) (textures gl) (renderbuffers gl) id).

Definition glGenTextures (gl : GLContext) : Z * GLContext :=
  let id := names_generated gl + 1 in
  (id, mkGL (framebuffers gl) (id :: textures gl) (renderbuffers gl) id).

Definition glGenRenderbuffers (gl : GLContext) : Z * GLContext :=
  let id := names_generated gl + 1 in
  (id, mkGL (framebuffers gl) (textures gl) (id :: renderbuffers gl) id).

Definition remove_name (id : Z) (l : list Z) : list Z :=
  filter (fun x => x <> id) l.

Definition glDeleteFramebuffers (id : Z) (gl : GLContext) : GLContext :=
  mkGL (remove_name id (framebuffers gl)) (textures gl) (renderbuffers gl)
       (names_generated gl).

Definition glDeleteTextures (id : Z) (gl : GLContext) : GLContext :=
  mkGL (framebuffers gl) (remove_name id (textures gl)) (renderbuffers gl)
       (names_generated gl).

Definition glDeleteRenderbuffers (id : Z) (gl : GLContext) : GLContext :=
  mkGL (framebuffers gl) (textures gl) (remove_name id (renderbuffers gl))
       (names_generated gl).

(** Modelled from the spec: [Fbo::clear] of OpenGLRenderer.h ("Destroy
    previously held non-window targets"; targets are "destroyed and replaced,
    never mutated in place").  A valid target gives its framebuffer and its
    attachments back to the context and becomes invalid; an invalid one is
    left alone. *)
Definition clear (f : Fbo) (gl : GLContext) : Fbo * GLContext :=
  if valid f then
    let gl1 := glDeleteFramebuffers (fbo_id f) gl in
    let gl2 := match tex_id f with
               | Some t => glDeleteTextures t gl1
               | None => gl1
               end in
    let gl3 := match zbuf_stencil_id f with
               | Some z => glDeleteRenderbuffers z gl2
               | None => gl2
               end in
    (mkFbo false (fbo_id f) None None (multisampled f) (multisample_count f)
           (is_window f) (width f) (height f), gl3)
  else (f, gl).

(** The fields of [RenderOptions] that [setup_frame] reads. *)
Record RenderOptions := mkOptions {
  game_res_w : Z;
  game_res_h : Z;
  window_framebuffer_width : Z;
  window_framebuffer_height : Z;
  draw_region_width : Z;
  draw_region_height : Z;
  msaa_samples : Z
}.

(** [m_fbo_state.render_fbo] is a pointer into [m_fbo_state.resources]; the
    code only ever stores the address of [window] or of [render_buffer]. *)
Inductive FboRef := RefWindow | RefRenderBuffer.

Record FboState := mkFboState {
  window : Fbo;
  render_buffer : Fbo;
  resolve_buffer : Fbo;
  render_fbo : option FboRef
}.

Definition deref (s : FboState) (r : FboRef) : Fbo :=
  match r with
  | RefWindow => window s
  | RefRenderBuffer => render_buffer s
  end.

(** The renderer's target state together with the GL context it allocates
    from. *)
Record World := mkWorld {
  m_fbo_state : FboState;
  gl : GLContext
}.

(** An [ASSERT] that fails ends the process; [Aborted] carries the state in
    which it fired. *)
Inductive result (A : Type) :=
| Done (a : A)
| Aborted (a : A).
Arguments Done {A} a.
Arguments Aborted {A} a.

Definition state_of {A} (r : result A) : A :=
  match r with Done a => a | Aborted a => a end.

Section Driver.

(** [glCheckFramebufferStatus(GL_FRAMEBUFFER) == GL_FRAMEBUFFER_COMPLETE] for
    a target of the given width, height, sample count and depth/stencil
    choice: the driver's verdict. *)
Variable framebuffer_complete : Z -> Z -> Z -> bool -> bool.

(** [make_fbo(w, h, msaa, make_zbuf_and_stencil)].  [None] is the
    [ASSERT(false)] after an incomplete framebuffer. *)
Definition make_fbo (w h msaa : Z) (make_zbuf_and_stencil : bool)
    (gl : GLContext) : option Fbo * GLContext :=
  let use_multisample := 1 <? msaa in
  let '(fbo, gl1) := glGenFramebuffers gl in
  let '(tex, gl2) := glGenTextures gl1 in
  let '(zb, gl3) :=
    if make_zbuf_and_stencil
    then let '(z, g) := glGenRenderbuffers gl2 in (Some z, g)
    else (None, gl2) in
  if framebuffer_complete w h msaa make_zbuf_and_stencil then
    (Some (mkFbo true fbo (Some tex) zb use_multisample msaa false w h), gl3)
  else (None, gl3).

(** The [ASSERT_MSG] on the viewport size that follows the target choice. *)
Definition check_viewport (settings : RenderOptions) (st : World)
    : result World :=
  if (0 <? game_res_w settings) && (0 <? game_res_h settings)
  then Done st else Aborted st.

(** The window surface as [setup_frame] rewrites it on entry. *)
Definition refreshed_window (settings : RenderOptions) (window_fb : Fbo) : Fbo :=
  mkFbo true 0 (tex_id window_fb) (zbuf_stencil_id window_fb) false 1 true
        (window_framebuffer_width settings)
        (window_framebuffer_height settings).

(** The body of "doesn't match, set up a new one for these settings" in
    [setup_frame]: both offscreen targets are cleared, then the window
    surface or a new render buffer (with a resolve buffer when the sample
    counts differ) is chosen. *)
Definition resolve_targets (settings : RenderOptions) (fs : FboState)
    (gl : GLContext) : result World :=
  let window_fb := window fs in
  let '(rb, gl1) := clear (render_buffer fs) gl in
  let '(sb, gl2) := clear (resolve_buffer fs) gl1 in
  if matches window_fb (game_res_w settings) (game_res_h settings)
             (msaa_samples settings)
  then
    check_viewport settings
      (mkWorld (mkFboState window_fb rb sb (Some RefWindow)) gl2)
  else
    match make_fbo (game_res_w settings) (game_res_h settings)
                   (msaa_samples settings) true gl2 with
    | (None, gl3) =>
        Aborted (mkWorld (mkFboState window_fb rb sb (render_fbo fs)) gl3)
    | (Some rb', gl3) =>
        let msaa_matches :=
          multisample_count window_fb =? msaa_samples settings in
        if negb msaa_matches then
          match make_fbo (game_res_w settings) (game_res_h settings) 1 false
                         gl3 with
          | (None, gl4) =>
              Aborted (mkWorld (mkFboState window_fb rb' sb
                                           (Some RefRenderBuffer)) gl4)
          | (Some sb', gl4) =>
              check_viewport settings
                (mkWorld (mkFboState window_fb rb' sb' (Some RefRenderBuffer))
                         gl4)
          end
        else
          check_viewport settings
            (mkWorld (mkFboState window_fb rb' sb (Some RefRenderBuffer)) gl3)
    end.

(** [window_resized] of [setup_frame]: the window framebuffer is not the
    size it was on the previous frame. *)
Definition window_resized (settings : RenderOptions) (fs : FboState) : bool :=
  negb (width (window fs) =? window_framebuffer_width settings)
  || negb (height (window fs) =? window_framebuffer_height settings).

(** The target state once [setup_frame] has rewritten the window surface. *)
Definition refresh_window (settings : RenderOptions) (fs : FboState)
    : FboState :=
  mkFboState (refreshed_window settings (window fs))
             (render_buffer fs) (resolve_buffer fs) (render_fbo fs).

(** The test "see if the render FBO is still applicable": [true] when
    [setup_frame] takes the branch that sets up new targets. *)
Definition re_resolves (settings : RenderOptions) (st : World) : bool :=
  match render_fbo (m_fbo_state st) with
  | None => true
  | Some r =>
      window_resized settings (m_fbo_state st)
      || negb (matches (deref (refresh_window settings (m_fbo_state st)) r)
                       (game_res_w settings) (game_res_h settings)
                       (msaa_samples settings))
  end.

(** [OpenGLRenderer::setup_frame(settings)], up to the viewport set-up. *)
Definition setup_frame (settings : RenderOptions) (st : World) : result World :=
  let fs1 := refresh_window settings (m_fbo_state st) in
  if re_resolves settings st
  then resolve_targets settings fs1 (gl st)
  else check_viewport settings (mkWorld fs1 (gl st)).

(** A call of [setup_frame] in which the branch "create a fbo to render to,
    with the desired settings" is taken. *)
Definition creates_render_buffer (settings : RenderOptions) (st : World)
    : bool :=
  re_resolves settings st
  && negb (matches (refreshed_window settings (window (m_fbo_state st)))
                   (game_res_w settings) (game_res_h settings)
                   (msaa_samples settings)).

(** The targets the resolver owns besides the window surface. *)
Definition offscreen_targets (s : FboState) : list Fbo :=
  List.filter valid [render_buffer s; resolve_buffer s].

(** States the renderer can be in: the one left by its constructor, where no
    render target has been chosen yet, and those reached from it by frames
    that completed. *)
Inductive reachable : World -> Prop :=
| reach_init : forall st, render_fbo (m_fbo_state st) = None -> reachable st
| reach_frame : forall settings st st',
    reachable st -> setup_frame settings st = Done st' -> reachable st'.

(** The render buffer [make_fbo] builds for [settings]. *)
Definition is_render_buffer (settings : RenderOptions) (f : Fbo) : Prop :=
  valid f = true /\ is_window f = false
  /\ width f = game_res_w settings /\ height f = game_res_h settings
  /\ multisample_count f = msaa_samples settings
  /\ multisampled f = (1 <? msaa_samples settings)
  /\ zbuf_stencil_id f <> None.

(** The resolve buffer [make_fbo] builds for [settings]. *)
Definition is_resolve_buffer (settings : RenderOptions) (f : Fbo) : Prop :=
  valid f = true /\ is_window f = false
  /\ width f = game_res_w settings /\ height f = game_res_h settings
  /\ multisample_count f = 1 /\ multisampled f = false
  /\ zbuf_stencil_id f = None.

(** The choice a re-resolve makes never contradicts the window: with the
    window surface in use no offscreen target is held, and a render buffer
    is only in use while the window surface could not serve. *)
Definition consistent (st : World) : Prop :=
  match render_fbo (m_fbo_state st) with
  | None => True
  | Some RefWindow =>
      valid (render_buffer (m_fbo_state st)) = false
      /\ valid (resolve_buffer (m_fbo_state st)) = false
  | Some RefRenderBuffer =>
      let rb := render_buffer (m_fbo_state st) in
      let wf := window (m_fbo_state st) in
      ~ (width wf = width rb /\ height wf = height rb
         /\ multisample_count rb = 1)
  end.

End Driver.

End Renderer.

(* ===================================================================== *)
(** ** Frame channel and frame pacer: game/opengl.cpp                     *)
(* ===================================================================== *)

Module Channel.

(** [enum class RuntimeExitStatus] and the global [MasterExit]. *)
Inductive RuntimeExitStatus :=
| RUNNING
| RESTART_RUNTIME
| EXIT
| RESTART_IN_DEBUG.

Definition is_running (s : RuntimeExitStatus) : bool :=
  match s with RUNNING => true | _ => false end.

(** Modelled from the spec: [FixedChunkDmaCopier] (common/dma/dma_copy.h is
    not part of the sources).  With [run_dma_copy = false] the channel
    "references the buffer": [set_input_data] remembers the address and the
    offset it was given, and [get_last_input_data] / [get_last_input_offset]
    hand them back. *)
Record FixedChunkDmaCopier := mkCopier {
  last_input_data : Z;
  last_input_offset : Z
}.

Definition set_input_data (data offset : Z) (run_copy : bool)
    (c : FixedChunkDmaCopier) : FixedChunkDmaCopier :=
  mkCopier data offset.

Definition run_dma_copy : bool := false.

(** The fields of [struct GraphicsData] shared by the two threads.  The
    renderer, the debug gui and the timers are owned by the render thread
    and are not read by any function below. *)
Record GraphicsData := mkData {
  frame_idx : Z;
  frame_idx_of_input_data : Z;
  has_data_to_render : bool;
  dma_copier : FixedChunkDmaCopier
}.

Inductive LogLevel := LgError | LgWarn | LgInfo.

(** The globals of opengl.cpp that the channel functions touch, and the
    log they write to. *)
Record Process := mkProcess {
  g_graphics_data : option GraphicsData;
  MasterExit : RuntimeExitStatus;
  log : list (LogLevel * string)
}.

Definition u64_wrap (z : Z) : Z := z mod 2 ^ 64.

Definition send_chain_error : string :=
  "Graphics::send_chain called when the graphics renderer has pending data. Was this called multiple times per frame?".

(** [gl_send_chain(data, offset)]. *)
Definition gl_send_chain (data offset : Z) (p : Process) : Process :=
  match g_graphics_data p with
  | Some gd =>
      if has_data_to_render gd then
        mkProcess (g_graphics_data p) (MasterExit p)
                  (log p ++ [(LgError, send_chain_error)])
      else
        let copier := set_input_data data offset run_dma_copy (dma_copier gd) in
        mkProcess
          (Some (mkData (frame_idx gd) (frame_idx_of_input_data gd) true copier))
          (MasterExit p) (log p)
  | None => p
  end.

(** What one iteration of [OpenGLDisplay::render()] writes to the log
    outside the channel code, in the order it is written: [polled] by the
    callbacks [glfwPollEvents] runs and by the gamepad check at the top of
    the iteration; [drawn] by the renderer call of [render_game_frame], if
    a chain is drawn (the "FBO Setup" lines of [setup_frame] when it sets
    targets up, the error of a failed [make_fbo], what the GL debug
    callback reports); [presented] by the rest of the iteration (the debug
    gui, the buffer swap and the fullscreen flush, through the GLFW error
    callback). *)
Record IterationLog := mkIterationLog {
  polled : list (LogLevel * string);
  drawn : list (LogLevel * string);
  presented : list (LogLevel * string)
}.

(** [render_game_frame(...)] as seen by the channel: the graphics data it
    leaves and the lines it adds to the log.  The bounded [wait_for] yields
    [has_data_to_render] as it stands when the wait ends.  The renderer
    call in between works on the renderer's own members and writes
    [renderer_lines] to the log; it is made only when a chain was got. *)
Definition render_game_frame (renderer_lines : list (LogLevel * string))
    (gd : GraphicsData) : GraphicsData * list (LogLevel * string) :=
  let got_chain := has_data_to_render gd in
  let '(gd1, written) :=
    if got_chain
    then (mkData (frame_idx gd) (frame_idx gd) (has_data_to_render gd)
                 (dma_copier gd),
          renderer_lines)
    else (gd, []) in
  (mkData (frame_idx gd1) (frame_idx_of_input_data gd1) false (dma_copier gd1),
   written).

(** The part of [OpenGLDisplay::render()] that works on the channel, in
    source order: the game frame when the debug gui lets the frame advance,
    the frame counter, and the exit request when the window was closed.
    [None] is the dereference of a null [g_graphics_data].  The window and
    display-mode part of the same method is [Display.render]; the two parts
    share no variable but the log, to which the iteration adds the lines of
    [written] in the order they are written. *)
Definition render (written : IterationLog)
    (should_advance_frame window_should_close : bool)
    (p : Process) : option Process :=
  match g_graphics_data p with
  | None => None
  | Some gd =>
      let '(gd1, frame_lines) :=
        if should_advance_frame
        then render_game_frame (drawn written) gd
        else (gd, []) in
      let gd2 := mkData (u64_wrap (frame_idx gd1 + 1))
                        (frame_idx_of_input_data gd1)
                        (has_data_to_render gd1) (dma_copier gd1) in
      Some (mkProcess (Some gd2)
                      (if window_should_close then EXIT else MasterExit p)
                      (log p ++ polled written ++ frame_lines
                             ++ presented written))
  end.

(** What a call that waits on a condition variable does in a given state of
    the shared data: it returns a value, or it stays blocked. *)
Inductive wait_outcome :=
| Returns (v : Z)
| Blocks.

(** The predicate handed to [sync_cv.wait] by [gl_vsync]. *)
Definition gl_vsync_predicate (init_frame : Z) (exit_status : RuntimeExitStatus)
    (gd : GraphicsData) : bool :=
  negb (is_running exit_status) || (init_frame <? frame_idx gd).

(** [gl_vsync()]. *)
Definition gl_vsync (p : Process) : wait_outcome :=
  match g_graphics_data p with
  | None => Returns 0
  | Some gd =>
      let init_frame := frame_idx_of_input_data gd in
      if gl_vsync_predicate init_frame (MasterExit p) gd
      then Returns (Z.land (frame_idx gd) 1)
      else Blocks
  end.

(** The predicate handed to [sync_cv.wait] by [gl_sync_path]. *)
Definition gl_sync_path_predicate (exit_status : RuntimeExitStatus)
    (gd : GraphicsData) : bool :=
  negb (has_data_to_render gd).

(** [gl_sync_path()]. *)
Definition gl_sync_path (p : Process) : wait_outcome :=
  match g_graphics_data p with
  | None => Returns 0
  | Some gd =>
      if negb (has_data_to_render gd) then Returns 0
      else if gl_sync_path_predicate (MasterExit p) gd then Returns 0
      else Blocks
  end.

(** The predicate handed to [dma_cv.wait_for] by [render_game_frame]. *)
Definition render_game_frame_predicate (exit_status : RuntimeExitStatus)
    (gd : GraphicsData) : bool :=
  has_data_to_render gd.

(** A run of the two threads in which every publish is followed by one
    iteration of the presentation loop; each chain comes with what that
    iteration writes to the log. *)
Fixpoint publish_and_render (chains : list (Z * Z * IterationLog))
    (p : Process) : option Process :=
  match chains with
  | [] => Some p
  | (data, offset, written) :: rest =>
      match render written true false (gl_send_chain data offset p) with
      | Some p' => publish_and_render rest p'
      | None => None
      end
  end.

End Channel.

(* ===================================================================== *)
(** ** Display state machine: game/Display.h, game/opengl.cpp             *)
(* ===================================================================== *)

Module Display.

(** [enum GraphicsDisplayMode { Windowed = 0, Fullscreen = 1, Borderless = 2 }].
    The enum is unscoped and [m_fullscreen_mode] starts as
    [(GraphicsDisplayMode)-1], so a mode is kept as the integer it is. *)
Definition GraphicsDisplayMode := Z.
Definition Windowed : GraphicsDisplayMode := 0.
Definition Fullscreen : GraphicsDisplayMode := 1.
Definition Borderless : GraphicsDisplayMode := 2.

(** [GLFWvidmode]. *)
Record GLFWvidmode := mkVidmode {
  vm_width : Z;
  vm_height : Z;
  redBits : Z;
  greenBits : Z;
  blueBits : Z;
  refreshRate : Z
}.

(** What GLFW reports for one monitor: [glfwGetVideoMode],
    [glfwGetMonitorPos] and [glfwGetMonitorWorkarea]. *)
Record Monitor := mkMonitor {
  video_mode : GLFWvidmode;
  monitor_x : Z;
  monitor_y : Z;
  workarea_x : Z;
  workarea_y : Z;
  workarea_width : Z;
  workarea_height : Z
}.

(** [g_glfw_state.monitors] (with [monitor_count] its length) and the
    platform the program was built for ([#ifdef _WIN32]). *)
Record GlfwState := mkGlfw {
  monitors : list Monitor;
  win32 : bool
}.

(** The window as GLFW holds it: the monitor it is fullscreen on (if any),
    its position, its size and two attributes.  [glfwGetFramebufferSize]
    and the window size are taken to agree (content scale 1). *)
Record Window := mkWindow {
  window_monitor : option Monitor;
  window_x : Z;
  window_y : Z;
  window_width : Z;
  window_height : Z;
  decorated : bool;
  floating : bool
}.

(** [glfwSetWindowMonitor(window, monitor, x, y, w, h, GLFW_DONT_CARE)]
    after the attribute calls that precede it in [update_fullscreen]. *)
Definition glfwSetWindowMonitor (is_decorated is_floating : bool)
    (monitor : option Monitor) (x y w h : Z) : Window :=
  mkWindow monitor x y w h is_decorated is_floating.

(** [class GraphicsDisplay] with the members [OpenGLDisplay] adds. *)
Record OpenGLDisplay := mkDisplay {
  m_fullscreen_screen : Z;
  m_fullscreen_target_screen : Z;
  m_fullscreen_target_mode : GraphicsDisplayMode;
  m_fullscreen_mode : GraphicsDisplayMode;
  m_last_fullscreen_mode : GraphicsDisplayMode;
  m_last_windowed_xpos : Z;
  m_last_windowed_ypos : Z;
  m_last_windowed_width : Z;
  m_last_windowed_height : Z;
  m_window : option Window;
  m_minimized : bool;
  m_last_video_mode : GLFWvidmode
}.

Definition with_target (mode : GraphicsDisplayMode) (screen : Z)
    (d : OpenGLDisplay) : OpenGLDisplay :=
  mkDisplay (m_fullscreen_screen d) screen mode (m_fullscreen_mode d)
            (m_last_fullscreen_mode d)
            (m_last_windowed_xpos d) (m_last_windowed_ypos d)
            (m_last_windowed_width d) (m_last_windowed_height d)
            (m_window d) (m_minimized d) (m_last_video_mode d).

Definition with_windowed_pos (x y : Z) (d : OpenGLDisplay) : OpenGLDisplay :=
  mkDisplay (m_fullscreen_screen d) (m_fullscreen_target_screen d)
            (m_fullscreen_target_mode d) (m_fullscreen_mode d)
            (m_last_fullscreen_mode d)
            x y (m_last_windowed_width d) (m_last_windowed_height d)
            (m_window d) (m_minimized d) (m_last_video_mode d).

Definition with_windowed_size (w h : Z) (d : OpenGLDisplay) : OpenGLDisplay :=
  mkDisplay (m_fullscreen_screen d) (m_fullscreen_target_screen d)
            (m_fullscreen_target_mode d) (m_fullscreen_mode d)
            (m_last_fullscreen_mode d)
            (m_last_windowed_xpos d) (m_last_windowed_ypos d) w h
            (m_window d) (m_minimized d) (m_last_video_mode d).

Definition with_window (w : Window) (d : OpenGLDisplay) : OpenGLDisplay :=
  mkDisplay (m_fullscreen_screen d) (m_fullscreen_target_screen d)
            (m_fullscreen_target_mode d) (m_fullscreen_mode d)
            (m_last_fullscreen_mode d)
            (m_last_windowed_xpos d) (m_last_windowed_ypos d)
            (m_last_windowed_width d) (m_last_windowed_height d)
            (Some w) (m_minimized d) (m_last_video_mode d).

Definition with_minimized (b : bool) (d : OpenGLDisplay) : OpenGLDisplay :=
  mkDisplay (m_fullscreen_screen d) (m_fullscreen_target_screen d)
            (m_fullscreen_target_mode d) (m_fullscreen_mode d)
            (m_last_fullscreen_mode d)
            (m_last_windowed_xpos d) (m_last_windowed_ypos d)
            (m_last_windowed_width d) (m_last_windowed_height d)
            (m_window d) b (m_last_video_mode d).

Definition with_current (mode : GraphicsDisplayMode) (screen : Z)
    (d : OpenGLDisplay) : OpenGLDisplay :=
  mkDisplay screen (m_fullscreen_target_screen d)
            (m_fullscreen_target_mode d) mode
            (m_last_fullscreen_mode d)
            (m_last_windowed_xpos d) (m_last_windowed_ypos d)
            (m_last_windowed_width d) (m_last_windowed_height d)
            (m_window d) (m_minimized d) (m_last_video_mode d).

Definition with_last_mode (mode : GraphicsDisplayMode)
    (d : OpenGLDisplay) : OpenGLDisplay :=
  mkDisplay (m_fullscreen_screen d) (m_fullscreen_target_screen d)
            (m_fullscreen_target_mode d) (m_fullscreen_mode d) mode
            (m_last_windowed_xpos d) (m_last_windowed_ypos d)
            (m_last_windowed_width d) (m_last_windowed_height d)
            (m_window d) (m_minimized d) (m_last_video_mode d).

Definition with_last_video_mode (v : GLFWvidmode)
    (d : OpenGLDisplay) : OpenGLDisplay :=
  mkDisplay (m_fullscreen_screen d) (m_fullscreen_target_screen d)
            (m_fullscreen_target_mode d) (m_fullscreen_mode d)
            (m_last_fullscreen_mode d)
            (m_last_windowed_xpos d) (m_last_windowed_ypos d)
            (m_last_windowed_width d) (m_last_windowed_height d)
            (m_window d) (m_minimized d) v.

(** [GraphicsDisplay::set_fullscreen(mode, screen)]. *)
Definition set_fullscreen (mode : GraphicsDisplayMode) (screen : Z)
    (d : OpenGLDisplay) : OpenGLDisplay :=
  with_target mode screen d.

Definition fullscreen_mode (d : OpenGLDisplay) : GraphicsDisplayMode :=
  m_fullscreen_mode d.

Definition fullscreen_screen (d : OpenGLDisplay) : Z :=
  m_fullscreen_screen d.

Definition last_fullscreen_mode (d : OpenGLDisplay) : GraphicsDisplayMode :=
  m_last_fullscreen_mode d.

(** [GraphicsDisplay::update_last_fullscreen_mode()]. *)
Definition update_last_fullscreen_mode (d : OpenGLDisplay) : OpenGLDisplay :=
  with_last_mode (fullscreen_mode d) d.

Definition minimized (d : OpenGLDisplay) : bool := m_minimized d.

(** [OpenGLDisplay::get_monitor(index)].  [None] is the read of
    [monitors[0]] when GLFW reports no monitor at all. *)
Definition get_monitor (g : GlfwState) (index : Z) : option Monitor :=
  let monitor_count := Z.of_nat (length (monitors g)) in
  let index := if (index <? 0) || (index >=? monitor_count) then 0 else index in
  monitors g !! Z.to_nat index.

(** The window callbacks registered by the constructor. *)
Definition on_window_pos (xpos ypos : Z) (d : OpenGLDisplay) : OpenGLDisplay :=
  if m_fullscreen_target_mode d =? Windowed
  then with_windowed_pos xpos ypos d
  else d.

Definition on_window_size (w h : Z) (d : OpenGLDisplay) : OpenGLDisplay :=
  if m_fullscreen_target_mode d =? Windowed
  then with_windowed_size w h d
  else d.

Definition on_iconify (iconified : bool) (d : OpenGLDisplay) : OpenGLDisplay :=
  with_minimized iconified d.

(** [OpenGLDisplay::update_fullscreen(mode, screen)].  [None] stands for a
    call without a monitor or without a window to act on. *)
Definition update_fullscreen (g : GlfwState) (mode : GraphicsDisplayMode)
    (screen : Z) (d : OpenGLDisplay) : option OpenGLDisplay :=
  monitor ← get_monitor g screen;
  _ ← m_window d;
  if mode =? Windowed then
    let '(x, y, w, h) :=
      if m_last_fullscreen_mode d =? Windowed then
        (m_last_windowed_xpos d, m_last_windowed_ypos d,
         m_last_windowed_width d, m_last_windowed_height d)
      else
        let w := m_last_windowed_width d in
        let h := m_last_windowed_height d in
        (workarea_x monitor + (workarea_width monitor ÷ 2) - (w ÷ 2),
         workarea_y monitor + (workarea_height monitor ÷ 2) - (h ÷ 2),
         w, h) in
    let d1 := with_window (glfwSetWindowMonitor true false None x y w h) d in
    Some (with_windowed_pos x y (with_windowed_size w h d1))
  else if mode =? Fullscreen then
    let vmode := video_mode monitor in
    Some (with_window
            (glfwSetWindowMonitor false false (Some monitor) 0 0
                                  (vm_width vmode) (vm_height vmode)) d)
  else if mode =? Borderless then
    let vmode := video_mode monitor in
    let h := if win32 g then vm_height vmode + 1 else vm_height vmode in
    let is_floating := match m_window d with
                       | Some w => floating w
                       | None => false
                       end in
    Some (with_window
            (glfwSetWindowMonitor false is_floating None
                                  (monitor_x monitor) (monitor_y monitor)
                                  (vm_width vmode) h) d)
  else Some d.

(** [GraphicsDisplay::fullscreen_pending()], the base-class query. *)
Definition base_fullscreen_pending (d : OpenGLDisplay) : bool :=
  negb (fullscreen_mode d =? m_fullscreen_target_mode d)
  || negb (m_fullscreen_screen d =? m_fullscreen_target_screen d).

Definition video_mode_changed (vmode last : GLFWvidmode) : bool :=
  negb (vm_width vmode =? vm_width last)
  || negb (vm_height vmode =? vm_height last)
  || negb (refreshRate vmode =? refreshRate last).

(** [OpenGLDisplay::fullscreen_pending()]. *)
Definition fullscreen_pending (g : GlfwState) (d : OpenGLDisplay)
    : option bool :=
  monitor ← get_monitor g (fullscreen_screen d);
  let vmode := video_mode monitor in
  Some (base_fullscreen_pending d
        || video_mode_changed vmode (m_last_video_mode d)).

(** [GraphicsDisplay::fullscreen_flush()], the base-class transition. *)
Definition base_fullscreen_flush (g : GlfwState) (d : OpenGLDisplay)
    : option OpenGLDisplay :=
  d1 ← update_fullscreen g (m_fullscreen_target_mode d)
                         (m_fullscreen_target_screen d) d;
  Some (with_current (m_fullscreen_target_mode d1)
                     (m_fullscreen_target_screen d1) d1).

(** [OpenGLDisplay::fullscreen_flush()]. *)
Definition fullscreen_flush (g : GlfwState) (d : OpenGLDisplay)
    : option OpenGLDisplay :=
  d1 ← base_fullscreen_flush g d;
  monitor ← get_monitor g (fullscreen_screen d1);
  Some (with_last_video_mode (video_mode monitor) d1).

(** The window events [glfwPollEvents] can deliver to the callbacks. *)
Inductive WindowEvent :=
| WindowPos (xpos ypos : Z)
| WindowSize (w h : Z)
| Iconify (iconified : bool).

Definition dispatch (e : WindowEvent) (d : OpenGLDisplay) : OpenGLDisplay :=
  match e with
  | WindowPos x y => on_window_pos x y d
  | WindowSize w h => on_window_size w h d
  | Iconify b => on_iconify b d
  end.

Definition glfwPollEvents (events : list WindowEvent) (d : OpenGLDisplay)
    : OpenGLDisplay :=
  fold_left (fun acc e => dispatch e acc) events d.

(** The part of [OpenGLDisplay::render()] that works on the display: the
    events polled at the top, and the block "update fullscreen mode, if
    requested" at the bottom.  The channel part of the same method is
    [Channel.render]. *)
Definition render (g : GlfwState) (events : list WindowEvent)
    (d : OpenGLDisplay) : option OpenGLDisplay :=
  let d1 := glfwPollEvents events d in
  let d2 := update_last_fullscreen_mode d1 in
  pending ← fullscreen_pending g d2;
  if pending && negb (minimized d2) then fullscreen_flush g d2 else Some d2.

(** Fullscreen is requested and the next loop iteration runs, then windowed
    mode is requested and the next loop iteration runs; no window event
    arrives in between. *)
Definition fullscreen_round_trip (g : GlfwState) (screen : Z)
    (d : OpenGLDisplay) : option OpenGLDisplay :=
  d1 ← render g [] (set_fullscreen Fullscreen screen d);
  render g [] (set_fullscreen Windowed screen d1).

(** [GraphicsDisplay::width()] and [height()], through [get_size]. *)
Definition width (d : OpenGLDisplay) : option Z :=
  w ← m_window d; Some (window_width w).

Definition height (g : GlfwState) (d : OpenGLDisplay) : option Z :=
  w ← m_window d;
  let h := window_height w in
  Some (if win32 g && (last_fullscreen_mode d =? Borderless) then h - 1 else h).

Definition is_active (d : OpenGLDisplay) : bool :=
  match m_window d with Some _ => true | None => false end.

(** [Display::g_displays] and [Display::GetMainDisplay()]. *)
Definition GetMainDisplay (g_displays : list OpenGLDisplay)
    : option OpenGLDisplay :=
  match g_displays with
  | [] => None
  | front :: _ => if is_active front then Some front else None
  end.

End Display.

(* ===================================================================== *)
(** ** Graphics front end: game/Graphics.cpp, game/Peripherals.h          *)
(* ===================================================================== *)

Module Graphics.

(** [Peripherals::CONTROLLER_COUNT] and [(int)Peripherals::Button::Max]. *)
Definition CONTROLLER_COUNT : Z := 2.
Definition Button_Max : Z := 16.

(** The two button tables of [Peripherals::MappingInfo], declared
    [int [CONTROLLER_COUNT][(int)Button::Max]]: a list of rows. *)
Record MappingInfo := mkMapping {
  ControllerButtonMapping : list (list Z);
  KeyboardButtonMapping : list (list Z)
}.

(** The globals the queries below read: [Display::g_displays],
    [g_settings.PeripheralMappingInfo], [g_gamepads.gamepad_idx] (declared
    [int [CONTROLLER_COUNT]]) and the log. *)
Record Globals := mkGlobals {
  g_displays : list Display.OpenGLDisplay;
  PeripheralMappingInfo : MappingInfo;
  gamepad_idx : list Z;
  log : list (Channel.LogLevel * string)
}.

(** The arrays have the sizes they are declared with. *)
Definition well_formed (st : Globals) : Prop :=
  length (gamepad_idx st) = Z.to_nat CONTROLLER_COUNT
  /\ length (ControllerButtonMapping (PeripheralMappingInfo st))
     = Z.to_nat CONTROLLER_COUNT
  /\ length (KeyboardButtonMapping (PeripheralMappingInfo st))
     = Z.to_nat CONTROLLER_COUNT
  /\ Forall (fun row => length row = Z.to_nat Button_Max)
            (ControllerButtonMapping (PeripheralMappingInfo st))
  /\ Forall (fun row => length row = Z.to_nat Button_Max)
            (KeyboardButtonMapping (PeripheralMappingInfo st)).

(** Conversion of an [int] to the [u64] the query returns. *)
Definition to_u64 (z : Z) : Z := z mod 2 ^ 64.

(** A query returns its value and leaves the globals as it hands them
    back.  A value of [None] is a call GLFW was given no window for. *)
Definition query (A : Type) := Globals -> option A * Globals.

(** [Graphics::get_window_width()]. *)
Definition get_window_width : query Z := fun st =>
  match Display.GetMainDisplay (g_displays st) with
  | Some d => (to_u64 <$> Display.width d, st)
  | None => (Some 0, st)
  end.

(** [Graphics::get_window_height()]. *)
Definition get_window_height (g : Display.GlfwState) : query Z := fun st =>
  match Display.GetMainDisplay (g_displays st) with
  | Some d => (to_u64 <$> Display.height g d, st)
  | None => (Some 0, st)
  end.

(** [Graphics::get_fullscreen()]. *)
Definition get_fullscreen : query Display.GraphicsDisplayMode := fun st =>
  match Display.GetMainDisplay (g_displays st) with
  | Some d => (Some (Display.fullscreen_mode d), st)
  | None => (Some Display.Windowed, st)
  end.

(** [Peripherals::GetGamepadState(pad)]; [None] is a read past the end of
    [gamepad_idx]. *)
Definition GetGamepadState (pad : Z) (st : Globals) : option Z :=
  gamepad_idx st !! Z.to_nat pad.

Definition mapped_button_error : string :=
  "Invalid parameters to get_mapped_button".

(** [Graphics::get_mapped_button(pad, button)].  A value of [None] is an
    array read outside the declared bounds. *)
Definition get_mapped_button (pad button : Z) : query Z := fun st =>
  if (pad <? 0) || (pad >? CONTROLLER_COUNT) || (button <? 0) || (button >? 16)
  then
    (Some (-1),
     mkGlobals (g_displays st) (PeripheralMappingInfo st) (gamepad_idx st)
               (log st ++ [(Channel.LgError, mapped_button_error)]))
  else
    (state ← GetGamepadState pad st;
     let table :=
       if state >? -1
       then ControllerButtonMapping (PeripheralMappingInfo st)
       else KeyboardButtonMapping (PeripheralMappingInfo st) in
     row ← table !! Z.to_nat pad;
     row !! Z.to_nat button,
     st).

(** The indices the two tables can be read at. *)
Definition in_bounds (pad button : Z) : Prop :=
  0 <= pad < CONTROLLER_COUNT /\ 0 <= button < Button_Max.

End Graphics.

(* ===================================================================== *)
(** ** Sample states                                                      *)
(* ===================================================================== *)

Module Samples.

(** A driver that completes every framebuffer. *)
Definition complete_driver (w h msaa : Z) (zbuf : bool) : bool := true.

Definition empty_gl : Renderer.GLContext := Renderer.mkGL [] [] [] 0.

(** The renderer before its first frame. *)
Definition fresh_renderer : Renderer.World :=
  Renderer.mkWorld
    (Renderer.mkFboState Renderer.default_fbo Renderer.default_fbo
                         Renderer.default_fbo None)
    empty_gl.

(** 640x480 game in a 640x480 window, no multisampling. *)
Definition direct_options : Renderer.RenderOptions :=
  Renderer.mkOptions 640 480 640 480 640 480 1.

(** 640x480 game with 4 samples in a 1280x720 window. *)
Definition msaa_options : Renderer.RenderOptions :=
  Renderer.mkOptions 640 480 1280 720 640 480 4.

(** The renderer after a first frame drawn with [msaa_options]. *)
Definition msaa_renderer : Renderer.World :=
  Renderer.state_of
    (Renderer.setup_frame complete_driver msaa_options fresh_renderer).

Definition idle_data : Channel.GraphicsData :=
  Channel.mkData 5 5 false (Channel.mkCopier 0 0).

Definition pending_data : Channel.GraphicsData :=
  Channel.mkData 5 4 true (Channel.mkCopier 4096 100).

Definition idle_process : Channel.Process :=
  Channel.mkProcess (Some idle_data) Channel.RUNNING [].

Definition pending_process : Channel.Process :=
  Channel.mkProcess (Some pending_data) Channel.RUNNING [].

(** The window was closed while a chain is still waiting to be drawn. *)
Definition exiting_process : Channel.Process :=
  Channel.mkProcess (Some pending_data) Channel.EXIT [].

(** One 1920x1080 monitor at 60 Hz with a 40 pixel task bar. *)
Definition monitor0 : Display.Monitor :=
  Display.mkMonitor (Display.mkVidmode 1920 1080 8 8 8 60) 0 0 0 0 1920 1040.

Definition one_monitor : Display.GlfwState := Display.mkGlfw [monitor0] false.

(** A decorated 640x480 window at (100, 50). *)
Definition window0 : Display.Window :=
  Display.mkWindow None 100 50 640 480 true false.

(** A display that has settled in windowed mode on monitor 0. *)
Definition windowed_display : Display.OpenGLDisplay :=
  Display.mkDisplay 0 0 Display.Windowed Display.Windowed Display.Windowed
                    100 50 640 480 (Some window0) false
                    (Display.mkVidmode 1920 1080 8 8 8 60).

(** The same display after [set_fullscreen(Windowed, 1)]: only the target
    screen differs from the current one. *)
Definition retargeted_display : Display.OpenGLDisplay :=
  Display.set_fullscreen Display.Windowed 1 windowed_display.

(** A display whose window is gone. *)
Definition closed_display : Display.OpenGLDisplay :=
  Display.mkDisplay 0 0 Display.Windowed Display.Fullscreen Display.Fullscreen
                    100 50 640 480 None false
                    (Display.mkVidmode 1920 1080 8 8 8 60).

Definition default_row : list Z := repeat (-1) 16.

Definition sample_globals : Graphics.Globals :=
  Graphics.mkGlobals []
    (Graphics.mkMapping [default_row; default_row] [default_row; default_row])
    [-1; -1] [].

(** The globals when the only display has lost its window. *)
Definition closed_globals : Graphics.Globals :=
  Graphics.mkGlobals [closed_display]
    (Graphics.mkMapping [default_row; default_row] [default_row; default_row])
    [-1; -1] [].

End Samples.

(* ===================================================================== *)
(** ** Runs of the frame channel                                          *)
(* ===================================================================== *)

Module ChannelRuns.
Import Channel.

(** The producer calls [gl_send_chain] for each chain in turn while the
    render thread does not run. *)
Definition publish_all (chains : list (Z * Z)) (p : Process) : Process :=
  fold_left (fun q c => gl_send_chain (fst c) (snd c) q) chains p.

Definition fbo_requested : string := "FBO Setup: requested {}x{}, msaa {}".
Definition fbo_direct : string :=
  "FBO Setup: rendering directly to window framebuffer".
Definition fbo_no_match : string := "FBO Setup: window didn't match: {} {}".
Definition fbo_second : string :=
  "FBO Setup: using second temporary buffer: res: {}x{} {}x{}".
Definition fbo_no_second : string :=
  "FBO Setup: not using second temporary buffer".
Definition fbo_failed : string := "Failed to setup framebuffer: {} {} {} {}".

(** The lines [OpenGLRenderer::setup_frame] writes to the log, in order:
    the [lg::info] calls of the branch that sets up new targets and the
    [lg::error] of a [make_fbo] whose framebuffer is incomplete, after
    which the assertion ends the frame.  The tests are those of
    [Renderer.setup_frame]. *)
Definition setup_frame_lines (framebuffer_complete : Z -> Z -> Z -> bool -> bool)
    (settings : Renderer.RenderOptions) (st : Renderer.World)
    : list (LogLevel * string) :=
  let w := Renderer.game_res_w settings in
  let h := Renderer.game_res_h settings in
  let msaa := Renderer.msaa_samples settings in
  let window_fb :=
    Renderer.refreshed_window settings
      (Renderer.window (Renderer.m_fbo_state st)) in
  if Renderer.re_resolves settings st then
    (LgInfo, fbo_requested) ::
    (if Renderer.matches window_fb w h msaa then [(LgInfo, fbo_direct)]
     else
       (LgInfo, fbo_no_match) ::
       (if framebuffer_complete w h msaa true then
          if negb (Renderer.multisample_count window_fb =? msaa) then
            (LgInfo, fbo_second) ::
            (if framebuffer_complete w h 1 false then []
             else [(LgError, fbo_failed)])
          else [(LgInfo, fbo_no_second)]
        else [(LgError, fbo_failed)]))
  else [].

(** An iteration in which nothing but the channel code runs into the log. *)
Definition quiet : IterationLog := mkIterationLog [] [] [].

(** The first drawn frame of a renderer asked for 4 samples: [setup_frame]
    reports the request, the window that did not match and the second
    buffer. *)
Definition first_frame : IterationLog :=
  mkIterationLog []
    (setup_frame_lines Samples.complete_driver Samples.msaa_options
                       Samples.fresh_renderer)
    [].

End ChannelRuns.

(* ===================================================================== *)
(** ** Screenshots and render options: OpenGLRenderer.cpp, opengl.cpp     *)
(* ===================================================================== *)

Module Screenshot.
Import Renderer.

(** [std::swap(buffer[i], buffer[j])].  An index outside the vector is
    undefined in the source; the loops below never produce one. *)
Definition swap (i j : nat) (buffer : list Z) : list Z :=
  match buffer !! i, buffer !! j with
  | Some x, Some y => <[j := x]> (<[i := y]> buffer)
  | _, _ => buffer
  end.

(** The loop "flip upside down in place" of [finish_screenshot]. *)
Definition flip_rows (width height : nat) (buffer : list Z) : list Z :=
  fold_left
    (fun buf h =>
       fold_left
         (fun buf w => swap (h * width + w) ((height - h - 1) * width + w) buf)
         (seq 0 width) buf)
    (seq 0 (height / 2)) buffer.

(** The row a pixel of row [r] comes from after [m] rounds of the outer
    loop. *)
Definition source_row (m H r : nat) : nat :=
  if decide (r < m \/ H - m <= r)%nat then (H - 1 - r)%nat else r.

(** The loop "set alpha": [px |= 0xff000000] for every pixel. *)
Definition set_alpha (buffer : list Z) : list Z :=
  map (fun px => Z.lor px 0xff000000) buffer.

(** [finish_screenshot(output_name, width, height, x, y, fbo)]: [pixels] is
    what [glReadPixels] stored in the [width * height] vector, bottom row
    first; the result is the buffer handed to [write_rgba_png]. *)
Definition finish_screenshot (width height : Z) (pixels : list Z) : list Z :=
  set_alpha (flip_rows (Z.to_nat width) (Z.to_nat height) pixels).

(** The buffer [OpenGLRenderer::render] takes the screenshot from: the
    resolve buffer when it is valid, else the render target. *)
Definition screenshot_src (fs : FboState) : option Fbo :=
  if valid (resolve_buffer fs) then Some (resolve_buffer fs)
  else deref fs <$> render_fbo fs.

(** What the targets are to each other once a frame has chosen them. *)
Definition targets_coherent (st : World) : Prop :=
  let fs := m_fbo_state st in
  match render_fbo fs with
  | None => True
  | Some RefWindow =>
      valid (render_buffer fs) = false /\ valid (resolve_buffer fs) = false
  | Some RefRenderBuffer =>
      valid (render_buffer fs) = true
      /\ multisampled (render_buffer fs)
         = (1 <? multisample_count (render_buffer fs))
      /\ (if valid (resolve_buffer fs)
          then multisampled (resolve_buffer fs) = false
               /\ width (resolve_buffer fs) = width (render_buffer fs)
               /\ height (resolve_buffer fs) = height (render_buffer fs)
          else multisample_count (render_buffer fs) = 1)
  end.





#[local] Instance ascii_eq_dec : EqDecision Ascii.ascii := Ascii.ascii_dec.

(** [endsWith(str, suffix)]: [str.compare(pos, len, suffix)] is 0 exactly
    when the [len] characters of [str] from [pos] are [suffix]. *)
Definition endsWith (str suffix : list Ascii.ascii) : bool :=
  (length suffix <=? length str)%nat
  && bool_decide
       (take (length suffix) (drop (length str - length suffix) str) = suffix).

Definition png_extension : list Ascii.ascii := list_ascii_of_string ".png".

(** "ensure the screenshot has an extension" in [render_game_frame]. *)
Definition screenshot_file_name (temp_path : list Ascii.ascii)
    : list Ascii.ascii :=
  if negb (endsWith temp_path png_extension)
  then temp_path ++ png_extension
  else temp_path.

(** A 2 x 3 image, bottom row first as [glReadPixels] delivers it. *)
Definition sample_pixels : list Z :=
  [0x00000001; 0x00000002; 0x10000003; 0x10000004; 0x7f000005; 0xff000006].

End Screenshot.

(* ===================================================================== *)
(** ** Keys, pads and input mode: game/Peripherals.cpp                    *)
(* ===================================================================== *)

Module Peripherals.

(** The constants of GLFW/glfw3.h the code refers to.  The header belongs
    to a third-party library, so the values are parameters. *)
Record GlfwConstants := mkConstants {
  GLFW_KEY_LAST : Z;
  GLFW_MOUSE_BUTTON_LAST : Z;
  GLFW_KEY_ESCAPE : Z;
  GLFW_JOYSTICK_1 : Z;
  GLFW_JOYSTICK_LAST : Z
}.

(** [glfw::NUM_KEYS] of opengl.h. *)
Definition NUM_KEYS (K : GlfwConstants) : Z :=
  GLFW_KEY_LAST K + GLFW_MOUSE_BUTTON_LAST K + 1.

Definition CONTROLLER_COUNT : Z := 2.
Definition Button_Max : Z := 16.

(** A call ends normally, at a failed [ASSERT], or in a read or write
    outside an array (undefined in the source). *)
Inductive fault := AssertionFailed | OutOfBounds.

Inductive outcome (A : Type) :=
| Ok (a : A)
| Fault (f : fault).
Arguments Ok {A} a.
Arguments Fault {A} f.

Definition bind {A B} (m : outcome A) (k : A -> outcome B) : outcome B :=
  match m with
  | Ok a => k a
  | Fault f => Fault f
  end.

Notation "'do' x <- m ; k" := (bind m (fun x => k))
  (at level 10, x name, m at level 100, k at level 200).

(** [array[i]] as a read and [array[i] = v] as a write. *)
Definition load {A} (array : list A) (i : Z) : outcome A :=
  if (0 <=? i) && (i <? Z.of_nat (length array)) then
    match array !! Z.to_nat i with
    | Some v => Ok v
    | None => Fault OutOfBounds
    end
  else Fault OutOfBounds.

Definition store {A} (array : list A) (i : Z) (v : A) : outcome (list A) :=
  if (0 <=? i) && (i <? Z.of_nat (length array))
  then Ok (<[Z.to_nat i := v]> array)
  else Fault OutOfBounds.

Definition load2 {A} (table : list (list A)) (i j : Z) : outcome A :=
  do row <- load table i; load row j.

Definition store2 {A} (table : list (list A)) (i j : Z) (v : A)
    : outcome (list (list A)) :=
  do row <- load table i;
  do row' <- store row j v;
  store table i row'.

(** [enum class InputModeStatus]. *)
Inductive InputModeStatus := Disabled | Enabled | Canceled.

(** The flags and the two button tables of [MappingInfo]; the analog tables
    and the mouse sensitivities are used by the analog functions only. *)
Record MappingInfo := mkMappingInfo {
  IsDebugModeEnabled : bool;
  IsBufferedInputEnabled : bool;
  ControllerButtonMapping : list (list Z);
  KeyboardButtonMapping : list (list Z)
}.

(** The tables as [Graphics::get_mapped_button] reads them. *)
Definition button_tables (m : MappingInfo) : Graphics.MappingInfo :=
  Graphics.mkMapping (ControllerButtonMapping m) (KeyboardButtonMapping m).

(** The globals of Peripherals.cpp that hold buttons and keys. *)
Record State := mkState {
  g_key_status : list bool;
  g_buffered_key_status : list bool;
  g_gamepad_buttons : list (list bool);
  gamepad_idx : list Z;
  input_mode : InputModeStatus;
  input_mode_pad : Z;
  input_mode_key : Z;
  input_mode_index : Z;
  g_input_mode_mapping : MappingInfo;
  log : list (Channel.LogLevel * string)
}.

Definition with_keys (ks bs : list bool) (st : State) : State :=
  mkState ks bs (g_gamepad_buttons st) (gamepad_idx st) (input_mode st)
          (input_mode_pad st) (input_mode_key st) (input_mode_index st)
          (g_input_mode_mapping st) (log st).

Definition with_log (l : list (Channel.LogLevel * string)) (st : State)
    : State :=
  mkState (g_key_status st) (g_buffered_key_status st) (g_gamepad_buttons st)
          (gamepad_idx st) (input_mode st) (input_mode_pad st)
          (input_mode_key st) (input_mode_index st) (g_input_mode_mapping st) l.

Definition with_gamepad_idx (idx : list Z) (st : State) : State :=
  mkState (g_key_status st) (g_buffered_key_status st) (g_gamepad_buttons st)
          idx (input_mode st) (input_mode_pad st)
          (input_mode_key st) (input_mode_index st) (g_input_mode_mapping st)
          (log st).

Definition with_input_mode (mode : InputModeStatus) (pad key index : Z)
    (m : MappingInfo) (st : State) : State :=
  mkState (g_key_status st) (g_buffered_key_status st) (g_gamepad_buttons st)
          (gamepad_idx st) mode pad key index m (log st).

(** The arrays have the sizes they are declared with. *)
Definition mapping_well_formed (m : MappingInfo) : Prop :=
  length (ControllerButtonMapping m) = Z.to_nat CONTROLLER_COUNT
  /\ length (KeyboardButtonMapping m) = Z.to_nat CONTROLLER_COUNT
  /\ Forall (fun row => length row = Z.to_nat Button_Max)
            (ControllerButtonMapping m)
  /\ Forall (fun row => length row = Z.to_nat Button_Max)
            (KeyboardButtonMapping m).

Definition well_formed (K : GlfwConstants) (st : State) : Prop :=
  length (g_key_status st) = Z.to_nat (NUM_KEYS K)
  /\ length (g_buffered_key_status st) = Z.to_nat (NUM_KEYS K)
  /\ length (g_gamepad_buttons st) = Z.to_nat CONTROLLER_COUNT
  /\ Forall (fun row => length row = Z.to_nat Button_Max)
            (g_gamepad_buttons st)
  /\ length (gamepad_idx st) = Z.to_nat CONTROLLER_COUNT
  /\ mapping_well_formed (g_input_mode_mapping st).

Definition to_u64 (z : Z) : Z := z mod 2 ^ 64.

Definition clear_key_warning : string :=
  "ClearKey failed: Attempted to clear invalid key".

(** [ClearKey(key)]. *)
Definition ClearKey (K : GlfwConstants) (key : Z) (st : State)
    : outcome State :=
  if (key <? 0) || (key >? NUM_KEYS K) then
    Ok (with_log (log st ++ [(Channel.LgWarn, clear_key_warning)]) st)
  else
    do ks <- store (g_key_status st) key false;
    do bs <- store (g_buffered_key_status st) key false;
    Ok (with_keys ks bs st).

(** [ForceClearKeys()]. *)
Definition ForceClearKeys (st : State) : State :=
  with_keys (map (fun _ => false) (g_key_status st))
            (map (fun _ => false) (g_buffered_key_status st)) st.

(** [ClearKeys()]: the loop over [key = 0 .. NUM_KEYS - 1]. *)
Definition ClearKeys (K : GlfwConstants) (st : State) : outcome State :=
  fold_left
    (fun acc key =>
       do s <- acc;
       do v <- load (g_key_status s) key;
       do bs <- store (g_buffered_key_status s) key v;
       Ok (with_keys (g_key_status s) bs s))
    (seqZ 0 (NUM_KEYS K)) (Ok st).

Definition pad_error : string := "Invalid pad".

(** [CheckPadIdx(pad)]. *)
Definition CheckPadIdx (pad : Z) (st : State) : Z * State :=
  if (pad <? 0) || (pad >=? CONTROLLER_COUNT)
  then (-1, with_log (log st ++ [(Channel.LgError, pad_error)]) st)
  else (pad, st).

(** [MapButton(mapping, button, pad, key)]; the mapping is the one passed by
    reference, [button] is [(int)button]. *)
Definition MapButton (button pad key : Z) (mapping : MappingInfo) (st : State)
    : outcome (MappingInfo * State) :=
  let '(checked, st1) := CheckPadIdx pad st in
  if checked =? -1 then Ok (mapping, st1)
  else
    do idx <- load (gamepad_idx st1) pad;
    if idx =? -1 then
      do table <- store2 (KeyboardButtonMapping mapping) pad button key;
      Ok (mkMappingInfo (IsDebugModeEnabled mapping)
                        (IsBufferedInputEnabled mapping)
                        (ControllerButtonMapping mapping) table, st1)
    else
      do table <- store2 (ControllerButtonMapping mapping) pad button key;
      Ok (mkMappingInfo (IsDebugModeEnabled mapping)
                        (IsBufferedInputEnabled mapping)
                        table (KeyboardButtonMapping mapping), st1).

(** [EnterInputMode()] and [ExitInputMode(canceled)]. *)
Definition EnterInputMode (st : State) : State :=
  with_input_mode Enabled 0 (input_mode_key st) 0 (g_input_mode_mapping st) st.

Definition ExitInputMode (canceled : bool) (st : State) : State :=
  with_input_mode (if canceled then Canceled else Disabled)
                  (input_mode_pad st) (input_mode_key st) (input_mode_index st)
                  (g_input_mode_mapping st) st.

Definition is_enabled (m : InputModeStatus) : bool :=
  match m with Enabled => true | _ => false end.

(** [OnKeyPress(key)]; [imgui_active] is [ImGui::IsAnyItemActive()]. *)
Definition OnKeyPress (K : GlfwConstants) (imgui_active : bool) (key : Z)
    (st : State) : outcome State :=
  if imgui_active then Ok st
  else if is_enabled (input_mode st) then
    if key =? GLFW_KEY_ESCAPE K then Ok (ExitInputMode true st)
    else
      let index := input_mode_index st in
      do r <- MapButton index (input_mode_pad st) key
                (g_input_mode_mapping st) st;
      let '(m, st1) := r in
      let st2 := with_input_mode (input_mode st1) (input_mode_pad st1)
                   (to_u64 key) (to_u64 (index + 1)) m st1 in
      if input_mode_index st2 >=? Button_Max
      then Ok (ExitInputMode false st2)
      else Ok st2
  else if key <? NUM_KEYS K then
    do ks <- store (g_key_status st) key true;
    do bs <- store (g_buffered_key_status st) key true;
    Ok (with_keys ks bs st)
  else Fault AssertionFailed.

(** [OnKeyRelease(key)]. *)
Definition OnKeyRelease (K : GlfwConstants) (key : Z) (st : State)
    : outcome State :=
  if is_enabled (input_mode st) then Ok st
  else if key <? NUM_KEYS K then
    do ks <- store (g_key_status st) key false;
    Ok (with_keys ks (g_buffered_key_status st) st)
  else Fault AssertionFailed.

(** [IsPressed(mapping, button, pad)]. *)
Definition IsPressed (K : GlfwConstants) (mapping : MappingInfo)
    (button pad : Z) (st : State) : outcome (Z * State) :=
  let '(checked, st1) := CheckPadIdx pad st in
  if checked =? -1 then Ok (0, st1)
  else
    do pressed <- load2 (g_gamepad_buttons st1) pad button;
    if (pressed : bool) then Ok (1, st1)
    else
      do key <- load2 (KeyboardButtonMapping mapping) pad button;
      if key =? -1 then Ok (0, st1)
      else
        let keymap := if IsBufferedInputEnabled mapping
                      then g_buffered_key_status st1
                      else g_key_status st1 in
        if key <? NUM_KEYS K then
          do v <- load keymap key;
          Ok (if (v : bool) then 1 else 0, st1)
        else Fault AssertionFailed.

(** [OpenGLDisplay::on_mouse_key]: [cursor_normal] is
    [g_cursor_input_mode == GLFW_CURSOR_NORMAL], [pressed] tells a press
    from a release (a repeat does nothing). *)
Inductive KeyAction := Press | Release | Repeat.

Definition on_mouse_key (K : GlfwConstants) (cursor_normal imgui_active : bool)
    (button : Z) (action : KeyAction) (st : State) : outcome State :=
  let key := button + GLFW_KEY_LAST K in
  if (button =? 0) && cursor_normal then ClearKey K key st
  else
    match action with
    | Press => OnKeyPress K imgui_active key st
    | Release => OnKeyRelease K key st
    | Repeat => Ok st
    end.

(** Pressing the keys of a list one after the other. *)
Definition press_keys (K : GlfwConstants) (keys : list Z) (st : State)
    : outcome State :=
  fold_left (fun acc key => do s <- acc; OnKeyPress K false key s) keys (Ok st).

(** [check_pad(pad)] inside [check_gamepads]: [present] is
    [glfwJoystickPresent], [is_gamepad] is [glfwJoystickIsGamepad]. *)
Definition check_pad (K : GlfwConstants) (present is_gamepad : Z -> bool)
    (pad : Z) (st : State) : outcome (bool * State) :=
  do idx <- load (gamepad_idx st) pad;
  if idx =? -1 then
    do idx0 <- load (gamepad_idx st) 0;
    match
      find (fun i => negb ((pad =? 1) && (i =? idx0))
                     && present i && is_gamepad i)
           (seqZ (GLFW_JOYSTICK_1 K)
                 (GLFW_JOYSTICK_LAST K - GLFW_JOYSTICK_1 K + 1))
    with
    | Some i =>
        do idxs <- store (gamepad_idx st) pad i;
        Ok (true, with_log (log st ++ [(Channel.LgInfo, "Using joystick"%string)])
                    (with_gamepad_idx idxs st))
    | None => Ok (true, st)
    end
  else if negb (present idx) then
    do idxs <- store (gamepad_idx st) pad (-1);
    Ok (false,
        with_log (log st ++ [(Channel.LgInfo, "Pad has been disconnected"%string)])
                 (with_gamepad_idx idxs st))
  else Ok (true, st).

(** [check_gamepads()]. *)
Definition check_gamepads (K : GlfwConstants) (present is_gamepad : Z -> bool)
    (st : State) : outcome State :=
  do r <- check_pad K present is_gamepad 0 st;
  let '(ok, st1) := r in
  if (ok : bool) then
    do r1 <- check_pad K present is_gamepad 1 st1;
    Ok (snd r1)
  else
    do idxs <- store (gamepad_idx st1) 1 (-1);
    Ok (with_gamepad_idx idxs st1).

(** No two pads on one joystick, and no second pad without a first. *)
Definition pads_distinct (st : State) : Prop :=
  exists idx0 idx1,
    gamepad_idx st = [idx0; idx1]
    /\ (idx0 = -1 -> idx1 = -1)
    /\ (idx0 <> -1 -> idx0 <> idx1).

(** GLFW 3: the values of glfw3.h. *)
Definition glfw3 : GlfwConstants := mkConstants 348 7 256 0 15.

(** A mapping after the first loop of [DefaultMapping] ("make every button
    invalid"): every entry of both tables is -1. *)
Definition unmapped : MappingInfo :=
  mkMappingInfo true true (repeat (repeat (-1) 16) 2) (repeat (repeat (-1) 16) 2).

(** A [MappingInfo] with static storage before anything is written to it:
    the two flags have their default member initialisers, the tables are
    zero-initialised. *)
Definition zero_mapping : MappingInfo :=
  mkMappingInfo true true (repeat (repeat 0 16) 2) (repeat (repeat 0 16) 2).

(** Cross on pad 0 bound to the space bar (GLFW key 32). *)
Definition space_mapping : MappingInfo :=
  mkMappingInfo true true (repeat (repeat (-1) 16) 2)
                [<[14%nat := 32]> (repeat (-1) 16); repeat (-1) 16].

(** The globals as they are initialised: the key and button arrays and
    [g_input_mode_mapping]'s tables are zero, [gamepad_idx] is [{-1, -1}],
    [input_mode_key] is [(uint64_t)-1]. *)
Definition initial_state : State :=
  mkState (repeat false 356) (repeat false 356) (repeat (repeat false 16) 2)
          [-1; -1] Disabled 0 (to_u64 (-1)) 0 zero_mapping [].

End Peripherals.

(* ===================================================================== *)
(** ** Game versions: common/versions.h, common/versions.cpp              *)
(* ===================================================================== *)

Module Versions.

(** [enum class GameVersion { Sly1 = 1, Sly2 = 2 }] and the cast
    [(int)v]. *)
Inductive GameVersion := Sly1 | Sly2.

Definition to_int (v : GameVersion) : Z :=
  match v with Sly1 => 1 | Sly2 => 2 end.

(** [PerGameVersion<T>]: the constructor fills [data[2]], [operator[]]
    reads [data[(int)v - 1]]. *)
Definition PerGameVersion (T : Type) := list T.

Definition mkPerGameVersion {T} (sly1 sly2 : T) : PerGameVersion T :=
  [sly1; sly2].

Definition PerGameVersion_at {T} (p : PerGameVersion T) (v : GameVersion)
    : option T :=
  p !! Z.to_nat (to_int v - 1).

Definition game_version_names : PerGameVersion string :=
  mkPerGameVersion "sly1"%string "sly2"%string.

(** [game_name_to_version(name)]; [None] is the failed [ASSERT_MSG]. *)
Definition game_name_to_version (name : string) : option GameVersion :=
  if String.eqb name "sly1" then Some Sly1
  else if String.eqb name "sly2" then Some Sly2
  else None.

(** [valid_game_version(name)]. *)
Definition valid_game_version (name : string) : bool :=
  String.eqb name "sly1" || String.eqb name "sly2".

End Versions.

(* ===================================================================== *)
(** ** Video modes of the fullscreen screen: game/opengl.cpp              *)
(* ===================================================================== *)

Module Screens.
Import Display.

Section VideoModes.

(** [glfwGetVideoModes(monitor, &count)]: the modes the monitor supports,
    [count] being the length of the list. *)
Variable glfwGetVideoModes : Monitor -> list GLFWvidmode.

(** [OpenGLDisplay::get_screen_vmode_count()]. *)
Definition get_screen_vmode_count (g : GlfwState) (d : OpenGLDisplay)
    : option Z :=
  monitor ← get_monitor g (fullscreen_screen d);
  Some (Z.of_nat (length (glfwGetVideoModes monitor))).

(** [OpenGLDisplay::get_screen_size(vmode_idx, w_out, h_out)] called with
    both out pointers.  [vmode] is the pointer the code moves; [None] as a
    result is a read past the modes or through a null [vmode]. *)
Definition get_screen_size (g : GlfwState) (vmode_idx : Z)
    (d : OpenGLDisplay) : option (Z * Z) :=
  monitor ← get_monitor g (fullscreen_screen d);
  let vmode := Some (video_mode monitor) in
  let vmodes := glfwGetVideoModes monitor in
  chosen ←
    (if vmode_idx >=? 0 then vmodes !! Z.to_nat vmode_idx
     else if fullscreen_mode d =? Fullscreen then
       fold_left
         (fun vmode m =>
            match vmode with
            | None => Some m
            | Some v => if vm_height v <? vm_height m then Some m else Some v
            end)
         vmodes vmode
     else vmode);
  Some (vm_width chosen, vm_height chosen).

(** [OpenGLDisplay::get_screen_rate(vmode_idx)]. *)
Definition get_screen_rate (g : GlfwState) (vmode_idx : Z)
    (d : OpenGLDisplay) : option Z :=
  monitor ← get_monitor g (fullscreen_screen d);
  let vmode := Some (video_mode monitor) in
  let vmodes := glfwGetVideoModes monitor in
  chosen ←
    (if vmode_idx >=? 0 then vmodes !! Z.to_nat vmode_idx
     else if fullscreen_mode d =? Fullscreen then
       fold_left
         (fun vmode m =>
            match vmode with
            | None => Some m
            | Some v => if refreshRate v <? refreshRate m then Some m
                        else Some v
            end)
         vmodes vmode
     else vmode);
  Some (refreshRate chosen).

End VideoModes.

(** The modes of a monitor that also runs at 4K, at 30 Hz only. *)
Definition sample_modes (monitor : Monitor) : list GLFWvidmode :=
  [mkVidmode 1280 720 8 8 8 144; mkVidmode 1920 1080 8 8 8 60;
   mkVidmode 3840 2160 8 8 8 30].

(** A display that has settled in fullscreen mode on monitor 0. *)
Definition fullscreen_display : OpenGLDisplay :=
  mkDisplay 0 0 Fullscreen Fullscreen Fullscreen 100 50 640 480
            (Some Samples.window0) false (mkVidmode 1920 1080 8 8 8 60).

End Screens.

(* ===================================================================== *)
(** ** The main display: game/Display.cpp, game/Graphics.cpp              *)
(* ===================================================================== *)

Module MainDisplay.
Import Display.

(** [set_main_display(display)]. *)
Definition set_main_display (display : OpenGLDisplay)
    (g_displays : list OpenGLDisplay) : list OpenGLDisplay :=
  if Z.of_nat (length g_displays) >? 0
  then <[0%nat := display]> g_displays
  else g_displays ++ [display].

Definition already_exists : string :=
  "InitMainDisplay called when main display already exists.".

Definition failed_to_make : string := "Failed to make main display.".

(** [Display::InitMainDisplay(...)].  [renderer] is
    [Graphics::GetCurrentRenderer()], given by what its [make_display]
    returns for the arguments of the call; without a renderer the call
    goes through a null pointer ([None]). *)
Definition InitMainDisplay (renderer : option (option OpenGLDisplay))
    (g_displays : list OpenGLDisplay) (log : list (Channel.LogLevel * string))
    : option (Z * list OpenGLDisplay * list (Channel.LogLevel * string)) :=
  match GetMainDisplay g_displays with
  | Some _ => Some (1, g_displays, log ++ [(Channel.LgWarn, already_exists)])
  | None =>
      made ← renderer;
      match made with
      | None => Some (1, g_displays,
                      log ++ [(Channel.LgError, failed_to_make)])
      | Some display => Some (0, set_main_display display g_displays, log)
      end
  end.

(** [Graphics::set_fullscreen(mode, screen)]: the main display is shared,
    so the call changes the first entry of [g_displays]. *)
Definition set_fullscreen (mode : GraphicsDisplayMode) (screen : Z)
    (g_displays : list OpenGLDisplay) : list OpenGLDisplay :=
  match GetMainDisplay g_displays with
  | Some d => <[0%nat := Display.set_fullscreen mode screen d]> g_displays
  | None => g_displays
  end.

(** The body of the loop of [Graphics::Loop]: the main display, if there is
    one, renders; [events] are the window events it polls. *)
Definition Loop_body (g : GlfwState) (events : list WindowEvent)
    (g_displays : list OpenGLDisplay) : option (list OpenGLDisplay) :=
  match GetMainDisplay g_displays with
  | Some d =>
      d' ← Display.render g events d;
      Some (<[0%nat := d']> g_displays)
  | None => Some g_displays
  end.

End MainDisplay.

(* ===================================================================== *)
(** ** Properties of the target resolver                                  *)
(* ===================================================================== *)

Module RendererFacts.
Import Renderer.

Section Driver.

Variable framebuffer_complete : Z -> Z -> Z -> bool -> bool.

#[local] Abbreviation make_fbo := (make_fbo framebuffer_complete).
#[local] Abbreviation resolve_targets := (resolve_targets framebuffer_complete).
#[local] Abbreviation setup_frame := (setup_frame framebuffer_complete).
#[local] Abbreviation reachable := (reachable framebuffer_complete).

Lemma clear_valid f g : valid (fst (clear f g)) = false.
Proof. unfold clear. destruct (valid f) eqn:E; simpl; auto. Qed.

Lemma clear_names f g :
  names_generated (snd (clear f g)) = names_generated g.
Proof.
  unfold clear. destruct (valid f); simpl; auto.
  destruct (zbuf_stencil_id f), (tex_id f); reflexivity.
Qed.

Lemma clear_invalid f g : valid f = false -> clear f g = (f, g).
Proof. unfold clear. intros ->. reflexivity. Qed.

(** What [make_fbo] returns when the driver completes the framebuffer. *)
Lemma make_fbo_some w h msaa z g f g' :
  make_fbo w h msaa z g = (Some f, g') ->
  valid f = true /\ width f = w /\ height f = h /\ multisample_count f = msaa
  /\ multisampled f = (1 <? msaa) /\ is_window f = false
  /\ (zbuf_stencil_id f <> None <-> z = true)
  /\ names_generated g' = names_generated g + (if z then 3 else 2).
Proof.
  unfold Renderer.make_fbo. simpl.
  destruct z; simpl; destruct (framebuffer_complete _ _ _ _) eqn:E;
    intros H; inversion H; subst; simpl; repeat split; auto; try congruence; lia.
Qed.


Lemma matches_true f w h msaa :
  matches f w h msaa = true <->
  valid f = true /\ width f = w /\ height f = h /\ multisample_count f = msaa.
Proof.
  unfold matches. rewrite !andb_true_iff, !Z.eqb_eq. tauto.
Qed.

Lemma check_viewport_done settings st st' :
  check_viewport settings st = Done st' ->
  st' = st /\ 0 < game_res_w settings /\ 0 < game_res_h settings.
Proof.
  unfold check_viewport.
  destruct ((0 <? game_res_w settings) && (0 <? game_res_h settings)) eqn:E;
    intros H; inversion H; subst.
  apply andb_true_iff in E as [A B]. apply Z.ltb_lt in A, B. auto.
Qed.

Lemma check_viewport_state settings st :
  state_of (check_viewport settings st) = st.
Proof. unfold check_viewport. destruct (_ && _); reflexivity. Qed.

Lemma check_viewport_positive settings st :
  0 < game_res_w settings -> 0 < game_res_h settings ->
  check_viewport settings st = Done st.
Proof.
  intros A B. unfold check_viewport.
  apply Z.ltb_lt in A, B. rewrite A, B. reflexivity.
Qed.

(** A re-resolve on a surface that serves picks the surface and nothing
    else, whether or not the viewport assertion holds afterwards. *)
Lemma resolve_targets_window settings fs g :
  matches (window fs) (game_res_w settings) (game_res_h settings)
          (msaa_samples settings) = true ->
  let st' := state_of (resolve_targets settings fs g) in
  render_fbo (m_fbo_state st') = Some RefWindow
  /\ window (m_fbo_state st') = window fs
  /\ valid (render_buffer (m_fbo_state st')) = false
  /\ valid (resolve_buffer (m_fbo_state st')) = false
  /\ names_generated (gl st') = names_generated g.
Proof.
  intros Hm. unfold Renderer.resolve_targets.
  pose proof (clear_valid (render_buffer fs) g) as V1.
  pose proof (clear_names (render_buffer fs) g) as N1.
  destruct (clear (render_buffer fs) g) as [rb g1]. simpl in V1, N1.
  pose proof (clear_valid (resolve_buffer fs) g1) as V2.
  pose proof (clear_names (resolve_buffer fs) g1) as N2.
  destruct (clear (resolve_buffer fs) g1) as [sb g2]. simpl in V2, N2.
  rewrite Hm, check_viewport_state. simpl. repeat split; auto. congruence.
Qed.

(** A re-resolve that completes, on a surface that does not serve. *)
Lemma resolve_targets_offscreen settings fs g st' :
  matches (window fs) (game_res_w settings) (game_res_h settings)
          (msaa_samples settings) = false ->
  resolve_targets settings fs g = Done st' ->
  render_fbo (m_fbo_state st') = Some RefRenderBuffer
  /\ window (m_fbo_state st') = window fs
  /\ is_render_buffer settings (render_buffer (m_fbo_state st'))
  /\ ((multisample_count (window fs) <> msaa_samples settings
       /\ is_resolve_buffer settings (resolve_buffer (m_fbo_state st'))
       /\ names_generated (gl st') = names_generated g + 5)
      \/ (multisample_count (window fs) = msaa_samples settings
          /\ valid (resolve_buffer (m_fbo_state st')) = false
          /\ names_generated (gl st') = names_generated g + 3)).
Proof.
  intros Hm. unfold Renderer.resolve_targets.
  pose proof (clear_names (render_buffer fs) g) as N1.
  destruct (clear (render_buffer fs) g) as [rb g1]. simpl in N1.
  pose proof (clear_valid (resolve_buffer fs) g1) as V2.
  pose proof (clear_names (resolve_buffer fs) g1) as N2.
  destruct (clear (resolve_buffer fs) g1) as [sb g2]. simpl in V2, N2.
  rewrite Hm.
  destruct (make_fbo _ _ _ true g2) as [[f1|] g3] eqn:M1; [|discriminate].
  apply make_fbo_some in M1 as (A1 & A2 & A3 & A4 & A5 & A6 & A7 & A8).
  assert (R : is_render_buffer settings f1).
  { unfold is_render_buffer. repeat split; auto. apply A7. reflexivity. }
  destruct (multisample_count (window fs) =? msaa_samples settings) eqn:Hs;
    simpl.
  - apply Z.eqb_eq in Hs. intros H.
    apply check_viewport_done in H as (-> & _). simpl.
    split; [reflexivity|]. split; [reflexivity|]. split; [exact R|].
    right. repeat split; auto. lia.
  - apply Z.eqb_neq in Hs.
    destruct (make_fbo _ _ 1 false g3) as [[f2|] g4] eqn:M2; [|discriminate].
    apply make_fbo_some in M2 as (B1 & B2 & B3 & B4 & B5 & B6 & B7 & B8).
    intros H. apply check_viewport_done in H as (-> & _). simpl.
    split; [reflexivity|]. split; [reflexivity|]. split; [exact R|].
    left. unfold is_resolve_buffer. repeat split; auto; try lia.
    destruct (zbuf_stencil_id f2) eqn:Z2; auto.
    assert (false = true) by (apply B7; congruence). discriminate.
Qed.

Lemma refresh_window_twice settings fs :
  refresh_window settings (refresh_window settings fs)
  = refresh_window settings fs.
Proof. reflexivity. Qed.

Lemma window_resized_refreshed settings fs :
  window_resized settings (refresh_window settings fs) = false.
Proof.
  unfold window_resized. simpl. rewrite !Z.eqb_refl. reflexivity.
Qed.

Lemma refreshed_window_matches settings wf :
  matches (refreshed_window settings wf) (game_res_w settings)
          (game_res_h settings) (msaa_samples settings) = true <->
  window_framebuffer_width settings = game_res_w settings
  /\ window_framebuffer_height settings = game_res_h settings
  /\ msaa_samples settings = 1.
Proof. rewrite matches_true. simpl. intuition congruence. Qed.

(** Frames that complete keep the target state consistent. *)
Lemma setup_frame_consistent settings st st' :
  consistent st -> setup_frame settings st = Done st' -> consistent st'.
Proof.
  intros Hc. unfold Renderer.setup_frame.
  destruct (re_resolves settings st) eqn:Hr.
  - destruct (matches (window (refresh_window settings (m_fbo_state st)))
                      (game_res_w settings) (game_res_h settings)
                      (msaa_samples settings)) eqn:Hm; intros H.
    + pose proof (resolve_targets_window settings _ (gl st) Hm) as P.
      rewrite H in P. simpl in P. destruct P as (P1 & _ & P2 & P3 & _).
      unfold consistent. rewrite P1. auto.
    + pose proof (resolve_targets_offscreen _ _ _ _ Hm H)
        as (P1 & P2 & (_ & _ & Rw & Rh & Rm & _) & _).
      unfold consistent. rewrite P1, P2. simpl.
      intros (A & B & C). apply not_true_iff_false in Hm. apply Hm.
      apply refreshed_window_matches. repeat split; congruence.
  - intros H. apply check_viewport_done in H as (-> & _).
    unfold re_resolves in Hr. unfold consistent in *. simpl.
    destruct (render_fbo (m_fbo_state st)) as [[|]|]; try discriminate; auto.
    apply orb_false_iff in Hr as [Hs _].
    apply orb_false_iff in Hs as [Hw Hh].
    apply negb_false_iff, Z.eqb_eq in Hw, Hh.
    rewrite <- Hw, <- Hh. exact Hc.
Qed.

Lemma reachable_consistent st : reachable st -> consistent st.
Proof.
  induction 1 as [st Hn | settings st st' _ IH Hs].
  - unfold consistent. rewrite Hn. exact I.
  - exact (setup_frame_consistent _ _ _ IH Hs).
Qed.


(** C3 (direct-path selection).  Whenever the requested resolution and
    sample count equal the window framebuffer's (width, height, 1), the
    state [setup_frame] leaves has the window surface as render target, holds
    no offscreen target, and no GL name was generated by the call.  This
    holds in every state the renderer can reach, and also when the viewport
    assertion stops the frame after the choice. *)
Theorem setup_frame_direct_path settings st :
  reachable st ->
  game_res_w settings = window_framebuffer_width settings ->
  game_res_h settings = window_framebuffer_height settings ->
  msaa_samples settings = 1 ->
  let st' := state_of (setup_frame settings st) in
  render_fbo (m_fbo_state st') = Some RefWindow
  /\ offscreen_targets (m_fbo_state st') = []
  /\ names_generated (gl st') = names_generated (gl st).
Proof.
  intros Hreach Hw Hh Hm.
  assert (Hwin : matches (refreshed_window settings (window (m_fbo_state st)))
                         (game_res_w settings) (game_res_h settings)
                         (msaa_samples settings) = true).
  { apply refreshed_window_matches. auto. }
  assert (Hgoal : forall st0,
    render_fbo (m_fbo_state st0) = Some RefWindow ->
    valid (render_buffer (m_fbo_state st0)) = false ->
    valid (resolve_buffer (m_fbo_state st0)) = false ->
    names_generated (gl st0) = names_generated (gl st) ->
    render_fbo (m_fbo_state st0) = Some RefWindow
    /\ offscreen_targets (m_fbo_state st0) = []
    /\ names_generated (gl st0) = names_generated (gl st)).
  { intros st0 A B C D. unfold offscreen_targets. simpl. rewrite B, C. auto. }
  unfold Renderer.setup_frame.
  destruct (re_resolves settings st) eqn:Hr; simpl.
  - destruct (resolve_targets_window settings
                (refresh_window settings (m_fbo_state st)) (gl st) Hwin)
      as (P1 & _ & P2 & P3 & P4).
    apply Hgoal; assumption.
  - rewrite check_viewport_state.
    apply reachable_consistent in Hreach. unfold consistent in Hreach.
    unfold re_resolves in Hr.
    destruct (render_fbo (m_fbo_state st)) as [[|]|] eqn:Hf; try discriminate.
    + destruct Hreach as [B C]. apply Hgoal; simpl; auto.
    + exfalso. apply orb_false_iff in Hr as [Hs Hb].
      apply orb_false_iff in Hs as [Hsw Hsh].
      apply negb_false_iff, Z.eqb_eq in Hsw, Hsh.
      apply negb_false_iff, matches_true in Hb. simpl in Hb.
      destruct Hb as (_ & Bw & Bh & Bm).
      apply Hreach. repeat split; congruence.
Qed.

(** C4 (resolve-buffer necessity).  After a frame that completes and in
    which a render buffer is created: with more than one sample requested
    (the window surface has one) exactly two offscreen targets are held, the
    multisampled render buffer with depth/stencil at the requested size and
    sample count and a single-sample resolve buffer at the requested size;
    with one sample requested the render buffer is the only offscreen target
    and the resolve buffer is not allocated. *)
Theorem setup_frame_resolve_buffer settings st st' :
  setup_frame settings st = Done st' ->
  creates_render_buffer settings st = true ->
  let fs' := m_fbo_state st' in
  render_fbo fs' = Some RefRenderBuffer
  /\ multisample_count (window fs') = 1
  /\ is_render_buffer settings (render_buffer fs')
  /\ (1 < msaa_samples settings ->
      multisampled (render_buffer fs') = true
      /\ is_resolve_buffer settings (resolve_buffer fs')
      /\ offscreen_targets fs' = [render_buffer fs'; resolve_buffer fs']
      /\ names_generated (gl st') = names_generated (gl st) + 5)
  /\ (msaa_samples settings = multisample_count (window fs') ->
      valid (resolve_buffer fs') = false
      /\ offscreen_targets fs' = [render_buffer fs']
      /\ names_generated (gl st') = names_generated (gl st) + 3).
Proof.
  intros Hd Hc. apply andb_true_iff in Hc as [Hr Hm].
  apply negb_true_iff in Hm.
  unfold Renderer.setup_frame in Hd. rewrite Hr in Hd.
  pose proof (resolve_targets_offscreen settings
                (refresh_window settings (m_fbo_state st)) (gl st) st' Hm Hd)
    as (P1 & P2 & R & Hcase).
  simpl. split; [exact P1|]. split; [rewrite P2; reflexivity|].
  split; [exact R|].
  pose proof R as (Rv & _ & _ & _ & _ & Rms & _).
  unfold offscreen_targets. simpl. rewrite P2. simpl in *. rewrite Rv.
  destruct Hcase as [(Hne & S & Hn) | (He & Sv & Hn)].
  - pose proof S as (Sv & _). rewrite Sv. split.
    + intros Hgt. rewrite Rms. split; [apply Z.ltb_lt; lia|]. auto.
    + intros He. congruence.
  - rewrite Sv. split.
    + intros Hgt. lia.
    + intros _. auto.
Qed.

(** C5 (target reuse).  After a frame that completes, a second call with the
    same options completes in the very same state: the GL context is
    untouched, so nothing is allocated or freed, and the render target is
    the one chosen before. *)
Theorem setup_frame_twice settings st st1 :
  setup_frame settings st = Done st1 ->
  exists st2,
    setup_frame settings st1 = Done st2
    /\ gl st2 = gl st1
    /\ names_generated (gl st2) = names_generated (gl st1)
    /\ render_fbo (m_fbo_state st2) = render_fbo (m_fbo_state st1)
    /\ st2 = st1.
Proof.
  intros Hd.
  assert (Hkeep : window (m_fbo_state st1)
                  = refreshed_window settings (window (m_fbo_state st))
                  /\ 0 < game_res_w settings /\ 0 < game_res_h settings
                  /\ re_resolves settings st1 = false).
  { unfold Renderer.setup_frame in Hd.
    destruct (re_resolves settings st) eqn:Hr.
    - assert (Hpos : 0 < game_res_w settings /\ 0 < game_res_h settings).
      { unfold Renderer.resolve_targets in Hd.
        destruct (clear _ _) as [rb g1]. destruct (clear _ _) as [sb g2].
        destruct (matches _ _ _ _).
        - apply check_viewport_done in Hd; tauto.
        - destruct (make_fbo _ _ _ true g2) as [[f1|] g3]; [|discriminate].
          destruct (negb _).
          + destruct (make_fbo _ _ 1 false g3) as [[f2|] g4]; [|discriminate].
            apply check_viewport_done in Hd; tauto.
          + apply check_viewport_done in Hd; tauto. }
      destruct (matches (window (refresh_window settings (m_fbo_state st)))
                        (game_res_w settings) (game_res_h settings)
                        (msaa_samples settings)) eqn:Hm.
      + pose proof (resolve_targets_window settings _ (gl st) Hm) as P.
        rewrite Hd in P. simpl in P. destruct P as (P1 & P2 & _).
        split; [exact P2|]. split; [tauto|]. split; [tauto|].
        unfold re_resolves. rewrite P1. unfold window_resized.
        rewrite P2. simpl. rewrite !Z.eqb_refl. simpl.
        apply negb_false_iff. simpl in Hm.
        apply refreshed_window_matches. apply refreshed_window_matches in Hm.
        exact Hm.
      + pose proof (resolve_targets_offscreen _ _ _ _ Hm Hd)
          as (P1 & P2 & (Rv & _ & Rw & Rh & Rm & _) & _).
        split; [exact P2|]. split; [tauto|]. split; [tauto|].
        unfold re_resolves. rewrite P1. unfold window_resized.
        rewrite P2. simpl. rewrite !Z.eqb_refl. simpl.
        apply negb_false_iff. apply matches_true. auto.
    - apply check_viewport_done in Hd as (-> & Hw & Hh).
      split; [reflexivity|]. split; [exact Hw|]. split; [exact Hh|].
      unfold re_resolves in *. simpl.
      destruct (render_fbo (m_fbo_state st)) as [r|]; [|discriminate].
      apply orb_false_iff in Hr as [_ Hb].
      rewrite window_resized_refreshed. simpl.
      destruct r; exact Hb. }
  destruct Hkeep as (Hwin & Hw & Hh & Hr).
  exists st1. unfold Renderer.setup_frame. rewrite Hr.
  rewrite check_viewport_positive by assumption.
  assert (Hsame : mkWorld (refresh_window settings (m_fbo_state st1)) (gl st1)
                  = st1).
  { destruct st1 as [[wf rb sb rf] g]. simpl in *. subst wf. reflexivity. }
  rewrite Hsame. auto.
Qed.

End Driver.

Lemma msaa_renderer_reachable :
  Renderer.reachable Samples.complete_driver Samples.msaa_renderer.
Proof.
  apply (reach_frame Samples.complete_driver Samples.msaa_options
           Samples.fresh_renderer).
  - apply reach_init. reflexivity.
  - vm_compute. reflexivity.
Qed.

Lemma setup_frame_direct_path_witness :
  game_res_w Samples.direct_options
  = window_framebuffer_width Samples.direct_options
  /\ (let st' :=
        state_of (setup_frame Samples.complete_driver Samples.direct_options
                              Samples.msaa_renderer) in
      render_fbo (m_fbo_state st') = Some RefWindow
      /\ offscreen_targets (m_fbo_state st') = []
      /\ names_generated (gl st') = names_generated (gl Samples.msaa_renderer)).
Proof.
  split; [reflexivity|].
  apply (setup_frame_direct_path Samples.complete_driver Samples.direct_options
           Samples.msaa_renderer).
  - exact msaa_renderer_reachable.
  - reflexivity.
  - reflexivity.
  - reflexivity.
Defined.

Lemma setup_frame_resolve_buffer_witness :
  creates_render_buffer Samples.msaa_options Samples.fresh_renderer = true
  /\ (let fs' := m_fbo_state Samples.msaa_renderer in
      render_fbo fs' = Some RefRenderBuffer
      /\ offscreen_targets fs' = [render_buffer fs'; resolve_buffer fs']).
Proof.
  split; [reflexivity|].
  destruct (setup_frame_resolve_buffer Samples.complete_driver
              Samples.msaa_options Samples.fresh_renderer
              Samples.msaa_renderer)
    as (A & _ & _ & B & _).
  - vm_compute. reflexivity.
  - reflexivity.
  - split; [exact A|].
    destruct B as (_ & _ & B & _); [reflexivity | exact B].
Defined.

Lemma setup_frame_twice_witness :
  setup_frame Samples.complete_driver Samples.msaa_options
              Samples.fresh_renderer = Done Samples.msaa_renderer
  /\ exists st2,
       setup_frame Samples.complete_driver Samples.msaa_options
                   Samples.msaa_renderer = Done st2
       /\ gl st2 = gl Samples.msaa_renderer
       /\ names_generated (gl st2) = names_generated (gl Samples.msaa_renderer)
       /\ render_fbo (m_fbo_state st2)
          = render_fbo (m_fbo_state Samples.msaa_renderer)
       /\ st2 = Samples.msaa_renderer.
Proof.
  assert (H : setup_frame Samples.complete_driver Samples.msaa_options
                Samples.fresh_renderer = Done Samples.msaa_renderer)
    by (vm_compute; reflexivity).
  split; [exact H|].
  exact (setup_frame_twice Samples.complete_driver Samples.msaa_options
           Samples.fresh_renderer Samples.msaa_renderer H).
Defined.

End RendererFacts.

(* ===================================================================== *)
(** ** Properties of the frame channel                                    *)
(* ===================================================================== *)

Module ChannelFacts.
Import Channel.

(** C1 (rejected publish).  A [gl_send_chain] made while
    [has_data_to_render] is set appends one error to the log and changes
    nothing else: the graphics data -- the copier's buffer address and
    offset, both frame indices and the flag -- and the exit status are what
    they were. *)
Theorem gl_send_chain_rejected data offset p gd :
  g_graphics_data p = Some gd ->
  has_data_to_render gd = true ->
  let p' := gl_send_chain data offset p in
  g_graphics_data p' = Some gd
  /\ MasterExit p' = MasterExit p
  /\ log p' = log p ++ [(LgError, send_chain_error)].
Proof.
  intros Hg Hd. unfold gl_send_chain. rewrite Hg, Hd. simpl. auto.
Qed.

(** An accepted publish stores the chain and raises the flag. *)
Lemma gl_send_chain_accepted data offset p gd :
  g_graphics_data p = Some gd ->
  has_data_to_render gd = false ->
  gl_send_chain data offset p
  = mkProcess (Some (mkData (frame_idx gd) (frame_idx_of_input_data gd) true
                            (mkCopier data offset)))
              (MasterExit p) (log p).
Proof.
  intros Hg Hd. unfold gl_send_chain. rewrite Hg, Hd. reflexivity.
Qed.

(** The consume step clears the flag and does not touch the frame index,
    whether or not there was a chain to consume. *)
Lemma render_game_frame_consumes renderer_lines gd :
  has_data_to_render (fst (render_game_frame renderer_lines gd)) = false
  /\ frame_idx (fst (render_game_frame renderer_lines gd)) = frame_idx gd
  /\ dma_copier (fst (render_game_frame renderer_lines gd)) = dma_copier gd.
Proof.
  unfold render_game_frame. destruct (has_data_to_render gd); simpl; auto.
Qed.

(** The iteration that draws a pending chain, in full. *)
Lemma render_draws written close p gd :
  g_graphics_data p = Some gd ->
  has_data_to_render gd = true ->
  render written true close p
  = Some (mkProcess
            (Some (mkData (u64_wrap (frame_idx gd + 1)) (frame_idx gd) false
                          (dma_copier gd)))
            (if close then EXIT else MasterExit p)
            (log p ++ polled written ++ drawn written ++ presented written)).
Proof.
  intros Hg Hd. unfold render, render_game_frame. rewrite Hg, Hd. reflexivity.
Qed.

(** Every iteration of the presentation loop advances the frame index by
    one, whether or not it drew a frame. *)
Lemma render_advances_frame_idx written advance close p gd :
  g_graphics_data p = Some gd ->
  exists p' gd',
    render written advance close p = Some p'
    /\ g_graphics_data p' = Some gd'
    /\ MasterExit p' = (if close then EXIT else MasterExit p)
    /\ frame_idx gd' = u64_wrap (frame_idx gd + 1)
    /\ (advance = true -> has_data_to_render gd' = false)
    /\ (advance = false -> has_data_to_render gd' = has_data_to_render gd).
Proof.
  intros Hg. unfold render. rewrite Hg.
  destruct advance.
  - destruct (render_game_frame_consumes (drawn written) gd) as (A & B & _).
    destruct (render_game_frame (drawn written) gd) as [gd1 frame_lines].
    cbn [fst] in A, B.
    eexists _, _. split; [reflexivity|]. cbn.
    rewrite B. repeat split; auto. discriminate.
  - eexists _, _. split; [reflexivity|]. cbn.
    repeat split; auto. discriminate.
Qed.

Lemma u64_wrap_range z : 0 <= u64_wrap z < 2 ^ 64.
Proof. unfold u64_wrap. apply Z.mod_pos_bound. lia. Qed.

Lemma publish_and_render_run chains : forall p gd,
  g_graphics_data p = Some gd ->
  has_data_to_render gd = false ->
  0 <= frame_idx gd < 2 ^ 64 ->
  exists p' gd',
    publish_and_render chains p = Some p'
    /\ g_graphics_data p' = Some gd'
    /\ MasterExit p' = MasterExit p
    /\ has_data_to_render gd' = false
    /\ frame_idx gd' = u64_wrap (frame_idx gd + Z.of_nat (length chains)).
Proof.
  induction chains as [|[[data offset] written] rest IH];
    intros p gd Hg Hd Hrange.
  - exists p, gd. simpl. rewrite Z.add_0_r. unfold u64_wrap.
    rewrite Z.mod_small by exact Hrange. auto.
  - simpl publish_and_render.
    rewrite (gl_send_chain_accepted data offset p gd Hg Hd).
    destruct (render_advances_frame_idx written true false
                (mkProcess (Some (mkData (frame_idx gd)
                                         (frame_idx_of_input_data gd) true
                                         (mkCopier data offset)))
                           (MasterExit p) (log p)) _ eq_refl)
      as (p1 & gd1 & Hr & Hg1 & Hm1 & Hidx & Hflag & _).
    rewrite Hr. cbn [MasterExit frame_idx] in Hm1, Hidx.
    destruct (IH p1 gd1 Hg1 (Hflag eq_refl)) as (p' & gd' & Hrun & Hg' & Hm' & Hf & Hi).
    { rewrite Hidx. apply u64_wrap_range. }
    exists p', gd'. split; [exact Hrun|]. split; [exact Hg'|].
    split; [congruence|]. split; [exact Hf|].
    rewrite Hi, Hidx.
    rewrite length_cons, Nat2Z.inj_succ.
    unfold u64_wrap. rewrite Z.add_mod_idemp_l by lia. f_equal. lia.
Qed.

(** C2 (consume step and frame index), as the code has it.  The consume
    step at the end of [render_game_frame] clears [has_data_to_render] and
    leaves [frame_idx] alone, for every state of the graphics data, with or
    without a chain pending.  [frame_idx] is advanced, by one modulo 2^64,
    by every iteration of [OpenGLDisplay::render], whether the frame
    advances or not and whatever the iteration finds.  Hence in a run in
    which each chain is published and followed by one iteration that draws
    the frame, after the first [n] chains the flag is clear and [frame_idx]
    has advanced by exactly [n] modulo 2^64; so the publish that comes next
    finds the slot free and is accepted: the chain is stored, the flag is
    set, and [gl_send_chain] logs nothing. *)
Theorem publish_and_render_frame_idx :
  (forall renderer_lines gd,
     has_data_to_render (fst (render_game_frame renderer_lines gd)) = false
     /\ frame_idx (fst (render_game_frame renderer_lines gd)) = frame_idx gd)
  /\ (forall written advance close p gd,
        g_graphics_data p = Some gd ->
        exists p' gd',
          render written advance close p = Some p'
          /\ g_graphics_data p' = Some gd'
          /\ frame_idx gd' = (frame_idx gd + 1) mod 2 ^ 64)
  /\ (forall chains p gd,
        g_graphics_data p = Some gd ->
        has_data_to_render gd = false ->
        0 <= frame_idx gd < 2 ^ 64 ->
        forall n, (n <= length chains)%nat ->
        exists p' gd',
          publish_and_render (take n chains) p = Some p'
          /\ g_graphics_data p' = Some gd'
          /\ MasterExit p' = MasterExit p
          /\ has_data_to_render gd' = false
          /\ frame_idx gd' = (frame_idx gd + Z.of_nat n) mod 2 ^ 64
          /\ forall data offset written,
               chains !! n = Some (data, offset, written) ->
               gl_send_chain data offset p'
               = mkProcess
                   (Some (mkData (frame_idx gd') (frame_idx_of_input_data gd')
                                 true (mkCopier data offset)))
                   (MasterExit p') (log p')).
Proof.
  split; [|split].
  - intros renderer_lines gd.
    destruct (render_game_frame_consumes renderer_lines gd) as (A & B & _).
    split; assumption.
  - intros written advance close p gd Hg.
    destruct (render_advances_frame_idx written advance close p gd Hg)
      as (p' & gd' & Hr & Hg' & _ & Hidx & _).
    exists p', gd'. split; [exact Hr|]. split; [exact Hg'|]. exact Hidx.
  - intros chains p gd Hg Hd Hrange n Hn.
    destruct (publish_and_render_run (take n chains) p gd Hg Hd Hrange)
      as (p' & gd' & Hrun & Hg' & Hm & Hf & Hi).
    rewrite length_take, Nat.min_l in Hi by exact Hn.
    exists p', gd'. split; [exact Hrun|]. split; [exact Hg'|].
    split; [exact Hm|]. split; [exact Hf|]. split; [exact Hi|].
    intros data offset written _.
    exact (gl_send_chain_accepted data offset p' gd' Hg' Hf).
Qed.

(** The wait of [gl_vsync] gives way to any exit status but [RUNNING]. *)
Lemma gl_vsync_predicate_exit init_frame status gd :
  status <> RUNNING -> gl_vsync_predicate init_frame status gd = true.
Proof.
  intros H. unfold gl_vsync_predicate. destruct status; try congruence; auto.
Qed.

Lemma gl_vsync_returns_on_exit p :
  MasterExit p <> RUNNING -> exists v, gl_vsync p = Returns v.
Proof.
  intros H. unfold gl_vsync. destruct (g_graphics_data p) as [gd|]; eauto.
  rewrite gl_vsync_predicate_exit by exact H. eauto.
Qed.

(** The wait of [gl_sync_path] looks at the flag only. *)
Lemma gl_sync_path_blocks status gd l :
  has_data_to_render gd = true ->
  gl_sync_path (mkProcess (Some gd) status l) = Blocks.
Proof.
  intros H. unfold gl_sync_path, gl_sync_path_predicate. simpl.
  rewrite H. reflexivity.
Qed.

(** The bounded wait of [render_game_frame] looks at the flag only; it is
    the 50 ms timeout that lets the render thread go on. *)
Lemma render_game_frame_predicate_flag status gd :
  render_game_frame_predicate status gd = has_data_to_render gd.
Proof. reflexivity. Qed.

(** C6 (exit status in the wait predicates), at the failing state: the
    exit status is [EXIT] and a chain is pending.  The predicate of
    [gl_vsync] holds and [gl_vsync] returns; the predicate of
    [gl_sync_path] does not hold and [gl_sync_path] stays blocked. *)
Theorem gl_sync_path_ignores_exit :
  MasterExit Samples.exiting_process = EXIT
  /\ gl_vsync Samples.exiting_process = Returns 1
  /\ gl_sync_path_predicate EXIT Samples.pending_data = false
  /\ gl_sync_path Samples.exiting_process = Blocks.
Proof. repeat split. Qed.

(** C2, counterexample.  With a chain pending at frame index 5, the consume
    step clears the flag and the frame index is still 5, not 6. *)
Lemma render_game_frame_keeps_frame_idx :
  ~ (has_data_to_render
       (fst (render_game_frame (drawn ChannelRuns.first_frame)
                               Samples.pending_data)) = false
     /\ frame_idx
          (fst (render_game_frame (drawn ChannelRuns.first_frame)
                                  Samples.pending_data))
        = frame_idx Samples.pending_data + 1).
Proof. simpl. intros [_ H]. discriminate H. Qed.

Lemma gl_send_chain_rejected_witness :
  has_data_to_render Samples.pending_data = true
  /\ (let p' := gl_send_chain 8192 7 Samples.pending_process in
      g_graphics_data p' = Some Samples.pending_data
      /\ MasterExit p' = MasterExit Samples.pending_process
      /\ log p' = log Samples.pending_process ++ [(LgError, send_chain_error)]).
Proof.
  split; [reflexivity|].
  apply (gl_send_chain_rejected 8192 7 Samples.pending_process
           Samples.pending_data); reflexivity.
Defined.

Lemma publish_and_render_frame_idx_witness :
  exists p' gd',
    publish_and_render
      (take 3 [(4096, 100, ChannelRuns.first_frame);
               (8192, 0, ChannelRuns.quiet);
               (4096, 16, ChannelRuns.quiet)])
      Samples.idle_process = Some p'
    /\ g_graphics_data p' = Some gd'
    /\ MasterExit p' = MasterExit Samples.idle_process
    /\ has_data_to_render gd' = false
    /\ frame_idx gd' = (frame_idx Samples.idle_data + Z.of_nat 3) mod 2 ^ 64
    /\ forall data offset written,
         [(4096, 100, ChannelRuns.first_frame);
          (8192, 0, ChannelRuns.quiet);
          (4096, 16, ChannelRuns.quiet)] !! 3%nat
         = Some (data, offset, written) ->
         gl_send_chain data offset p'
         = mkProcess
             (Some (mkData (frame_idx gd') (frame_idx_of_input_data gd')
                           true (mkCopier data offset)))
             (MasterExit p') (log p').
Proof.
  destruct publish_and_render_frame_idx as (_ & _ & H).
  apply (H [(4096, 100, ChannelRuns.first_frame);
            (8192, 0, ChannelRuns.quiet);
            (4096, 16, ChannelRuns.quiet)]
           Samples.idle_process Samples.idle_data eq_refl eq_refl).
  - simpl. lia.
  - simpl. lia.
Defined.

End ChannelFacts.

(* ===================================================================== *)
(** ** Properties of the display state machine                            *)
(* ===================================================================== *)

Module DisplayFacts.
Import Display.

Lemma get_monitor_total g index :
  monitors g <> [] -> exists m, get_monitor g index = Some m.
Proof.
  intros Hne. unfold get_monitor.
  destruct ((index <? 0) || (index >=? Z.of_nat (length (monitors g)))) eqn:E.
  - destruct (monitors g) as [|m l]; [congruence|]. exists m. reflexivity.
  - apply orb_false_iff in E as [A B].
    apply Z.ltb_ge in A. rewrite Z.geb_leb in B. apply Z.leb_gt in B.
    apply lookup_lt_is_Some_2. lia.
Qed.

Lemma video_mode_changed_true vmode last :
  video_mode_changed vmode last = true <->
  vm_width vmode <> vm_width last
  \/ vm_height vmode <> vm_height last
  \/ refreshRate vmode <> refreshRate last.
Proof.
  unfold video_mode_changed.
  rewrite !orb_true_iff, !negb_true_iff, !Z.eqb_neq. tauto.
Qed.

Lemma base_fullscreen_pending_true d :
  base_fullscreen_pending d = true <->
  fullscreen_mode d <> m_fullscreen_target_mode d
  \/ m_fullscreen_screen d <> m_fullscreen_target_screen d.
Proof.
  unfold base_fullscreen_pending.
  rewrite orb_true_iff, !negb_true_iff, !Z.eqb_neq. tauto.
Qed.

(** C7 (pending query), as the code has it.  With [monitor] the monitor of
    the current screen, [fullscreen_pending] answers true exactly when the
    current mode differs from the target mode, or the current screen differs
    from the target screen, or the monitor's video mode differs in width,
    height or refresh rate from the one recorded by the last flush -- in
    whatever mode the display is. *)
Theorem fullscreen_pending_iff g d monitor :
  get_monitor g (fullscreen_screen d) = Some monitor ->
  exists b,
    fullscreen_pending g d = Some b
    /\ (b = true <->
        fullscreen_mode d <> m_fullscreen_target_mode d
        \/ m_fullscreen_screen d <> m_fullscreen_target_screen d
        \/ vm_width (video_mode monitor) <> vm_width (m_last_video_mode d)
        \/ vm_height (video_mode monitor) <> vm_height (m_last_video_mode d)
        \/ refreshRate (video_mode monitor)
           <> refreshRate (m_last_video_mode d)).
Proof.
  intros Hm. unfold fullscreen_pending. rewrite Hm. simpl.
  eexists. split; [reflexivity|].
  rewrite orb_true_iff, base_fullscreen_pending_true, video_mode_changed_true.
  tauto.
Qed.

(** C7, counterexample.  The display is windowed on screen 0 with windowed
    as its target, and the monitor's video mode is the recorded one; only
    the target screen was set to 1.  The query answers true. *)
Lemma fullscreen_pending_screen_only :
  fullscreen_pending Samples.one_monitor Samples.retargeted_display = Some true
  /\ fullscreen_mode Samples.retargeted_display
     = m_fullscreen_target_mode Samples.retargeted_display
  /\ get_monitor Samples.one_monitor
       (fullscreen_screen Samples.retargeted_display) = Some Samples.monitor0
  /\ video_mode_changed (video_mode Samples.monitor0)
       (m_last_video_mode Samples.retargeted_display) = false.
Proof. repeat split. Qed.

(** A flush to windowed mode from windowed mode keeps the remembered
    position and size. *)
Lemma update_fullscreen_windowed_keeps g screen d m w0 :
  get_monitor g screen = Some m ->
  m_window d = Some w0 ->
  m_last_fullscreen_mode d = Windowed ->
  exists d',
    update_fullscreen g Windowed screen d = Some d'
    /\ m_window d'
       = Some (mkWindow None (m_last_windowed_xpos d) (m_last_windowed_ypos d)
                        (m_last_windowed_width d) (m_last_windowed_height d)
                        true false)
    /\ m_last_windowed_xpos d' = m_last_windowed_xpos d
    /\ m_last_windowed_ypos d' = m_last_windowed_ypos d
    /\ m_last_windowed_width d' = m_last_windowed_width d
    /\ m_last_windowed_height d' = m_last_windowed_height d.
Proof.
  intros Hm Hw Hl. unfold update_fullscreen. rewrite Hm, Hw. simpl.
  rewrite Hl. simpl. eexists. split; [reflexivity|]. simpl. auto 10.
Qed.

(** The callbacks leave the remembered geometry alone while the target mode
    is not windowed. *)
Lemma callbacks_ignored_outside_windowed e d :
  m_fullscreen_target_mode d <> Windowed ->
  m_last_windowed_xpos (dispatch e d) = m_last_windowed_xpos d
  /\ m_last_windowed_ypos (dispatch e d) = m_last_windowed_ypos d
  /\ m_last_windowed_width (dispatch e d) = m_last_windowed_width d
  /\ m_last_windowed_height (dispatch e d) = m_last_windowed_height d.
Proof.
  intros H. apply Z.eqb_neq in H.
  destruct e; simpl; unfold on_window_pos, on_window_size; rewrite ?H; auto.
Qed.

(** An iteration without events flushes when the mode differs from the
    target and the window is not minimized. *)
Lemma render_flushes g d m0 :
  get_monitor g (m_fullscreen_screen d) = Some m0 ->
  m_fullscreen_mode d <> m_fullscreen_target_mode d ->
  m_minimized d = false ->
  render g [] d = fullscreen_flush g (update_last_fullscreen_mode d).
Proof.
  intros Hm Hne Hmin. unfold render, fullscreen_pending. simpl.
  unfold fullscreen_screen. simpl. rewrite Hm. simpl.
  unfold base_fullscreen_pending, fullscreen_mode, minimized. simpl.
  apply Z.eqb_neq in Hne. rewrite Hne, Hmin. reflexivity.
Qed.

(** The flush to fullscreen. *)
Lemma fullscreen_flush_to_fullscreen g d monitor w :
  m_fullscreen_target_mode d = Fullscreen ->
  get_monitor g (m_fullscreen_target_screen d) = Some monitor ->
  m_window d = Some w ->
  fullscreen_flush g d
  = Some (with_last_video_mode (video_mode monitor)
            (with_current Fullscreen (m_fullscreen_target_screen d)
               (with_window
                  (glfwSetWindowMonitor false false (Some monitor) 0 0
                     (vm_width (video_mode monitor))
                     (vm_height (video_mode monitor))) d))).
Proof.
  intros Ht Hm Hw.
  unfold fullscreen_flush, base_fullscreen_flush, update_fullscreen.
  rewrite Hm, Hw, Ht. simpl. unfold fullscreen_screen. simpl.
  rewrite Hm, Ht. reflexivity.
Qed.

(** The flush to windowed mode when the previous frame was not windowed:
    the remembered size, centred on the monitor's work area. *)
Lemma fullscreen_flush_to_windowed g d monitor w :
  m_fullscreen_target_mode d = Windowed ->
  m_last_fullscreen_mode d <> Windowed ->
  get_monitor g (m_fullscreen_target_screen d) = Some monitor ->
  m_window d = Some w ->
  let x := workarea_x monitor + workarea_width monitor ÷ 2
           - m_last_windowed_width d ÷ 2 in
  let y := workarea_y monitor + workarea_height monitor ÷ 2
           - m_last_windowed_height d ÷ 2 in
  fullscreen_flush g d
  = Some (with_last_video_mode (video_mode monitor)
            (with_current Windowed (m_fullscreen_target_screen d)
               (with_windowed_pos x y
                  (with_windowed_size (m_last_windowed_width d)
                                      (m_last_windowed_height d)
                     (with_window
                        (glfwSetWindowMonitor true false None x y
                           (m_last_windowed_width d)
                           (m_last_windowed_height d)) d))))).
Proof.
  intros Ht Hl Hm Hw x y.
  unfold fullscreen_flush, base_fullscreen_flush, update_fullscreen.
  apply Z.eqb_neq in Hl.
  rewrite Hm, Hw, Ht. simpl. rewrite Hl. simpl. unfold fullscreen_screen.
  simpl. rewrite Hm, Ht. reflexivity.
Qed.

(** C8 (fullscreen round trip), as the code has it.  From a windowed, not
    minimized display with remembered geometry (x0, y0, w0, h0), requesting
    fullscreen on [screen] and running a loop iteration, then requesting
    windowed mode and running a loop iteration, ends windowed and decorated
    with the size (w0, h0) restored and the window centred on the work area
    of that screen's monitor; (x0, y0) plays no part. *)
Theorem fullscreen_round_trip_recentres g screen d monitor w x0 y0 w0 h0 :
  monitors g <> [] ->
  get_monitor g screen = Some monitor ->
  m_window d = Some w ->
  fullscreen_mode d = Windowed ->
  minimized d = false ->
  (m_last_windowed_xpos d, m_last_windowed_ypos d,
   m_last_windowed_width d, m_last_windowed_height d) = (x0, y0, w0, h0) ->
  let x := workarea_x monitor + workarea_width monitor ÷ 2 - w0 ÷ 2 in
  let y := workarea_y monitor + workarea_height monitor ÷ 2 - h0 ÷ 2 in
  exists d',
    fullscreen_round_trip g screen d = Some d'
    /\ fullscreen_mode d' = Windowed
    /\ fullscreen_screen d' = screen
    /\ m_window d' = Some (mkWindow None x y w0 h0 true false)
    /\ (m_last_windowed_xpos d', m_last_windowed_ypos d',
        m_last_windowed_width d', m_last_windowed_height d') = (x, y, w0, h0).
Proof.
  intros Hne Hmon Hwin Hmode Hmin Hgeo x y.
  inversion Hgeo as [[Hx Hy Hw Hh]]. clear Hgeo.
  unfold fullscreen_mode, minimized in *.
  destruct (get_monitor_total g (m_fullscreen_screen d) Hne) as (m0 & Hm0).
  destruct d as [scr tscr tmode mode lmode lx ly lw lh win mini lvm].
  cbn [m_fullscreen_screen m_window m_fullscreen_mode m_minimized
       m_last_windowed_xpos m_last_windowed_ypos m_last_windowed_width
       m_last_windowed_height] in *.
  subst. unfold fullscreen_round_trip.
  rewrite (render_flushes g _ m0); [ | exact Hm0 | discriminate | reflexivity ].
  rewrite (fullscreen_flush_to_fullscreen g _ monitor w);
    [ | reflexivity | exact Hmon | reflexivity ].
  cbn.
  rewrite (render_flushes g _ monitor);
    [ | exact Hmon | discriminate | reflexivity ].
  rewrite (fullscreen_flush_to_windowed g _ monitor
             (glfwSetWindowMonitor false false (Some monitor) 0 0
                (vm_width (video_mode monitor))
                (vm_height (video_mode monitor))));
    [ | reflexivity | discriminate | exact Hmon | reflexivity ].
  eexists. split; [reflexivity|]. cbn. auto.
Qed.

(** C8, counterexample.  A 640x480 window at (100, 50) on a 1920x1080
    monitor whose work area is 1920x1040 comes back from fullscreen at
    (640, 280): the size is restored, the position is not. *)
Lemma fullscreen_round_trip_moves_window :
  exists d',
    fullscreen_round_trip Samples.one_monitor 0 Samples.windowed_display
    = Some d'
    /\ m_window Samples.windowed_display = Some Samples.window0
    /\ m_window d' = Some (mkWindow None 640 280 640 480 true false)
    /\ (m_last_windowed_xpos d', m_last_windowed_ypos d',
        m_last_windowed_width d', m_last_windowed_height d')
       = (640, 280, 640, 480)
    /\ (m_last_windowed_xpos d', m_last_windowed_ypos d',
        m_last_windowed_width d', m_last_windowed_height d')
       <> (100, 50, 640, 480).
Proof.
  eexists. split.
  { vm_compute. reflexivity. }
  split; [reflexivity|]. split; [reflexivity|]. split; [reflexivity|].
  intros H. inversion H.
Qed.

Lemma fullscreen_pending_iff_witness :
  get_monitor Samples.one_monitor (fullscreen_screen Samples.windowed_display)
  = Some Samples.monitor0
  /\ exists b,
       fullscreen_pending Samples.one_monitor Samples.windowed_display = Some b
       /\ (b = true <->
           fullscreen_mode Samples.windowed_display
           <> m_fullscreen_target_mode Samples.windowed_display
           \/ m_fullscreen_screen Samples.windowed_display
              <> m_fullscreen_target_screen Samples.windowed_display
           \/ vm_width (video_mode Samples.monitor0)
              <> vm_width (m_last_video_mode Samples.windowed_display)
           \/ vm_height (video_mode Samples.monitor0)
              <> vm_height (m_last_video_mode Samples.windowed_display)
           \/ refreshRate (video_mode Samples.monitor0)
              <> refreshRate (m_last_video_mode Samples.windowed_display)).
Proof.
  split; [reflexivity|].
  apply (fullscreen_pending_iff Samples.one_monitor Samples.windowed_display
           Samples.monitor0).
  reflexivity.
Defined.

Lemma fullscreen_round_trip_recentres_witness :
  monitors Samples.one_monitor <> []
  /\ minimized Samples.windowed_display = false
  /\ exists d',
       fullscreen_round_trip Samples.one_monitor 0 Samples.windowed_display
       = Some d'
       /\ fullscreen_mode d' = Windowed
       /\ fullscreen_screen d' = 0
       /\ m_window d'
          = Some (mkWindow None (0 + 1920 ÷ 2 - 640 ÷ 2)
                           (0 + 1040 ÷ 2 - 480 ÷ 2) 640 480 true false)
       /\ (m_last_windowed_xpos d', m_last_windowed_ypos d',
           m_last_windowed_width d', m_last_windowed_height d')
          = (0 + 1920 ÷ 2 - 640 ÷ 2, 0 + 1040 ÷ 2 - 480 ÷ 2, 640, 480).
Proof.
  assert (Hne : monitors Samples.one_monitor <> []) by discriminate.
  split; [exact Hne|]. split; [reflexivity|].
  exact (fullscreen_round_trip_recentres Samples.one_monitor 0
           Samples.windowed_display Samples.monitor0 Samples.window0
           100 50 640 480 Hne eq_refl eq_refl eq_refl eq_refl eq_refl).
Defined.

End DisplayFacts.

(* ===================================================================== *)
(** ** Properties of the Graphics front end                               *)
(* ===================================================================== *)

Module GraphicsFacts.
Import Graphics.

(** The parameter test of [get_mapped_button] lets through exactly the
    pads 0..2 and the buttons 0..16. *)
Lemma get_mapped_button_rejects pad button st :
  fst (get_mapped_button pad button st) = Some (-1)
  /\ log (snd (get_mapped_button pad button st))
     = log st ++ [(Channel.LgError, mapped_button_error)]
  \/ 0 <= pad <= CONTROLLER_COUNT /\ 0 <= button <= 16
     /\ snd (get_mapped_button pad button st) = st.
Proof.
  unfold get_mapped_button.
  destruct ((pad <? 0) || (pad >? CONTROLLER_COUNT) || (button <? 0)
            || (button >? 16)) eqn:E; simpl.
  - left. auto.
  - right. repeat (apply orb_false_iff in E as [E ?]).
    rewrite Z.gtb_ltb in *.
    repeat match goal with H : (_ <? _) = false |- _ =>
      apply Z.ltb_ge in H end.
    unfold CONTROLLER_COUNT in *. repeat split; lia.
Qed.

(** Inside the declared bounds the read succeeds. *)
Lemma get_mapped_button_in_bounds pad button st :
  well_formed st -> in_bounds pad button ->
  exists v, get_mapped_button pad button st = (Some v, st).
Proof.
  intros (Hg & Hc & Hk & Fc & Fk) [Hp Hb].
  unfold CONTROLLER_COUNT, Button_Max in *.
  unfold get_mapped_button.
  replace ((pad <? 0) || (pad >? CONTROLLER_COUNT) || (button <? 0)
           || (button >? 16)) with false.
  2:{ symmetry. unfold CONTROLLER_COUNT. rewrite !Z.gtb_ltb.
      repeat (apply orb_false_iff; split); apply Z.ltb_ge; lia. }
  unfold GetGamepadState.
  destruct (lookup_lt_is_Some_2 (gamepad_idx st) (Z.to_nat pad)) as [s Hs];
    [lia|].
  rewrite Hs. simpl.
  set (table := if s >? -1 then _ else _).
  assert (Ht : length table = 2%nat /\ Forall (fun row => length row = 16%nat) table).
  { subst table. destruct (s >? -1); auto. }
  destruct Ht as [Hl Hf].
  destruct (lookup_lt_is_Some_2 table (Z.to_nat pad)) as [row Hr]; [lia|].
  rewrite Hr. simpl.
  assert (Hrow : length row = 16%nat).
  { rewrite List.Forall_forall in Hf. apply Hf.
    apply list_elem_of_In. eapply list_elem_of_lookup_2. exact Hr. }
  destruct (lookup_lt_is_Some_2 row (Z.to_nat button)) as [v Hv]; [lia|].
  rewrite Hv. eauto.
Qed.

(** C9 (bounds of the mapping reads), at the failing input.  The globals
    have the declared array sizes; pad 2 with button 0 and pad 0 with
    button 16 are outside the bounds, pass the parameter test (no error is
    returned or logged) and read the tables outside their bounds. *)
Theorem get_mapped_button_reads_out_of_bounds :
  well_formed Samples.sample_globals
  /\ ~ in_bounds 2 0
  /\ get_mapped_button 2 0 Samples.sample_globals
     = (None, Samples.sample_globals)
  /\ ~ in_bounds 0 16
  /\ get_mapped_button 0 16 Samples.sample_globals
     = (None, Samples.sample_globals).
Proof.
  split.
  { unfold well_formed. simpl. repeat split; auto.
    all: repeat constructor. }
  unfold in_bounds, CONTROLLER_COUNT, Button_Max.
  split; [lia|]. split; [reflexivity|]. split; [lia|]. reflexivity.
Qed.

(** C10 (queries without a main display).  When [GetMainDisplay] yields
    null, [get_window_width] and [get_window_height] return 0 and
    [get_fullscreen] returns [Windowed]; each hands the globals back as it
    received them. *)
Theorem queries_without_main_display g st :
  Display.GetMainDisplay (g_displays st) = None ->
  get_window_width st = (Some 0, st)
  /\ get_window_height g st = (Some 0, st)
  /\ get_fullscreen st = (Some Display.Windowed, st).
Proof.
  intros H. unfold get_window_width, get_window_height, get_fullscreen.
  rewrite H. auto.
Qed.

(** [GetMainDisplay] yields null exactly when there is no display or the
    first one has no window. *)
Lemma GetMainDisplay_none displays :
  Display.GetMainDisplay displays = None <->
  displays = [] \/ exists d rest, displays = d :: rest
                                  /\ Display.m_window d = None.
Proof.
  unfold Display.GetMainDisplay, Display.is_active.
  destruct displays as [|d rest]; [tauto|].
  destruct (Display.m_window d) eqn:E; split; intros H; try discriminate.
  - destruct H as [H | (d' & r' & H & Hw)]; [discriminate|].
    inversion H; subst. congruence.
  - right. eauto.
  - reflexivity.
Qed.

Lemma queries_without_main_display_witness :
  Display.GetMainDisplay (g_displays Samples.closed_globals) = None
  /\ get_window_width Samples.closed_globals
     = (Some 0, Samples.closed_globals)
  /\ get_window_height Samples.one_monitor Samples.closed_globals
     = (Some 0, Samples.closed_globals)
  /\ get_fullscreen Samples.closed_globals
     = (Some Display.Windowed, Samples.closed_globals).
Proof.
  split; [reflexivity|].
  apply (queries_without_main_display Samples.one_monitor
           Samples.closed_globals).
  reflexivity.
Defined.

End GraphicsFacts.

(* ===================================================================== *)
(** ** Further properties of the frame channel                            *)
(* ===================================================================== *)

Module ChannelMore.
Import Channel ChannelRuns.

Lemma publish_all_pending chains : forall p gd,
  g_graphics_data p = Some gd ->
  has_data_to_render gd = true ->
  publish_all chains p
  = mkProcess (Some gd) (MasterExit p)
              (log p ++ repeat (LgError, send_chain_error) (length chains)).
Proof.
  unfold publish_all.
  induction chains as [|[d o] rest IH]; intros p gd Hg Hd; simpl.
  - rewrite app_nil_r. destruct p; simpl in *; congruence.
  - unfold gl_send_chain at 2. rewrite Hg, Hd.
    rewrite (IH (mkProcess (Some gd) (MasterExit p)
                           (log p ++ [(LgError, send_chain_error)]))
                gd eq_refl Hd).
    simpl. rewrite <- app_assoc. reflexivity.
Qed.

(** The slot holds one chain: of any number of chains published to an idle
    channel before the next consume, the first is kept -- its address and
    offset are what the renderer will read -- and every later one is dropped
    with one error logged each.  The frame indices are not touched. *)
Theorem publish_all_keeps_first data offset rest p gd :
  g_graphics_data p = Some gd ->
  has_data_to_render gd = false ->
  publish_all ((data, offset) :: rest) p
  = mkProcess (Some (mkData (frame_idx gd) (frame_idx_of_input_data gd) true
                            (mkCopier data offset)))
              (MasterExit p)
              (log p ++ repeat (LgError, send_chain_error) (length rest)).
Proof.
  intros Hg Hd. unfold publish_all. simpl fold_left.
  rewrite (ChannelFacts.gl_send_chain_accepted data offset p gd Hg Hd).
  exact (publish_all_pending rest
           (mkProcess (Some (mkData (frame_idx gd) (frame_idx_of_input_data gd)
                                    true (mkCopier data offset)))
                      (MasterExit p) (log p)) _ eq_refl eq_refl).
Qed.

Lemma publish_all_keeps_first_witness :
  has_data_to_render Samples.idle_data = false
  /\ publish_all [(4096, 100); (8192, 0); (12288, 8)] Samples.idle_process
     = mkProcess (Some (mkData 5 5 true (mkCopier 4096 100))) RUNNING
                 [(LgError, send_chain_error); (LgError, send_chain_error)].
Proof.
  split; [reflexivity|].
  exact (publish_all_keeps_first 4096 100 [(8192, 0); (12288, 8)]
           Samples.idle_process Samples.idle_data eq_refl eq_refl).
Defined.

(** What [first_frame] stands for: the three lines [setup_frame] writes
    when a fresh renderer is asked for 4 samples; the next frame with the
    same options writes none. *)
Lemma first_frame_lines :
  drawn first_frame
  = [(LgInfo, fbo_requested); (LgInfo, fbo_no_match); (LgInfo, fbo_second)]
  /\ setup_frame_lines Samples.complete_driver Samples.msaa_options
                       Samples.msaa_renderer = [].
Proof. split; vm_compute; reflexivity. Qed.

Lemma land_one_parity z : Z.land z 1 = z mod 2.
Proof. change 1 with (Z.ones 1). rewrite Z.land_ones by lia. reflexivity. Qed.

(** After an iteration of the loop that drew a pending chain, a producer
    calling [gl_vsync] is let through with the parity of the new frame
    index -- unless the 64-bit counter has just wrapped to 0: then the index
    recorded for the chain (2^64 - 1) is not below the counter and the call
    blocks while the exit status is [RUNNING]. *)
Theorem gl_vsync_after_drawn_frame written p gd :
  g_graphics_data p = Some gd ->
  has_data_to_render gd = true ->
  0 <= frame_idx gd < 2 ^ 64 ->
  exists p',
    render written true false p = Some p'
    /\ (frame_idx gd < 2 ^ 64 - 1 ->
        gl_vsync p' = Returns ((frame_idx gd + 1) mod 2))
    /\ (frame_idx gd = 2 ^ 64 - 1 -> MasterExit p = RUNNING ->
        gl_vsync p' = Blocks).
Proof.
  intros Hg Hd Hr.
  rewrite (ChannelFacts.render_draws written false p gd Hg Hd).
  eexists. split; [reflexivity|].
  unfold gl_vsync, gl_vsync_predicate.
  cbn [g_graphics_data frame_idx frame_idx_of_input_data MasterExit].
  unfold u64_wrap. split.
  - intros Hlt. rewrite (Z.mod_small (frame_idx gd + 1)) by lia.
    replace (frame_idx gd <? frame_idx gd + 1) with true
      by (symmetry; apply Z.ltb_lt; lia).
    rewrite orb_true_r, land_one_parity. reflexivity.
  - intros He Hrun. rewrite He, Hrun. reflexivity.
Qed.

Lemma gl_vsync_after_drawn_frame_witness :
  has_data_to_render Samples.pending_data = true
  /\ exists p',
       render first_frame true false Samples.pending_process = Some p'
       /\ (frame_idx Samples.pending_data < 2 ^ 64 - 1 ->
           gl_vsync p' = Returns ((5 + 1) mod 2))
       /\ (frame_idx Samples.pending_data = 2 ^ 64 - 1 ->
           MasterExit Samples.pending_process = RUNNING ->
           gl_vsync p' = Blocks).
Proof.
  split; [reflexivity|].
  apply (gl_vsync_after_drawn_frame first_frame Samples.pending_process
           Samples.pending_data eq_refl eq_refl).
  simpl. lia.
Defined.

(** Backpressure over one frame: on an idle channel [gl_sync_path] returns
    at once; after an accepted publish it blocks, whatever the exit status;
    after the loop iteration that draws the frame -- whatever that iteration
    writes to the log -- it returns again, the flag is clear, the chain in
    the copier is the published one, and the frame index recorded for the
    chain is the one the frame was drawn at. *)
Theorem gl_sync_path_frame_cycle data offset written close p gd :
  g_graphics_data p = Some gd ->
  has_data_to_render gd = false ->
  gl_sync_path p = Returns 0
  /\ gl_sync_path (gl_send_chain data offset p) = Blocks
  /\ exists p' gd',
       render written true close (gl_send_chain data offset p) = Some p'
       /\ g_graphics_data p' = Some gd'
       /\ MasterExit p' = (if close then EXIT else MasterExit p)
       /\ gl_sync_path p' = Returns 0
       /\ has_data_to_render gd' = false
       /\ frame_idx_of_input_data gd' = frame_idx gd
       /\ dma_copier gd' = mkCopier data offset.
Proof.
  intros Hg Hd.
  rewrite (ChannelFacts.gl_send_chain_accepted data offset p gd Hg Hd).
  split.
  { unfold gl_sync_path. rewrite Hg, Hd. reflexivity. }
  split; [reflexivity|].
  rewrite (ChannelFacts.render_draws written close
             (mkProcess (Some (mkData (frame_idx gd)
                                      (frame_idx_of_input_data gd) true
                                      (mkCopier data offset)))
                        (MasterExit p) (log p)) _ eq_refl eq_refl).
  eexists _, _. split; [reflexivity|]. repeat split.
Qed.

Lemma gl_sync_path_frame_cycle_witness :
  has_data_to_render Samples.idle_data = false
  /\ gl_sync_path Samples.idle_process = Returns 0
  /\ gl_sync_path (gl_send_chain 4096 100 Samples.idle_process) = Blocks
  /\ exists p' gd',
       render first_frame true false
              (gl_send_chain 4096 100 Samples.idle_process) = Some p'
       /\ g_graphics_data p' = Some gd'
       /\ MasterExit p' = MasterExit Samples.idle_process
       /\ gl_sync_path p' = Returns 0
       /\ has_data_to_render gd' = false
       /\ frame_idx_of_input_data gd' = frame_idx Samples.idle_data
       /\ dma_copier gd' = mkCopier 4096 100.
Proof.
  split; [reflexivity|].
  exact (gl_sync_path_frame_cycle 4096 100 first_frame false
           Samples.idle_process Samples.idle_data eq_refl eq_refl).
Defined.

End ChannelMore.

(* ===================================================================== *)
(** ** Further properties of the display state machine                    *)
(* ===================================================================== *)

Module DisplayMore.
Import Display.

(** What no window event changes: the modes, the screens, the window
    handle and the recorded video mode. *)
Lemma dispatch_keeps_modes e d :
  m_fullscreen_mode (dispatch e d) = m_fullscreen_mode d
  /\ m_fullscreen_target_mode (dispatch e d) = m_fullscreen_target_mode d
  /\ m_fullscreen_screen (dispatch e d) = m_fullscreen_screen d
  /\ m_fullscreen_target_screen (dispatch e d) = m_fullscreen_target_screen d
  /\ m_last_fullscreen_mode (dispatch e d) = m_last_fullscreen_mode d
  /\ m_last_video_mode (dispatch e d) = m_last_video_mode d
  /\ m_window (dispatch e d) = m_window d.
Proof.
  destruct e; simpl; unfold on_window_pos, on_window_size, on_iconify;
    try destruct (m_fullscreen_target_mode d =? Windowed); simpl; auto 10.
Qed.

Lemma glfwPollEvents_keeps_modes events : forall d,
  m_fullscreen_mode (glfwPollEvents events d) = m_fullscreen_mode d
  /\ m_fullscreen_target_mode (glfwPollEvents events d)
     = m_fullscreen_target_mode d
  /\ m_fullscreen_screen (glfwPollEvents events d) = m_fullscreen_screen d
  /\ m_fullscreen_target_screen (glfwPollEvents events d)
     = m_fullscreen_target_screen d
  /\ m_last_fullscreen_mode (glfwPollEvents events d)
     = m_last_fullscreen_mode d
  /\ m_last_video_mode (glfwPollEvents events d) = m_last_video_mode d
  /\ m_window (glfwPollEvents events d) = m_window d.
Proof.
  unfold glfwPollEvents.
  induction events as [|e rest IH]; intros d; simpl; [auto 10|].
  destruct (IH (dispatch e d)) as (A & B & C & D & E & F & G).
  destruct (dispatch_keeps_modes e d) as (A' & B' & C' & D' & E' & F' & G').
  repeat split; congruence.
Qed.

(** While a mode other than windowed is targeted, no sequence of window
    events -- moves, resizes, iconify -- changes the remembered windowed
    position and size; the size the window returns to is the one it had
    before fullscreen was requested. *)
Theorem glfwPollEvents_keeps_windowed_geometry events d :
  m_fullscreen_target_mode d <> Windowed ->
  let d' := glfwPollEvents events d in
  m_last_windowed_xpos d' = m_last_windowed_xpos d
  /\ m_last_windowed_ypos d' = m_last_windowed_ypos d
  /\ m_last_windowed_width d' = m_last_windowed_width d
  /\ m_last_windowed_height d' = m_last_windowed_height d.
Proof.
  revert d. unfold glfwPollEvents.
  induction events as [|e rest IH]; intros d Ht; simpl; [auto|].
  destruct (dispatch_keeps_modes e d) as (_ & Ht' & _).
  destruct (DisplayFacts.callbacks_ignored_outside_windowed e d Ht)
    as (A & B & C & D).
  destruct (IH (dispatch e d)) as (A' & B' & C' & D'); [congruence|].
  simpl in *. repeat split; congruence.
Qed.

Lemma glfwPollEvents_keeps_windowed_geometry_witness :
  m_fullscreen_target_mode
    (set_fullscreen Fullscreen 0 Samples.windowed_display) <> Windowed
  /\ (let d' := glfwPollEvents [WindowPos 0 0; WindowSize 1920 1080;
                                Iconify true; WindowPos 7 9]
                  (set_fullscreen Fullscreen 0 Samples.windowed_display) in
      m_last_windowed_xpos d' = 100
      /\ m_last_windowed_ypos d' = 50
      /\ m_last_windowed_width d' = 640
      /\ m_last_windowed_height d' = 480).
Proof.
  assert (H : m_fullscreen_target_mode
                (set_fullscreen Fullscreen 0 Samples.windowed_display)
              <> Windowed) by discriminate.
  split; [exact H|].
  exact (glfwPollEvents_keeps_windowed_geometry
           [WindowPos 0 0; WindowSize 1920 1080; Iconify true; WindowPos 7 9]
           (set_fullscreen Fullscreen 0 Samples.windowed_display) H).
Defined.

(** A minimized window defers every transition: whatever is requested and
    whatever the monitor reports, an iteration that finds the window
    minimized after polling leaves the current mode, the current screen and
    the window as they are and keeps the request for later. *)
Theorem render_minimized_defers g events d :
  monitors g <> [] ->
  minimized (glfwPollEvents events d) = true ->
  exists d',
    render g events d = Some d'
    /\ fullscreen_mode d' = fullscreen_mode d
    /\ fullscreen_screen d' = fullscreen_screen d
    /\ m_window d' = m_window d
    /\ m_fullscreen_target_mode d' = m_fullscreen_target_mode d
    /\ m_fullscreen_target_screen d' = m_fullscreen_target_screen d
    /\ minimized d' = true.
Proof.
  intros Hne Hmin.
  destruct (glfwPollEvents_keeps_modes events d) as (A & B & C & D & _ & _ & G).
  set (d1 := glfwPollEvents events d) in *.
  destruct (DisplayFacts.get_monitor_total g (m_fullscreen_screen d1) Hne)
    as (m & Hm).
  exists (update_last_fullscreen_mode d1). split.
  - unfold render, fullscreen_pending, fullscreen_screen. fold d1.
    cbn [update_last_fullscreen_mode with_last_mode m_fullscreen_screen].
    rewrite Hm. cbn [mbind option_bind].
    unfold minimized in *.
    cbn [m_minimized with_last_mode update_last_fullscreen_mode]. rewrite Hmin.
    rewrite andb_false_r. reflexivity.
  - unfold fullscreen_mode, fullscreen_screen, minimized in *.
    cbn. auto 10.
Qed.

Lemma render_minimized_defers_witness :
  monitors Samples.one_monitor <> []
  /\ exists d',
       render Samples.one_monitor [Iconify true]
              (set_fullscreen Fullscreen 0 Samples.windowed_display) = Some d'
       /\ fullscreen_mode d' = Windowed
       /\ m_window d' = Some Samples.window0
       /\ m_fullscreen_target_mode d' = Fullscreen.
Proof.
  assert (H : monitors Samples.one_monitor <> []) by discriminate.
  split; [exact H|].
  destruct (render_minimized_defers Samples.one_monitor [Iconify true]
              (set_fullscreen Fullscreen 0 Samples.windowed_display) H eq_refl)
    as (d' & A & B & _ & C & D & _).
  exists d'. auto.
Defined.

(** What a flush that goes through establishes. *)
Lemma fullscreen_flush_some g d d' :
  fullscreen_flush g d = Some d' ->
  exists monitor,
    get_monitor g (m_fullscreen_target_screen d) = Some monitor
    /\ m_fullscreen_mode d' = m_fullscreen_target_mode d
    /\ m_fullscreen_screen d' = m_fullscreen_target_screen d
    /\ m_fullscreen_target_mode d' = m_fullscreen_target_mode d
    /\ m_fullscreen_target_screen d' = m_fullscreen_target_screen d
    /\ m_last_fullscreen_mode d' = m_last_fullscreen_mode d
    /\ m_last_video_mode d' = video_mode monitor
    /\ m_minimized d' = m_minimized d.
Proof.
  destruct d as [scr tscr tmode mode lmode lx ly lw lh win mini lvm].
  unfold fullscreen_flush, base_fullscreen_flush, update_fullscreen.
  cbn [m_fullscreen_target_screen m_fullscreen_target_mode m_window
       m_last_fullscreen_mode m_last_windowed_xpos m_last_windowed_ypos
       m_last_windowed_width m_last_windowed_height].
  destruct (get_monitor g tscr) as [monitor|] eqn:Hm; [|discriminate].
  destruct win as [w|]; [|discriminate].
  cbn [mbind option_bind].
  intros H. exists monitor. split; [reflexivity|].
  destruct (tmode =? Windowed);
    [ destruct (lmode =? Windowed)
    | destruct (tmode =? Fullscreen); [ | destruct (tmode =? Borderless) ] ];
    cbn in H; rewrite Hm in H; cbn in H; inversion H; subst; cbn; auto 10.
Qed.

Lemma fullscreen_flush_not_pending g d d' :
  fullscreen_flush g d = Some d' ->
  fullscreen_pending g d' = Some false
  /\ render g [] d' = Some (update_last_fullscreen_mode d').
Proof.
  intros H.
  destruct (fullscreen_flush_some g d d' H)
    as (monitor & Hm & A & B & C & D & _ & F & _).
  assert (Hp : forall d0,
    m_fullscreen_mode d0 = m_fullscreen_mode d' ->
    m_fullscreen_screen d0 = m_fullscreen_screen d' ->
    m_fullscreen_target_mode d0 = m_fullscreen_target_mode d' ->
    m_fullscreen_target_screen d0 = m_fullscreen_target_screen d' ->
    m_last_video_mode d0 = m_last_video_mode d' ->
    fullscreen_pending g d0 = Some false).
  { intros d0 E1 E2 E3 E4 E5.
    unfold fullscreen_pending, fullscreen_screen, base_fullscreen_pending,
      fullscreen_mode, video_mode_changed.
    rewrite E1, E2, E3, E4, E5, A, B, C, D, F, Hm. cbn [mbind option_bind].
    rewrite !Z.eqb_refl. reflexivity. }
  split; [apply Hp; reflexivity|].
  unfold render. cbn [glfwPollEvents fold_left].
  rewrite (Hp (update_last_fullscreen_mode d')) by reflexivity.
  reflexivity.
Qed.

Lemma fullscreen_flush_total g d w :
  monitors g <> [] ->
  m_window d = Some w ->
  exists d' w', fullscreen_flush g d = Some d' /\ m_window d' = Some w'.
Proof.
  intros Hne Hw.
  destruct d as [scr tscr tmode mode lmode lx ly lw lh win mini lvm].
  cbn [m_window] in Hw. subst win.
  destruct (DisplayFacts.get_monitor_total g tscr Hne) as [monitor Hm].
  unfold fullscreen_flush, base_fullscreen_flush, update_fullscreen.
  cbn [m_fullscreen_target_screen m_fullscreen_target_mode m_window
       m_last_fullscreen_mode m_last_windowed_xpos m_last_windowed_ypos
       m_last_windowed_width m_last_windowed_height].
  rewrite Hm. cbn [mbind option_bind].
  destruct (tmode =? Windowed);
    [ destruct (lmode =? Windowed)
    | destruct (tmode =? Fullscreen); [ | destruct (tmode =? Borderless) ] ];
    cbn; rewrite Hm; cbn; eauto.
Qed.

(** A flush settles the display.  With a monitor and a window it goes
    through, whatever the mode asked for -- also a mode that is none of the
    three, for which no GLFW call is made --; right after it the mode and
    the screen are the targeted ones, nothing is pending any more, and the
    next iteration without events changes nothing but the record of the
    previous mode. *)
Theorem fullscreen_flush_settles g d w :
  monitors g <> [] ->
  m_window d = Some w ->
  exists d',
    fullscreen_flush g d = Some d'
    /\ fullscreen_mode d' = m_fullscreen_target_mode d
    /\ fullscreen_screen d' = m_fullscreen_target_screen d
    /\ fullscreen_pending g d' = Some false
    /\ render g [] d' = Some (update_last_fullscreen_mode d').
Proof.
  intros Hne Hw.
  destruct (fullscreen_flush_total g d w Hne Hw) as (d' & _ & H & _).
  exists d'. split; [exact H|].
  destruct (fullscreen_flush_some g d d' H) as (_ & _ & A & B & _).
  destruct (fullscreen_flush_not_pending g d d' H) as (C & D).
  auto.
Qed.

Lemma fullscreen_flush_settles_witness :
  exists d',
    fullscreen_flush Samples.one_monitor
      (set_fullscreen Borderless 0 Samples.windowed_display) = Some d'
    /\ fullscreen_mode d' = Borderless
    /\ fullscreen_screen d' = 0
    /\ fullscreen_pending Samples.one_monitor d' = Some false
    /\ render Samples.one_monitor [] d'
       = Some (update_last_fullscreen_mode d').
Proof.
  apply (fullscreen_flush_settles Samples.one_monitor
           (set_fullscreen Borderless 0 Samples.windowed_display)
           Samples.window0).
  - discriminate.
  - reflexivity.
Defined.

(** A flush while the display is, and stays, windowed -- because the target
    screen changed or the monitor's video mode did -- puts the window back
    exactly where the user left it: position and size are the remembered
    ones, as last reported by the window events. *)
Theorem render_windowed_keeps_geometry g events d w :
  m_window d = Some w ->
  fullscreen_mode d = Windowed ->
  m_fullscreen_target_mode d = Windowed ->
  let d1 := glfwPollEvents events d in
  minimized d1 = false ->
  fullscreen_pending g d1 = Some true ->
  exists d',
    render g events d = Some d'
    /\ fullscreen_mode d' = Windowed
    /\ fullscreen_screen d' = m_fullscreen_target_screen d
    /\ m_window d'
       = Some (mkWindow None (m_last_windowed_xpos d1) (m_last_windowed_ypos d1)
                        (m_last_windowed_width d1) (m_last_windowed_height d1)
                        true false)
    /\ (m_last_windowed_xpos d', m_last_windowed_ypos d',
        m_last_windowed_width d', m_last_windowed_height d')
       = (m_last_windowed_xpos d1, m_last_windowed_ypos d1,
          m_last_windowed_width d1, m_last_windowed_height d1).
Proof.
  intros Hw Hmode Ht d1 Hmin Hp.
  destruct (glfwPollEvents_keeps_modes events d) as (A & B & C & D & _ & _ & G).
  fold d1 in A, B, C, D, G. unfold fullscreen_mode, minimized in *.
  unfold render. fold d1.
  assert (Hp2 : fullscreen_pending g (update_last_fullscreen_mode d1)
                = Some true) by exact Hp.
  rewrite Hp2. cbn [mbind option_bind].
  replace (minimized (update_last_fullscreen_mode d1)) with false
    by (symmetry; exact Hmin).
  cbn [andb negb].
  destruct d1 as [scr tscr tmode mode lmode lx ly lw lh win mini lvm].
  cbn [m_fullscreen_mode m_fullscreen_target_mode m_fullscreen_screen
       m_fullscreen_target_screen m_window m_minimized m_last_windowed_xpos
       m_last_windowed_ypos m_last_windowed_width m_last_windowed_height] in *.
  subst. unfold fullscreen_pending, fullscreen_screen in Hp.
  cbn [m_fullscreen_screen] in Hp.
  unfold fullscreen_flush, base_fullscreen_flush, update_fullscreen,
    update_last_fullscreen_mode, fullscreen_mode. cbn.
  rewrite Hmode, Ht in *. cbn.
  destruct (get_monitor g (m_fullscreen_target_screen d)) as [mt|] eqn:Hmt.
  - cbn. rewrite Hw. cbn. rewrite Hmt. cbn.
    eexists. split; [reflexivity|]. cbn. auto.
  - exfalso.
    (* no monitor at all: the pending query could not have answered *)
    unfold get_monitor in *.
    destruct (monitors g) as [|m0 ms]; [|].
    + cbn in Hp. destruct (_ || _) in Hp; discriminate.
    + destruct ((m_fullscreen_target_screen d <? 0)
                || (m_fullscreen_target_screen d
                    >=? Z.of_nat (length (m0 :: ms)))) eqn:E.
      * discriminate.
      * apply orb_false_iff in E as [E1 E2]. apply Z.ltb_ge in E1.
        rewrite Z.geb_leb in E2. apply Z.leb_gt in E2.
        apply lookup_ge_None in Hmt. lia.
Qed.

Lemma render_windowed_keeps_geometry_witness :
  fullscreen_pending Samples.one_monitor
    (glfwPollEvents [WindowPos 300 200] Samples.retargeted_display) = Some true
  /\ exists d',
       render Samples.one_monitor [WindowPos 300 200]
              Samples.retargeted_display = Some d'
       /\ fullscreen_screen d' = 1
       /\ m_window d' = Some (mkWindow None 300 200 640 480 true false).
Proof.
  split; [reflexivity|].
  destruct (render_windowed_keeps_geometry Samples.one_monitor
              [WindowPos 300 200] Samples.retargeted_display Samples.window0
              eq_refl eq_refl eq_refl eq_refl eq_refl)
    as (d' & A & _ & B & C & _).
  exists d'. auto.
Defined.

(** The flush to borderless. *)
Lemma fullscreen_flush_to_borderless g d monitor w :
  m_fullscreen_target_mode d = Borderless ->
  get_monitor g (m_fullscreen_target_screen d) = Some monitor ->
  m_window d = Some w ->
  fullscreen_flush g d
  = Some (with_last_video_mode (video_mode monitor)
            (with_current Borderless (m_fullscreen_target_screen d)
               (with_window
                  (glfwSetWindowMonitor false (floating w) None
                     (monitor_x monitor) (monitor_y monitor)
                     (vm_width (video_mode monitor))
                     (if win32 g then vm_height (video_mode monitor) + 1
                      else vm_height (video_mode monitor))) d))).
Proof.
  intros Ht Hm Hw.
  unfold fullscreen_flush, base_fullscreen_flush, update_fullscreen.
  rewrite Hm, Hw, Ht. cbn. rewrite Hm, Ht. reflexivity.
Qed.

(** The borderless mode on Windows asks for a window one pixel taller than
    the monitor, and [height()] takes the pixel off again once the previous
    mode on record is borderless.  So from the second iteration after the
    switch the reported size is the monitor's video mode on either platform;
    in the iteration of the switch itself the height is still one too large
    on Windows. *)
Theorem borderless_height_compensated g d monitor w :
  get_monitor g (m_fullscreen_target_screen d) = Some monitor ->
  m_window d = Some w ->
  m_fullscreen_target_mode d = Borderless ->
  fullscreen_mode d <> Borderless ->
  minimized d = false ->
  exists d1 d2,
    render g [] d = Some d1
    /\ render g [] d1 = Some d2
    /\ height g d1
       = Some (if win32 g then vm_height (video_mode monitor) + 1
               else vm_height (video_mode monitor))
    /\ width d2 = Some (vm_width (video_mode monitor))
    /\ height g d2 = Some (vm_height (video_mode monitor)).
Proof.
  intros Hm Hw Ht Hmode Hmin. unfold fullscreen_mode, minimized in *.
  assert (Hne : monitors g <> []).
  { intros E. unfold get_monitor in Hm. rewrite E in Hm.
    destruct (_ || _) in Hm; discriminate. }
  destruct (DisplayFacts.get_monitor_total g (m_fullscreen_screen d) Hne)
    as (m0 & Hm0).
  assert (H1 : render g [] d
               = fullscreen_flush g (update_last_fullscreen_mode d)).
  { apply (DisplayFacts.render_flushes g d m0 Hm0); [congruence | exact Hmin]. }
  rewrite (fullscreen_flush_to_borderless g _ monitor w) in H1;
    [ | exact Ht | exact Hm | exact Hw ].
  eexists. eexists. split; [exact H1|].
  match type of H1 with _ = Some ?d1 =>
    assert (H2 : fullscreen_flush g (update_last_fullscreen_mode d) = Some d1)
      by (apply fullscreen_flush_to_borderless; assumption);
    destruct (fullscreen_flush_not_pending g _ d1 H2) as (_ & H3)
  end.
  split; [exact H3|].
  destruct d as [scr tscr tmode mode lmode lx ly lw lh win mini lvm].
  cbn in *. subst.
  apply Z.eqb_neq in Hmode. unfold height, width, last_fullscreen_mode.
  cbn. rewrite Hmode, andb_false_r.
  destruct (win32 g); cbn; repeat split; f_equal; lia.
Qed.

Lemma borderless_height_compensated_witness :
  fullscreen_mode (set_fullscreen Borderless 0 Samples.windowed_display)
  <> Borderless
  /\ exists d1 d2,
       render (mkGlfw [Samples.monitor0] true) []
              (set_fullscreen Borderless 0 Samples.windowed_display) = Some d1
       /\ render (mkGlfw [Samples.monitor0] true) [] d1 = Some d2
       /\ height (mkGlfw [Samples.monitor0] true) d1 = Some (1080 + 1)
       /\ width d2 = Some 1920
       /\ height (mkGlfw [Samples.monitor0] true) d2 = Some 1080.
Proof.
  assert (H : fullscreen_mode
                (set_fullscreen Borderless 0 Samples.windowed_display)
              <> Borderless) by discriminate.
  split; [exact H|].
  exact (borderless_height_compensated (mkGlfw [Samples.monitor0] true)
           (set_fullscreen Borderless 0 Samples.windowed_display)
           Samples.monitor0 Samples.window0 eq_refl eq_refl eq_refl H eq_refl).
Defined.

(** [get_monitor] never reads outside the monitor array when GLFW reports
    at least one monitor: an index inside the array gives that monitor, any
    other index -- negative or past the end -- gives the primary monitor. *)
Theorem get_monitor_in_bounds g index primary others :
  monitors g = primary :: others ->
  exists monitor,
    get_monitor g index = Some monitor
    /\ In monitor (monitors g)
    /\ (0 <= index < Z.of_nat (length (monitors g)) ->
        monitors g !! Z.to_nat index = Some monitor)
    /\ (index < 0 \/ Z.of_nat (length (monitors g)) <= index ->
        monitor = primary).
Proof.
  intros Hl.
  destruct (DisplayFacts.get_monitor_total g index) as (m & Hm);
    [rewrite Hl; discriminate|].
  exists m. split; [exact Hm|].
  unfold get_monitor in Hm.
  destruct ((index <? 0) || (index >=? Z.of_nat (length (monitors g)))) eqn:E.
  - rewrite Hl in Hm. cbn in Hm. inversion Hm; subst m.
    split; [rewrite Hl; left; reflexivity|].
    apply orb_true_iff in E as [E|E].
    + apply Z.ltb_lt in E. split; [lia | reflexivity].
    + rewrite Z.geb_leb in E. apply Z.leb_le in E. split; [lia | reflexivity].
  - apply orb_false_iff in E as [E1 E2]. apply Z.ltb_ge in E1.
    rewrite Z.geb_leb in E2. apply Z.leb_gt in E2.
    split; [apply list_elem_of_In; eapply list_elem_of_lookup_2; exact Hm|].
    split; [intros _; exact Hm | lia].
Qed.

Lemma get_monitor_in_bounds_witness :
  monitors Samples.one_monitor = Samples.monitor0 :: []
  /\ get_monitor Samples.one_monitor 7 = Some Samples.monitor0
  /\ get_monitor Samples.one_monitor (-1) = Some Samples.monitor0.
Proof.
  split; [reflexivity|].
  destruct (get_monitor_in_bounds Samples.one_monitor 7 Samples.monitor0 []
              eq_refl) as (m & A & _ & _ & B).
  destruct (get_monitor_in_bounds Samples.one_monitor (-1) Samples.monitor0 []
              eq_refl) as (m' & A' & _ & _ & B').
  assert (E : m = Samples.monitor0).
  { apply B. right. vm_compute. intros X. discriminate X. }
  assert (E' : m' = Samples.monitor0).
  { apply B'. left. reflexivity. }
  subst. split; [exact A | exact A'].
Defined.

End DisplayMore.

(* ===================================================================== *)
(** ** Properties of the screenshot path                                  *)
(* ===================================================================== *)

Module ScreenshotFacts.
Import Renderer Screenshot.

Local Open Scope nat_scope.

Lemma swap_length i j b : length (swap i j b) = length b.
Proof.
  unfold swap. destruct (b !! i), (b !! j); auto.
  rewrite !length_insert. reflexivity.
Qed.

Lemma swap_lookup i j b k :
  i < length b -> j < length b -> i <> j ->
  swap i j b !! k
  = if decide (k = i) then b !! j
    else if decide (k = j) then b !! i else b !! k.
Proof.
  intros Hi Hj Hne. unfold swap.
  destruct (lookup_lt_is_Some_2 b i Hi) as [x Hx].
  destruct (lookup_lt_is_Some_2 b j Hj) as [y Hy].
  rewrite Hx, Hy.
  destruct (decide (k = i)) as [->|Hki].
  - rewrite list_lookup_insert_ne by auto.
    rewrite list_lookup_insert_eq by auto. reflexivity.
  - destruct (decide (k = j)) as [->|Hkj].
    + rewrite list_lookup_insert_eq by (rewrite length_insert; auto).
      reflexivity.
    + rewrite !list_lookup_insert_ne by auto. reflexivity.
Qed.

(** The inner loop exchanges two disjoint runs of [n] pixels. *)
Lemma swap_run A B n : forall b,
  A + n <= B -> B + n <= length b ->
  let r := fold_left (fun buf w => swap (A + w) (B + w) buf) (seq 0 n) b in
  length r = length b
  /\ forall k,
       r !! k = if decide (A <= k < A + n) then b !! (k - A + B)
                else if decide (B <= k < B + n) then b !! (k - B + A)
                else b !! k.
Proof.
  induction n as [|n IH]; intros b HAB HB; cbv zeta.
  - simpl. split; [reflexivity|]. intros k.
    repeat destruct (decide _); try lia; reflexivity.
  - rewrite seq_S, fold_left_app. simpl.
    destruct (IH b) as [Hlen Hk]; [lia | lia |].
    set (r := fold_left _ (seq 0 n) b) in *.
    split; [rewrite swap_length; exact Hlen|].
    intros k. rewrite swap_lookup by lia.
    rewrite !Hk.
    repeat destruct (decide _); try lia; try reflexivity; f_equal; lia.
Qed.

Lemma row_before r m c W : r < m -> c < W -> r * W + c < m * W.
Proof. intros. nia. Qed.

Lemma row_after r m W : m < r -> m * W + W <= r * W.
Proof. intros. nia. Qed.

Lemma flip_rounds W H m : forall b,
  2 * m <= H -> length b = W * H ->
  let r :=
    fold_left
      (fun buf h =>
         fold_left
           (fun buf w => swap (h * W + w) ((H - h - 1) * W + w) buf)
           (seq 0 W) buf)
      (seq 0 m) b in
  length r = length b
  /\ forall row col, row < H -> col < W ->
       r !! (row * W + col) = b !! (source_row m H row * W + col).
Proof.
  induction m as [|m IH]; intros b Hm Hlen; cbv zeta.
  - simpl. split; [reflexivity|]. intros row col Hr Hc. unfold source_row.
    destruct (decide _); [lia | reflexivity].
  - rewrite seq_S, fold_left_app. simpl.
    destruct (IH b) as [Hl Hk]; [lia | exact Hlen |].
    set (cur := fold_left _ (seq 0 m) b) in *.
    assert (HA : m * W + W <= (H - m - 1) * W).
    { apply row_after. lia. }
    assert (HB : (H - m - 1) * W + W <= length cur).
    { rewrite Hl, Hlen.
      replace (W * H) with (((H - m - 1) + 1 + m) * W) by nia. nia. }
    destruct (swap_run (m * W) ((H - m - 1) * W) W cur HA HB) as [Hl2 Hk2].
    split; [rewrite Hl2; exact Hl|].
    intros row col Hr Hc. rewrite Hk2.
    destruct (decide (row = m)) as [->|Hne1].
    + destruct (decide _) as [_|X]; [|lia].
      replace (m * W + col - m * W + (H - m - 1) * W)
        with ((H - m - 1) * W + col) by lia.
      rewrite Hk by lia. unfold source_row.
      repeat destruct (decide _); try lia; try reflexivity;
        f_equal; f_equal; f_equal; lia.
    + destruct (decide (row = H - m - 1)) as [->|Hne2].
      * destruct (decide (m * W <= _ < _)) as [X|_]; [lia|].
        destruct (decide _) as [_|X]; [|lia].
        replace ((H - m - 1) * W + col - (H - m - 1) * W + m * W)
          with (m * W + col) by lia.
        rewrite Hk by lia. unfold source_row.
        repeat destruct (decide _); try lia; try reflexivity;
        f_equal; f_equal; f_equal; lia.
      * assert (Hout : ~ (m * W <= row * W + col < m * W + W)
                       /\ ~ ((H - m - 1) * W <= row * W + col
                             < (H - m - 1) * W + W)).
        { split; intros [X Y].
          - destruct (Nat.lt_total row m) as [L|[E|G]]; [|lia|].
            + pose proof (row_before row m col W L Hc). lia.
            + pose proof (row_after row m W G). lia.
          - destruct (Nat.lt_total row (H - m - 1)) as [L|[E|G]]; [|lia|].
            + pose proof (row_before row (H - m - 1) col W L Hc). lia.
            + pose proof (row_after row (H - m - 1) W G). lia. }
        destruct Hout as [O1 O2].
        destruct (decide _); [tauto|]. destruct (decide _); [tauto|].
        rewrite Hk by lia. unfold source_row.
        repeat destruct (decide _); try lia; reflexivity.
Qed.

Lemma flip_rows_spec W H b :
  length b = W * H ->
  length (flip_rows W H b) = length b
  /\ forall row col, row < H -> col < W ->
       flip_rows W H b !! (row * W + col) = b !! ((H - 1 - row) * W + col).
Proof.
  intros Hlen. unfold flip_rows.
  pose proof (Nat.div_mod_eq H 2) as Hd.
  pose proof (Nat.mod_upper_bound H 2 ltac:(lia)) as Hmod.
  destruct (flip_rounds W H (H / 2) b) as [Hl Hk]; [lia | exact Hlen |].
  split; [exact Hl|].
  intros row col Hr Hc. rewrite Hk by assumption.
  unfold source_row. destruct (decide _); [reflexivity|].
  f_equal. f_equal. f_equal. lia.
Qed.


(** The image handed to the PNG writer is the image read back with its
    rows in reverse order -- row [row] of the output is row
    [height - 1 - row] of what [glReadPixels] delivered, column by column --
    and every pixel has [0xff000000] or-ed in.  The buffer keeps its
    length.  An odd height leaves the middle row in place. *)
Theorem finish_screenshot_flips width height pixels :
  length pixels = Z.to_nat width * Z.to_nat height ->
  length (finish_screenshot width height pixels) = length pixels
  /\ forall row col, row < Z.to_nat height -> col < Z.to_nat width ->
       finish_screenshot width height pixels !! (row * Z.to_nat width + col)
       = (fun px => Z.lor px 0xff000000)
           <$> pixels !! ((Z.to_nat height - 1 - row) * Z.to_nat width + col).
Proof.
  intros Hlen. unfold finish_screenshot, set_alpha.
  destruct (flip_rows_spec _ _ pixels Hlen) as [Hl Hk].
  split; [rewrite length_map; exact Hl|].
  intros row col Hr Hc. rewrite list_lookup_fmap, Hk by assumption.
  reflexivity.
Qed.

Lemma finish_screenshot_flips_witness :
  length sample_pixels = Z.to_nat 2 * Z.to_nat 3
  /\ finish_screenshot 2 3 sample_pixels
     = [0xff000005; 0xff000006; 0xff000003; 0xff000004; 0xff000001;
        0xff000002]%Z
  /\ finish_screenshot 2 3 sample_pixels !! (0 * Z.to_nat 2 + 1)
     = (fun px => Z.lor px 0xff000000)
         <$> sample_pixels !! ((Z.to_nat 3 - 1 - 0) * Z.to_nat 2 + 1).
Proof.
  split; [reflexivity|]. split; [reflexivity|].
  destruct (finish_screenshot_flips 2 3 sample_pixels eq_refl) as [_ H].
  apply H; simpl; lia.
Defined.

Local Open Scope Z_scope.

Lemma small_bits_high x n m :
  0 <= x < 2 ^ n -> 0 <= n <= m -> Z.testbit x m = false.
Proof.
  intros Hx Hn. rewrite <- (Z.mod_small x (2 ^ n)) by exact Hx.
  apply Z.mod_pow2_bits_high. lia.
Qed.

Lemma alpha_mask_bits n :
  0 <= n -> Z.testbit 0xff000000 n = (24 <=? n) && (n <? 32).
Proof.
  intros Hn. change 0xff000000 with (Z.shiftl (Z.ones 8) 24).
  rewrite Z.shiftl_spec by exact Hn.
  destruct (Z.leb_spec 24 n) as [H|H]; simpl.
  - destruct (Z.ltb_spec n 32) as [H'|H'].
    + apply Z.ones_spec_low. lia.
    + apply Z.ones_spec_high. lia.
  - apply Z.testbit_neg_r. lia.
Qed.

(** Forcing the alpha: a 32-bit pixel stays a 32-bit pixel, its top byte
    becomes [0xff] and its three colour bytes are the ones read back. *)
Theorem set_alpha_keeps_colour buffer i px :
  buffer !! i = Some px ->
  0 <= px < 2 ^ 32 ->
  exists q,
    set_alpha buffer !! i = Some q
    /\ 0 <= q < 2 ^ 32
    /\ Z.shiftr q 24 = 255
    /\ Z.land q 0xffffff = Z.land px 0xffffff.
Proof.
  intros Hb Hpx. exists (Z.lor px 0xff000000).
  split; [unfold set_alpha; rewrite list_lookup_fmap, Hb; reflexivity|].
  assert (Hbits : forall n, 0 <= n ->
            Z.testbit (Z.lor px 0xff000000) n
            = Z.testbit px n || ((24 <=? n) && (n <? 32))).
  { intros n Hn. rewrite Z.lor_spec, alpha_mask_bits by exact Hn.
    reflexivity. }
  split; [|split].
  - assert (H0 : 0 <= Z.lor px 0xff000000) by (apply Z.lor_nonneg; lia).
    split; [exact H0|].
    destruct (Z.eq_dec (Z.lor px 0xff000000) 0) as [E|E]; [lia|].
    apply Z.log2_lt_pow2; [lia|].
    destruct (Z.lt_ge_cases (Z.log2 (Z.lor px 0xff000000)) 32) as [L|G];
      [exact L|].
    exfalso.
    pose proof (Z.bit_log2 (Z.lor px 0xff000000) ltac:(lia)) as Hb1.
    rewrite Hbits in Hb1 by lia.
    rewrite (small_bits_high px 32) in Hb1 by lia.
    replace (Z.log2 (Z.lor px 0xff000000) <? 32) with false in Hb1
      by (symmetry; apply Z.ltb_ge; lia).
    rewrite andb_false_r in Hb1. discriminate.
  - apply Z.bits_inj'. intros n Hn.
    rewrite Z.shiftr_spec, Hbits by lia.
    change 255 with (Z.ones 8).
    destruct (Z.ltb_spec n 8) as [L|G].
    + rewrite Z.ones_spec_low by lia.
      replace (24 <=? n + 24) with true by (symmetry; apply Z.leb_le; lia).
      replace (n + 24 <? 32) with true by (symmetry; apply Z.ltb_lt; lia).
      apply orb_true_r.
    + rewrite Z.ones_spec_high by lia.
      rewrite (small_bits_high px 32) by lia.
      replace (n + 24 <? 32) with false by (symmetry; apply Z.ltb_ge; lia).
      rewrite andb_false_r. reflexivity.
  - apply Z.bits_inj'. intros n Hn.
    rewrite !Z.land_spec, Hbits by lia.
    change 0xffffff with (Z.ones 24).
    destruct (Z.ltb_spec n 24) as [L|G].
    + replace (24 <=? n) with false by (symmetry; apply Z.leb_gt; lia).
      rewrite orb_false_r. reflexivity.
    + rewrite Z.ones_spec_high by lia. rewrite !andb_false_r. reflexivity.
Qed.

Lemma set_alpha_keeps_colour_witness :
  sample_pixels !! 4%nat = Some 0x7f000005
  /\ exists q,
       set_alpha sample_pixels !! 4%nat = Some q
       /\ 0 <= q < 2 ^ 32
       /\ Z.shiftr q 24 = 255
       /\ Z.land q 0xffffff = Z.land 0x7f000005 0xffffff.
Proof.
  split; [reflexivity|].
  apply (set_alpha_keeps_colour sample_pixels 4 0x7f000005 eq_refl).
  lia.
Defined.


Section Driver.

Variable framebuffer_complete : Z -> Z -> Z -> bool -> bool.

#[local] Abbreviation setup_frame := (setup_frame framebuffer_complete).
#[local] Abbreviation reachable := (reachable framebuffer_complete).

Lemma setup_frame_coherent settings st st' :
  targets_coherent st -> setup_frame settings st = Done st' ->
  targets_coherent st'.
Proof.
  intros Hc. unfold Renderer.setup_frame.
  destruct (re_resolves settings st) eqn:Hr.
  - destruct (matches (window (refresh_window settings (m_fbo_state st)))
                      (game_res_w settings) (game_res_h settings)
                      (msaa_samples settings)) eqn:Hm; intros H.
    + pose proof (RendererFacts.resolve_targets_window framebuffer_complete
                    settings _ (gl st) Hm) as P.
      rewrite H in P. simpl in P. destruct P as (P1 & _ & P2 & P3 & _).
      unfold targets_coherent. cbv zeta. rewrite P1. auto.
    + pose proof (RendererFacts.resolve_targets_offscreen framebuffer_complete
                    _ _ _ _ Hm H)
        as (P1 & P2 & (Rv & _ & Rw & Rh & Rm & Rms & _) & Hcase).
      unfold targets_coherent. cbv zeta. rewrite P1.
      split; [exact Rv|]. split; [rewrite Rms, Rm; reflexivity|].
      destruct Hcase as [(_ & (Sv & _ & Sw & Sh & _ & Sms & _) & _)
                        | (He & Sv & _)].
      * rewrite Sv. repeat split; congruence.
      * rewrite Sv. rewrite Rm, <- He. reflexivity.
  - intros H. apply RendererFacts.check_viewport_done in H as (-> & _).
    exact Hc.
Qed.

Lemma reachable_coherent st : reachable st -> targets_coherent st.
Proof.
  induction 1 as [st Hn | settings st st' _ IH Hs].
  - unfold targets_coherent. cbv zeta. rewrite Hn. exact I.
  - exact (setup_frame_coherent _ _ _ IH Hs).
Qed.

(** After a frame that completes, the render target fits the options. *)
Lemma setup_frame_done_matches settings st st' :
  setup_frame settings st = Done st' ->
  exists r,
    render_fbo (m_fbo_state st') = Some r
    /\ matches (deref (m_fbo_state st') r) (game_res_w settings)
               (game_res_h settings) (msaa_samples settings) = true
    /\ multisampled (window (m_fbo_state st')) = false.
Proof.
  unfold Renderer.setup_frame.
  destruct (re_resolves settings st) eqn:Hr; intros H.
  - destruct (matches (window (refresh_window settings (m_fbo_state st)))
                      (game_res_w settings) (game_res_h settings)
                      (msaa_samples settings)) eqn:Hm.
    + pose proof (RendererFacts.resolve_targets_window framebuffer_complete
                    settings _ (gl st) Hm) as P.
      rewrite H in P. simpl in P. destruct P as (P1 & P2 & _).
      exists RefWindow. split; [exact P1|]. simpl. rewrite P2.
      split; [exact Hm | reflexivity].
    + pose proof (RendererFacts.resolve_targets_offscreen framebuffer_complete
                    _ _ _ _ Hm H)
        as (P1 & P2 & (Rv & _ & Rw & Rh & Rm & _) & _).
      exists RefRenderBuffer. split; [exact P1|]. simpl. rewrite P2.
      split; [apply (RendererFacts.matches_true framebuffer_complete); auto | reflexivity].
  - apply RendererFacts.check_viewport_done in H as (-> & _).
    unfold re_resolves in Hr. simpl.
    destruct (render_fbo (m_fbo_state st)) as [r|]; [|discriminate].
    apply orb_false_iff in Hr as [_ Hb]. apply negb_false_iff in Hb.
    exists r. split; [reflexivity|]. split; [|reflexivity].
    destruct r; exact Hb.
Qed.

(** "Can't screenshot from a multisampled buffer directly": after every
    frame that completes, the buffer [render] reads the screenshot from
    exists, is valid and single-sampled, and has exactly the requested game
    resolution -- it is the resolve buffer when multisampling is on, the
    render target (render buffer or window surface) otherwise. *)
Theorem screenshot_src_single_sampled settings st st' :
  reachable st ->
  setup_frame settings st = Done st' ->
  exists src,
    screenshot_src (m_fbo_state st') = Some src
    /\ valid src = true
    /\ multisampled src = false
    /\ width src = game_res_w settings
    /\ height src = game_res_h settings.
Proof.
  intros Hreach Hd.
  assert (Hc : targets_coherent st').
  { apply (setup_frame_coherent settings st st'); [|exact Hd].
    apply reachable_coherent. exact Hreach. }
  destruct (setup_frame_done_matches settings st st' Hd)
    as (r & Hr & Hm & Hwin).
  apply (RendererFacts.matches_true framebuffer_complete) in Hm as (Mv & Mw & Mh & Mm).
  unfold targets_coherent in Hc. cbv zeta in Hc. rewrite Hr in Hc.
  unfold screenshot_src. rewrite Hr.
  destruct r; simpl in *.
  - destruct Hc as [_ Hs]. rewrite Hs. eexists. split; [reflexivity|].
    repeat split; assumption.
  - destruct Hc as (Hv & Hms & Hres).
    destruct (valid (resolve_buffer (m_fbo_state st'))) eqn:Hs.
    + destruct Hres as (A & B & C). eexists. split; [reflexivity|].
      repeat split; congruence.
    + eexists. split; [reflexivity|]. rewrite Hms, Hres.
      repeat split; assumption.
Qed.




(** A change of the window framebuffer size sets up the offscreen targets
    anew even when the game resolution and the sample count are the ones of
    the previous frame: unless the resized window itself now fits, a new
    render buffer (three GL names) and, with multisampling, a new resolve
    buffer (two more) are generated. *)
Theorem window_resize_recreates_targets s1 s2 st st1 st2 :
  setup_frame s1 st = Done st1 ->
  setup_frame s2 st1 = Done st2 ->
  game_res_w s2 = game_res_w s1 ->
  game_res_h s2 = game_res_h s1 ->
  msaa_samples s2 = msaa_samples s1 ->
  (window_framebuffer_width s2 <> window_framebuffer_width s1
   \/ window_framebuffer_height s2 <> window_framebuffer_height s1) ->
  matches (refreshed_window s2 (window (m_fbo_state st1)))
          (game_res_w s2) (game_res_h s2) (msaa_samples s2) = false ->
  render_fbo (m_fbo_state st2) = Some RefRenderBuffer
  /\ is_render_buffer s2 (render_buffer (m_fbo_state st2))
  /\ names_generated (gl st2)
     = names_generated (gl st1) + (if msaa_samples s2 =? 1 then 3 else 5).
Proof.
  intros H1 H2 Ew Eh Em Hsize Hnm.
  assert (Hwin : width (window (m_fbo_state st1)) = window_framebuffer_width s1
                 /\ height (window (m_fbo_state st1))
                    = window_framebuffer_height s1).
  { unfold Renderer.setup_frame in H1.
    destruct (re_resolves s1 st).
    - destruct (matches (window (refresh_window s1 (m_fbo_state st)))
                        (game_res_w s1) (game_res_h s1) (msaa_samples s1))
        eqn:Hm.
      + pose proof (RendererFacts.resolve_targets_window framebuffer_complete
                      s1 _ (gl st) Hm) as P.
        rewrite H1 in P. simpl in P. destruct P as (_ & P2 & _).
        rewrite P2. split; reflexivity.
      + pose proof (RendererFacts.resolve_targets_offscreen
                      framebuffer_complete _ _ _ _ Hm H1) as (_ & P2 & _).
        rewrite P2. split; reflexivity.
    - apply RendererFacts.check_viewport_done in H1 as (-> & _).
      split; reflexivity. }
  destruct Hwin as [Ww Wh].
  assert (Hr : re_resolves s2 st1 = true).
  { unfold re_resolves.
    destruct (render_fbo (m_fbo_state st1)); [|reflexivity].
    apply orb_true_iff. left. unfold window_resized. rewrite Ww, Wh.
    apply orb_true_iff.
    destruct Hsize as [N|N]; [left|right];
      apply negb_true_iff, Z.eqb_neq; congruence. }
  unfold Renderer.setup_frame in H2. rewrite Hr in H2.
  pose proof (RendererFacts.resolve_targets_offscreen framebuffer_complete
                s2 (refresh_window s2 (m_fbo_state st1)) (gl st1) st2 Hnm H2)
    as (P1 & _ & R & Hcase).
  split; [exact P1|]. split; [exact R|].
  simpl in Hcase.
  destruct Hcase as [(Hne & _ & Hn) | (He & _ & Hn)]; rewrite Hn.
  - replace (msaa_samples s2 =? 1) with false
      by (symmetry; apply Z.eqb_neq; congruence).
    reflexivity.
  - rewrite <- He. reflexivity.
Qed.

End Driver.



Lemma window_resize_recreates_targets_witness :
  Renderer.setup_frame Samples.complete_driver Samples.msaa_options
                       Samples.fresh_renderer = Done Samples.msaa_renderer
  /\ exists st2,
       Renderer.setup_frame Samples.complete_driver
         (mkOptions 640 480 1920 1080 640 480 4) Samples.msaa_renderer
       = Done st2
       /\ names_generated (gl st2)
          = names_generated (gl Samples.msaa_renderer) + 5.
Proof.
  assert (H1 : Renderer.setup_frame Samples.complete_driver
                 Samples.msaa_options Samples.fresh_renderer
               = Done Samples.msaa_renderer) by (vm_compute; reflexivity).
  split; [exact H1|].
  set (st2 := state_of (Renderer.setup_frame Samples.complete_driver
                          (mkOptions 640 480 1920 1080 640 480 4)
                          Samples.msaa_renderer)).
  assert (H2 : Renderer.setup_frame Samples.complete_driver
                 (mkOptions 640 480 1920 1080 640 480 4) Samples.msaa_renderer
               = Done st2) by (vm_compute; reflexivity).
  exists st2. split; [exact H2|].
  destruct (window_resize_recreates_targets Samples.complete_driver
              Samples.msaa_options (mkOptions 640 480 1920 1080 640 480 4)
              Samples.fresh_renderer Samples.msaa_renderer st2 H1 H2
              eq_refl eq_refl eq_refl)
    as (_ & _ & H); [left; discriminate | reflexivity | exact H].
Defined.

Lemma screenshot_src_single_sampled_witness :
  exists src,
    screenshot_src (m_fbo_state Samples.msaa_renderer) = Some src
    /\ valid src = true
    /\ multisampled src = false
    /\ width src = 640
    /\ height src = 480.
Proof.
  apply (screenshot_src_single_sampled Samples.complete_driver
           Samples.msaa_options Samples.fresh_renderer Samples.msaa_renderer).
  - apply reach_init. reflexivity.
  - vm_compute. reflexivity.
Defined.


Lemma endsWith_true str suffix :
  endsWith str suffix = true <-> exists prefix, str = prefix ++ suffix.
Proof.
  unfold endsWith. rewrite andb_true_iff, bool_decide_eq_true, Nat.leb_le.
  split.
  - intros [Hlen Heq].
    exists (take (length str - length suffix) str).
    rewrite <- (take_drop (length str - length suffix) str) at 1.
    f_equal. rewrite <- Heq at 2. symmetry. apply take_ge.
    rewrite length_drop. lia.
  - intros [prefix ->]. rewrite length_app. split; [lia|].
    replace (length prefix + length suffix - length suffix)%nat
      with (length prefix) by lia.
    rewrite drop_app_length. apply take_ge. lia.
Qed.

(** [endsWith] decides the suffix relation: it answers true exactly when
    the string is some prefix followed by the suffix; in particular a string
    shorter than the suffix never ends with it and every string ends with
    the empty suffix. *)
Theorem endsWith_suffix str suffix :
  (endsWith str suffix = true <-> exists prefix, str = prefix ++ suffix)
  /\ ((length str < length suffix)%nat -> endsWith str suffix = false)
  /\ endsWith str [] = true
  /\ endsWith (str ++ suffix) suffix = true.
Proof.
  split; [apply endsWith_true|]. split; [|split].
  - intros Hlt. apply not_true_iff_false. rewrite endsWith_true.
    intros [prefix ->]. rewrite length_app in Hlt. lia.
  - apply endsWith_true. exists str. rewrite app_nil_r. reflexivity.
  - apply endsWith_true. eauto.
Qed.

(** The screenshot file always gets a [.png] name: a name that ends in
    [.png] is kept as it is, any other gets [.png] appended, and doing it
    again changes nothing. *)
Theorem screenshot_file_name_png temp_path :
  endsWith (screenshot_file_name temp_path) png_extension = true
  /\ (endsWith temp_path png_extension = true ->
      screenshot_file_name temp_path = temp_path)
  /\ (endsWith temp_path png_extension = false ->
      screenshot_file_name temp_path = temp_path ++ png_extension)
  /\ screenshot_file_name (screenshot_file_name temp_path)
     = screenshot_file_name temp_path.
Proof.
  assert (H : endsWith (screenshot_file_name temp_path) png_extension = true).
  { unfold screenshot_file_name.
    destruct (endsWith temp_path png_extension) eqn:E; simpl; [exact E|].
    apply endsWith_true. eauto. }
  split; [exact H|]. split; [|split].
  - intros E. unfold screenshot_file_name. rewrite E. reflexivity.
  - intros E. unfold screenshot_file_name. rewrite E. reflexivity.
  - unfold screenshot_file_name at 1. rewrite H. reflexivity.
Qed.

End ScreenshotFacts.

(* ===================================================================== *)
(** ** Properties of keys, pads and input mode                            *)
(* ===================================================================== *)

Module PeripheralsFacts.
Import Peripherals.

Lemma load_in_range {A} (l : list A) i :
  0 <= i < Z.of_nat (length l) ->
  exists v, load l i = Ok v /\ l !! Z.to_nat i = Some v.
Proof.
  intros H. unfold load.
  replace ((0 <=? i) && (i <? Z.of_nat (length l))) with true
    by (symmetry; apply andb_true_iff; split;
        [apply Z.leb_le | apply Z.ltb_lt]; lia).
  destruct (lookup_lt_is_Some_2 l (Z.to_nat i)) as [v Hv]; [lia|].
  rewrite Hv. eauto.
Qed.

Lemma load_out_of_range {A} (l : list A) i :
  i < 0 \/ Z.of_nat (length l) <= i -> load l i = Fault OutOfBounds.
Proof.
  intros H. unfold load.
  replace ((0 <=? i) && (i <? Z.of_nat (length l))) with false; [reflexivity|].
  symmetry. apply andb_false_iff.
  destruct H; [left; apply Z.leb_gt | right; apply Z.ltb_ge]; lia.
Qed.

Lemma store_in_range {A} (l : list A) i v :
  0 <= i < Z.of_nat (length l) -> store l i v = Ok (<[Z.to_nat i := v]> l).
Proof.
  intros H. unfold store.
  replace ((0 <=? i) && (i <? Z.of_nat (length l))) with true; [reflexivity|].
  symmetry; apply andb_true_iff; split; [apply Z.leb_le | apply Z.ltb_lt]; lia.
Qed.

Lemma store_out_of_range {A} (l : list A) i v :
  i < 0 \/ Z.of_nat (length l) <= i -> store l i v = Fault OutOfBounds.
Proof.
  intros H. unfold store.
  replace ((0 <=? i) && (i <? Z.of_nat (length l))) with false; [reflexivity|].
  symmetry. apply andb_false_iff.
  destruct H; [left; apply Z.leb_gt | right; apply Z.ltb_ge]; lia.
Qed.

Lemma fold_left_seqZ {A} (f : A -> Z -> A) n a :
  fold_left f (seqZ 0 n) a
  = fold_left (fun acc i => f acc (Z.of_nat i)) (seq 0 (Z.to_nat n)) a.
Proof.
  unfold seqZ. generalize (seq 0 (Z.to_nat n)). intros l. revert a.
  induction l as [|i l IH]; intros a; simpl; [reflexivity|].
  rewrite IH. f_equal. f_equal. lia.
Qed.

(** [ClearKeys] after [n] rounds of its loop. *)
Lemma ClearKeys_rounds (n : nat) : forall st,
  (n <= length (g_key_status st))%nat ->
  (n <= length (g_buffered_key_status st))%nat ->
  fold_left
    (fun acc i =>
       do s <- acc;
       do v <- load (g_key_status s) (Z.of_nat i);
       do bs <- store (g_buffered_key_status s) (Z.of_nat i) v;
       Ok (with_keys (g_key_status s) bs s))
    (seq 0 n) (Ok st)
  = Ok (with_keys (g_key_status st)
                  (take n (g_key_status st)
                   ++ drop n (g_buffered_key_status st)) st).
Proof.
  induction n as [|n IH]; intros st Hk Hb.
  - simpl. rewrite drop_0. destruct st; reflexivity.
  - rewrite seq_S, fold_left_app, IH by lia. simpl.
    destruct (lookup_lt_is_Some_2 (g_key_status st) n) as [v Hv]; [lia|].
    destruct (lookup_lt_is_Some_2 (g_buffered_key_status st) n) as [b Hbn];
      [lia|].
    unfold load. simpl.
    replace ((0 <=? Z.of_nat n)
             && (Z.of_nat n <? Z.of_nat (length (g_key_status st))))
      with true
      by (symmetry; apply andb_true_iff; split;
          [apply Z.leb_le | apply Z.ltb_lt]; lia).
    rewrite Nat2Z.id, Hv. simpl.
    rewrite store_in_range
      by (rewrite length_app, length_take, length_drop; simpl; lia).
    simpl. rewrite Nat2Z.id. unfold with_keys. simpl. f_equal. f_equal.
    rewrite insert_app_r_alt by (rewrite length_take; lia).
    rewrite length_take.
    replace (n - n `min` length (g_key_status st))%nat with 0%nat by lia.
    rewrite (drop_S _ b n Hbn). simpl.
    rewrite (take_S_r _ n v Hv), <- app_assoc. reflexivity.
Qed.

Lemma ClearKeys_copies K st :
  well_formed K st ->
  ClearKeys K st = Ok (with_keys (g_key_status st) (g_key_status st) st).
Proof.
  intros (Hk & Hb & _). unfold ClearKeys.
  rewrite fold_left_seqZ, ClearKeys_rounds by lia.
  rewrite <- Hk. rewrite firstn_all.
  rewrite drop_ge by lia. rewrite app_nil_r. reflexivity.
Qed.

(** [ClearKey] and its bounds: a key below 0 or above [NUM_KEYS] is turned
    away with a warning and nothing is cleared; a key of the array is
    cleared in both arrays and no other key is touched; the key
    [NUM_KEYS] itself is let through and is written one past the end. *)
Theorem ClearKey_bounds K key st :
  well_formed K st ->
  0 <= NUM_KEYS K ->
  (key < 0 \/ NUM_KEYS K < key ->
   ClearKey K key st
   = Ok (with_log (log st ++ [(Channel.LgWarn, clear_key_warning)]) st))
  /\ (0 <= key < NUM_KEYS K ->
      ClearKey K key st
      = Ok (with_keys (<[Z.to_nat key := false]> (g_key_status st))
                      (<[Z.to_nat key := false]> (g_buffered_key_status st))
                      st))
  /\ (key = NUM_KEYS K -> ClearKey K key st = Fault OutOfBounds).
Proof.
  intros (Hk & Hb & _) Hn. unfold ClearKey. repeat split.
  - intros Hout.
    replace ((key <? 0) || (key >? NUM_KEYS K)) with true; [reflexivity|].
    symmetry. apply orb_true_iff. rewrite Z.gtb_ltb.
    destruct Hout; [left | right]; apply Z.ltb_lt; lia.
  - intros Hin.
    replace ((key <? 0) || (key >? NUM_KEYS K)) with false
      by (symmetry; apply orb_false_iff; rewrite Z.gtb_ltb; split;
          apply Z.ltb_ge; lia).
    rewrite !store_in_range by lia. reflexivity.
  - intros ->.
    replace ((NUM_KEYS K <? 0) || (NUM_KEYS K >? NUM_KEYS K)) with false
      by (symmetry; apply orb_false_iff; rewrite Z.gtb_ltb; split;
          apply Z.ltb_ge; lia).
    rewrite store_out_of_range by lia. reflexivity.
Qed.

Lemma initial_state_well_formed : well_formed glfw3 initial_state.
Proof.
  unfold well_formed, mapping_well_formed. simpl.
  repeat split; try reflexivity; repeat constructor.
Qed.

Lemma ClearKey_bounds_witness :
  0 <= NUM_KEYS glfw3
  /\ ClearKey glfw3 356 initial_state = Fault OutOfBounds
  /\ ClearKey glfw3 357 initial_state
     = Ok (with_log [(Channel.LgWarn, clear_key_warning)] initial_state).
Proof.
  assert (H : 0 <= NUM_KEYS glfw3) by (vm_compute; discriminate).
  split; [exact H|].
  destruct (ClearKey_bounds glfw3 356 initial_state initial_state_well_formed H)
    as (_ & _ & A).
  destruct (ClearKey_bounds glfw3 357 initial_state initial_state_well_formed H)
    as (B & _ & _).
  split; [apply A; reflexivity | apply B; right; vm_compute; reflexivity].
Defined.

(** A key press outside input mode: the keys of the array are recorded in
    both arrays; a key at or above [NUM_KEYS] stops at the assertion; a
    negative key (GLFW reports unknown keys as -1) passes the assertion and
    is written before the start of the array. *)
Theorem OnKeyPress_bounds K key st :
  well_formed K st ->
  input_mode st <> Enabled ->
  (0 <= key < NUM_KEYS K ->
   OnKeyPress K false key st
   = Ok (with_keys (<[Z.to_nat key := true]> (g_key_status st))
                   (<[Z.to_nat key := true]> (g_buffered_key_status st)) st))
  /\ (NUM_KEYS K <= key -> OnKeyPress K false key st = Fault AssertionFailed)
  /\ (key < 0 -> key < NUM_KEYS K ->
      OnKeyPress K false key st = Fault OutOfBounds).
Proof.
  intros (Hk & Hb & _) Hmode. unfold OnKeyPress.
  replace (is_enabled (input_mode st)) with false
    by (revert Hmode; destruct (input_mode st); intros; simpl; congruence).
  repeat split.
  - intros Hin.
    replace (key <? NUM_KEYS K) with true by (symmetry; apply Z.ltb_lt; lia).
    rewrite !store_in_range by lia. reflexivity.
  - intros Hout.
    replace (key <? NUM_KEYS K) with false by (symmetry; apply Z.ltb_ge; lia).
    reflexivity.
  - intros Hneg Hlt.
    replace (key <? NUM_KEYS K) with true by (symmetry; apply Z.ltb_lt; lia).
    rewrite store_out_of_range by lia. reflexivity.
Qed.

Lemma OnKeyPress_bounds_witness :
  input_mode initial_state <> Enabled
  /\ OnKeyPress glfw3 false 400 initial_state = Fault AssertionFailed
  /\ OnKeyPress glfw3 false (-1) initial_state = Fault OutOfBounds.
Proof.
  assert (H : input_mode initial_state <> Enabled) by discriminate.
  split; [exact H|].
  destruct (OnKeyPress_bounds glfw3 400 initial_state
              initial_state_well_formed H) as (_ & A & _).
  destruct (OnKeyPress_bounds glfw3 (-1) initial_state
              initial_state_well_formed H) as (_ & _ & B).
  split; [apply A; vm_compute; discriminate | apply B; reflexivity].
Defined.

Lemma OnKeyPress_ok K key st :
  well_formed K st ->
  input_mode st <> Enabled ->
  0 <= key < NUM_KEYS K ->
  exists s1,
    OnKeyPress K false key st = Ok s1
    /\ g_key_status s1 = <[Z.to_nat key := true]> (g_key_status st)
    /\ g_buffered_key_status s1
       = <[Z.to_nat key := true]> (g_buffered_key_status st)
    /\ g_gamepad_buttons s1 = g_gamepad_buttons st
    /\ gamepad_idx s1 = gamepad_idx st
    /\ g_input_mode_mapping s1 = g_input_mode_mapping st
    /\ input_mode s1 = input_mode st.
Proof.
  intros (Hk & Hb & _) Hmode Hin. unfold OnKeyPress.
  replace (is_enabled (input_mode st)) with false
    by (revert Hmode; destruct (input_mode st); intros; simpl; congruence).
  replace (key <? NUM_KEYS K) with true by (symmetry; apply Z.ltb_lt; lia).
  rewrite !store_in_range by lia. eexists. split; [reflexivity|].
  cbn. auto 10.
Qed.

Lemma OnKeyRelease_in_range K key st :
  well_formed K st ->
  input_mode st <> Enabled ->
  0 <= key < NUM_KEYS K ->
  OnKeyRelease K key st
  = Ok (with_keys (<[Z.to_nat key := false]> (g_key_status st))
                  (g_buffered_key_status st) st).
Proof.
  intros (Hk & _) Hmode Hin. unfold OnKeyRelease.
  replace (is_enabled (input_mode st)) with false
    by (revert Hmode; destruct (input_mode st); intros; simpl; congruence).
  replace (key <? NUM_KEYS K) with true by (symmetry; apply Z.ltb_lt; lia).
  rewrite store_in_range by lia. reflexivity.
Qed.

Lemma CheckPadIdx_valid pad st :
  0 <= pad < CONTROLLER_COUNT -> CheckPadIdx pad st = (pad, st).
Proof.
  intros H. unfold CheckPadIdx.
  replace ((pad <? 0) || (pad >=? CONTROLLER_COUNT)) with false; [reflexivity|].
  symmetry. apply orb_false_iff. rewrite Z.geb_leb.
  split; [apply Z.ltb_ge | apply Z.leb_gt]; lia.
Qed.

Lemma IsPressed_keyboard K mapping button pad key st :
  0 <= pad < CONTROLLER_COUNT ->
  0 <= key < NUM_KEYS K ->
  load2 (g_gamepad_buttons st) pad button = Ok false ->
  load2 (KeyboardButtonMapping mapping) pad button = Ok key ->
  IsPressed K mapping button pad st
  = do v <- load (if IsBufferedInputEnabled mapping
                  then g_buffered_key_status st else g_key_status st) key;
    Ok (if (v : bool) then 1 else 0, st).
Proof.
  intros Hp Hk Hg Hm. unfold IsPressed.
  rewrite (CheckPadIdx_valid pad st Hp).
  replace (pad =? -1) with false by (symmetry; apply Z.eqb_neq; lia).
  rewrite Hg. cbn [bind]. rewrite Hm. cbn [bind].
  replace (key =? -1) with false by (symmetry; apply Z.eqb_neq; lia).
  replace (key <? NUM_KEYS K) with true by (symmetry; apply Z.ltb_lt; lia).
  reflexivity.
Qed.

Lemma load_insert_eq {A} (l : list A) i v :
  0 <= i < Z.of_nat (length l) -> load (<[Z.to_nat i := v]> l) i = Ok v.
Proof.
  intros H. unfold load. rewrite length_insert.
  replace ((0 <=? i) && (i <? Z.of_nat (length l))) with true
    by (symmetry; apply andb_true_iff; split;
        [apply Z.leb_le | apply Z.ltb_lt]; lia).
  rewrite list_lookup_insert_eq by lia. reflexivity.
Qed.

(** Buffered input keeps a tap: a key pressed and released again before
    the end of the frame is reported as pressed by [IsPressed] when the
    mapping uses buffered input (and as released when it does not), up to
    the next [ClearKeys]; after [ClearKeys] it is reported as released. *)
Theorem tapped_key_stays_buffered K mapping button pad key st :
  well_formed K st ->
  input_mode st <> Enabled ->
  0 <= pad < CONTROLLER_COUNT ->
  0 <= key < NUM_KEYS K ->
  load2 (g_gamepad_buttons st) pad button = Ok false ->
  load2 (KeyboardButtonMapping mapping) pad button = Ok key ->
  exists s1 s2 s3,
    OnKeyPress K false key st = Ok s1
    /\ OnKeyRelease K key s1 = Ok s2
    /\ IsPressed K mapping button pad s2
       = Ok (if IsBufferedInputEnabled mapping then 1 else 0, s2)
    /\ ClearKeys K s2 = Ok s3
    /\ IsPressed K mapping button pad s3 = Ok (0, s3).
Proof.
  intros Hwf Hmode Hp Hk Hg Hm.
  pose proof Hwf as (Lk & Lb & Lg & Fg & Li & Wm).
  destruct (OnKeyPress_ok K key st Hwf Hmode Hk) as (s1 & H1 & K1 & B1 & R1).
  assert (Hwf1 : well_formed K s1).
  { destruct R1 as (G1 & I1 & M1 & _).
    unfold well_formed. rewrite K1, B1, !length_insert, G1, I1, M1.
    repeat (split; [assumption|]); assumption. }
  assert (Hmode1 : input_mode s1 <> Enabled)
    by (destruct R1 as (_ & _ & _ & E1); congruence).
  pose proof (OnKeyRelease_in_range K key s1 Hwf1 Hmode1 Hk) as H2.
  set (s2 := with_keys (<[Z.to_nat key := false]> (g_key_status s1))
                       (g_buffered_key_status s1) s1) in *.
  assert (Hwf2 : well_formed K s2).
  { destruct Hwf1 as (A & B & C & D & E & F).
    unfold well_formed, s2. cbn. rewrite length_insert.
    repeat (split; [assumption|]); assumption. }
  pose proof (ClearKeys_copies K s2 Hwf2) as H3.
  exists s1, s2, (with_keys (g_key_status s2) (g_key_status s2) s2).
  split; [exact H1|]. split; [exact H2|].
  assert (Hg2 : load2 (g_gamepad_buttons s2) pad button = Ok false).
  { destruct R1 as (G1 & _). unfold s2. cbn [g_gamepad_buttons with_keys].
    rewrite G1. exact Hg. }
  split; [|split; [exact H3|]].
  - rewrite (IsPressed_keyboard K mapping button pad key s2 Hp Hk);
      [ | exact Hg2 | exact Hm ].
    destruct (IsBufferedInputEnabled mapping).
    + unfold s2. cbn [g_buffered_key_status with_keys]. rewrite B1.
      rewrite load_insert_eq by lia. reflexivity.
    + unfold s2. cbn [g_key_status with_keys].
      rewrite load_insert_eq by (rewrite K1, length_insert; lia). reflexivity.
  - rewrite (IsPressed_keyboard K mapping button pad key _ Hp Hk);
      [ | exact Hg2 | exact Hm ].
    replace (if IsBufferedInputEnabled mapping
             then g_buffered_key_status
                    (with_keys (g_key_status s2) (g_key_status s2) s2)
             else g_key_status
                    (with_keys (g_key_status s2) (g_key_status s2) s2))
      with (g_key_status s2)
      by (destruct (IsBufferedInputEnabled mapping); reflexivity).
    unfold s2. cbn [g_key_status with_keys].
    rewrite load_insert_eq by (rewrite K1, length_insert; lia). reflexivity.
Qed.

Lemma tapped_key_stays_buffered_witness :
  input_mode initial_state <> Enabled
  /\ exists s1 s2 s3,
       OnKeyPress glfw3 false 32 initial_state = Ok s1
       /\ OnKeyRelease glfw3 32 s1 = Ok s2
       /\ IsPressed glfw3 space_mapping 14 0 s2 = Ok (1, s2)
       /\ ClearKeys glfw3 s2 = Ok s3
       /\ IsPressed glfw3 space_mapping 14 0 s3 = Ok (0, s3).
Proof.
  assert (H : input_mode initial_state <> Enabled) by discriminate.
  split; [exact H|].
  apply (tapped_key_stays_buffered glfw3 space_mapping 14 0 32 initial_state
           initial_state_well_formed H).
  - unfold CONTROLLER_COUNT. lia.
  - vm_compute. split; [discriminate | reflexivity].
  - reflexivity.
  - reflexivity.
Defined.

Lemma store2_in_range {A} (table : list (list A)) i j v row :
  0 <= i < Z.of_nat (length table) ->
  table !! Z.to_nat i = Some row ->
  0 <= j < Z.of_nat (length row) ->
  store2 table i j v
  = Ok (<[Z.to_nat i := <[Z.to_nat j := v]> row]> table).
Proof.
  intros Hi Hrow Hj. unfold store2.
  destruct (load_in_range table i Hi) as (r & Hl & Hr).
  rewrite Hl. cbn [bind]. assert (r = row) by congruence. subst r.
  rewrite store_in_range by lia. cbn [bind].
  rewrite store_in_range by lia. reflexivity.
Qed.

Lemma table_row (table : list (list Z)) pad :
  length table = Z.to_nat CONTROLLER_COUNT ->
  Forall (fun row => length row = Z.to_nat Button_Max) table ->
  0 <= pad < CONTROLLER_COUNT ->
  exists row, table !! Z.to_nat pad = Some row
              /\ length row = Z.to_nat Button_Max.
Proof.
  intros Hl Hf Hp.
  destruct (lookup_lt_is_Some_2 table (Z.to_nat pad)) as [row Hr]; [lia|].
  exists row. split; [exact Hr|].
  rewrite List.Forall_forall in Hf. apply Hf.
  apply list_elem_of_In. eapply list_elem_of_lookup_2. exact Hr.
Qed.

Lemma Forall_insert_row (table : list (list Z)) i row :
  Forall (fun r => length r = Z.to_nat Button_Max) table ->
  length row = Z.to_nat Button_Max ->
  Forall (fun r => length r = Z.to_nat Button_Max) (<[i := row]> table).
Proof.
  intros Hf Hr. apply Forall_insert; assumption.
Qed.

(** [MapButton] on a valid pad and button, by the pad's joystick index. *)
Lemma MapButton_valid button pad key mapping st idx :
  mapping_well_formed mapping ->
  0 <= pad < CONTROLLER_COUNT ->
  0 <= button < Button_Max ->
  load (gamepad_idx st) pad = Ok idx ->
  exists krow crow,
    KeyboardButtonMapping mapping !! Z.to_nat pad = Some krow
    /\ ControllerButtonMapping mapping !! Z.to_nat pad = Some crow
    /\ length krow = Z.to_nat Button_Max
    /\ length crow = Z.to_nat Button_Max
    /\ MapButton button pad key mapping st
       = Ok (if idx =? -1
             then mkMappingInfo (IsDebugModeEnabled mapping)
                    (IsBufferedInputEnabled mapping)
                    (ControllerButtonMapping mapping)
                    (<[Z.to_nat pad := <[Z.to_nat button := key]> krow]>
                       (KeyboardButtonMapping mapping))
             else mkMappingInfo (IsDebugModeEnabled mapping)
                    (IsBufferedInputEnabled mapping)
                    (<[Z.to_nat pad := <[Z.to_nat button := key]> crow]>
                       (ControllerButtonMapping mapping))
                    (KeyboardButtonMapping mapping), st).
Proof.
  intros (Lc & Lk & Fc & Fk) Hp Hb Hidx.
  destruct (table_row _ pad Lk Fk Hp) as (krow & Hkr & Hkl).
  destruct (table_row _ pad Lc Fc Hp) as (crow & Hcr & Hcl).
  exists krow, crow. repeat (split; [assumption|]).
  unfold MapButton. rewrite (CheckPadIdx_valid pad st Hp).
  replace (pad =? -1) with false by (symmetry; apply Z.eqb_neq; lia).
  rewrite Hidx. cbn [bind].
  destruct (idx =? -1).
  - rewrite (store2_in_range _ pad button key krow) by (auto; lia).
    reflexivity.
  - rewrite (store2_in_range _ pad button key crow) by (auto; lia).
    reflexivity.
Qed.

(** What is mapped can be read back: after [MapButton] on a valid pad and
    button, [get_mapped_button] of the same pad and button returns the key,
    the table being chosen the same way by both -- as long as the pad's
    joystick index is -1 or a joystick.  With an index below -1, which
    [SetGamepadState] accepts, [MapButton] writes the controller table while
    [get_mapped_button] reads the keyboard table, so the old keyboard entry
    comes back. *)
Theorem MapButton_get_mapped_button button pad key mapping st idx displays l :
  mapping_well_formed mapping ->
  0 <= pad < CONTROLLER_COUNT ->
  0 <= button < Button_Max ->
  load (gamepad_idx st) pad = Ok idx ->
  exists mapping' old,
    MapButton button pad key mapping st = Ok (mapping', st)
    /\ mapping_well_formed mapping'
    /\ load2 (KeyboardButtonMapping mapping) pad button = Ok old
    /\ fst (Graphics.get_mapped_button pad button
              (Graphics.mkGlobals displays (button_tables mapping')
                                  (gamepad_idx st) l))
       = Some (if idx <? -1 then old else key).
Proof.
  intros Hwf Hp Hb Hidx.
  destruct (MapButton_valid button pad key mapping st idx Hwf Hp Hb Hidx)
    as (krow & crow & Hkr & Hcr & Hkl & Hcl & HM).
  pose proof Hwf as (Lc & Lk & Fc & Fk).
  destruct (lookup_lt_is_Some_2 krow (Z.to_nat button)) as [old Hold];
    [unfold Button_Max in *; lia|].
  eexists. exists old. split; [exact HM|].
  assert (Hload : load2 (KeyboardButtonMapping mapping) pad button = Ok old).
  { unfold load2.
    destruct (load_in_range (KeyboardButtonMapping mapping) pad) as (r & Hl & Hr);
      [unfold CONTROLLER_COUNT in *; lia|].
    rewrite Hl. cbn [bind]. assert (r = krow) by congruence. subst r.
    destruct (load_in_range krow button) as (v & Hv & Hv');
      [unfold Button_Max in *; lia|].
    rewrite Hv. congruence. }
  assert (Hidx' : gamepad_idx st !! Z.to_nat pad = Some idx).
  { revert Hidx. unfold load.
    destruct ((0 <=? pad) && (pad <? Z.of_nat (length (gamepad_idx st))));
      [|discriminate].
    destruct (gamepad_idx st !! Z.to_nat pad); [|discriminate].
    intros E. injection E as ->. reflexivity. }
  unfold Graphics.get_mapped_button.
  replace ((pad <? 0) || (pad >? Graphics.CONTROLLER_COUNT) || (button <? 0)
           || (button >? 16)) with false.
  2:{ symmetry. unfold Graphics.CONTROLLER_COUNT, CONTROLLER_COUNT,
        Button_Max in *.
      rewrite !Z.gtb_ltb.
      repeat (apply orb_false_iff; split); apply Z.ltb_ge; lia. }
  unfold Graphics.GetGamepadState. cbn [Graphics.gamepad_idx fst].
  rewrite Hidx'. cbn [mbind option_bind].
  cbn [Graphics.PeripheralMappingInfo].
  destruct (Z.eqb_spec idx (-1)) as [->|Hne].
  - cbn. split.
    + unfold mapping_well_formed. cbn. rewrite length_insert.
      repeat (split; [assumption|]).
      apply Forall_insert_row; [assumption|]. rewrite length_insert. exact Hkl.
    + split; [exact Hload|].
      rewrite list_lookup_insert_eq by (unfold CONTROLLER_COUNT in *; lia).
      cbn. rewrite list_lookup_insert_eq by (unfold Button_Max in *; lia).
      reflexivity.
  - split.
    + unfold mapping_well_formed. cbn. rewrite length_insert.
      split; [assumption|]. split; [assumption|].
      split; [|assumption].
      apply Forall_insert_row; [assumption|]. rewrite length_insert. exact Hcl.
    + split; [exact Hload|].
      destruct (Z.ltb_spec idx (-1)) as [Hlt|Hge].
      * replace (idx >? -1) with false
          by (symmetry; rewrite Z.gtb_ltb; apply Z.ltb_ge; lia).
        cbn. rewrite Hkr. cbn. rewrite Hold. reflexivity.
      * replace (idx >? -1) with true
          by (symmetry; rewrite Z.gtb_ltb; apply Z.ltb_lt; lia).
        cbn.
        rewrite list_lookup_insert_eq by (unfold CONTROLLER_COUNT in *; lia).
        cbn. rewrite list_lookup_insert_eq by (unfold Button_Max in *; lia).
        reflexivity.
Qed.

Lemma MapButton_get_mapped_button_witness :
  load (gamepad_idx initial_state) 0 = Ok (-1)
  /\ exists mapping' old,
       MapButton 14 0 32 unmapped initial_state = Ok (mapping', initial_state)
       /\ mapping_well_formed mapping'
       /\ load2 (KeyboardButtonMapping unmapped) 0 14 = Ok old
       /\ fst (Graphics.get_mapped_button 0 14
                 (Graphics.mkGlobals [] (button_tables mapping')
                                     (gamepad_idx initial_state) []))
          = Some 32.
Proof.
  split; [reflexivity|].
  apply (MapButton_get_mapped_button 14 0 32 unmapped initial_state (-1) [] []).
  - unfold mapping_well_formed. simpl.
    repeat split; try reflexivity; repeat constructor.
  - unfold CONTROLLER_COUNT. lia.
  - unfold Button_Max. lia.
  - reflexivity.
Defined.

Lemma find_seqZ_Some f m n i :
  find f (seqZ m n) = Some i -> m <= i < m + n /\ f i = true.
Proof.
  intros H. apply find_some in H as [Hin Hf]. split; [|exact Hf].
  apply list_elem_of_In, elem_of_seqZ in Hin. lia.
Qed.

Lemma find_seqZ_None f m n i :
  find f (seqZ m n) = None -> m <= i < m + n -> f i = false.
Proof.
  intros H Hi. apply (find_none f _ H).
  apply list_elem_of_In, elem_of_seqZ. lia.
Qed.

Lemma check_pad_first K present is_gamepad st a b :
  gamepad_idx st = [a; b] ->
  check_pad K present is_gamepad 0 st =
  if a =? -1 then
    match find (fun i => present i && is_gamepad i)
               (seqZ (GLFW_JOYSTICK_1 K)
                     (GLFW_JOYSTICK_LAST K - GLFW_JOYSTICK_1 K + 1)) with
    | Some i =>
        Ok (true, with_log (log st ++ [(Channel.LgInfo, "Using joystick"%string)])
                    (with_gamepad_idx [i; b] st))
    | None => Ok (true, st)
    end
  else if negb (present a) then
    Ok (false,
        with_log (log st ++ [(Channel.LgInfo, "Pad has been disconnected"%string)])
                 (with_gamepad_idx [-1; b] st))
  else Ok (true, st).
Proof.
  intros E. unfold check_pad. rewrite E.
  change (load [a; b] 0) with (Ok a). cbn [bind].
  destruct (a =? -1); [|destruct (negb (present a)); reflexivity].
  change (find _ _) with
    (find (fun i => present i && is_gamepad i)
          (seqZ (GLFW_JOYSTICK_1 K)
                (GLFW_JOYSTICK_LAST K - GLFW_JOYSTICK_1 K + 1))).
  destruct (find _ _); reflexivity.
Qed.

Lemma check_pad_second K present is_gamepad st a b :
  gamepad_idx st = [a; b] ->
  check_pad K present is_gamepad 1 st =
  if b =? -1 then
    match find (fun i => negb (i =? a) && present i && is_gamepad i)
               (seqZ (GLFW_JOYSTICK_1 K)
                     (GLFW_JOYSTICK_LAST K - GLFW_JOYSTICK_1 K + 1)) with
    | Some i =>
        Ok (true, with_log (log st ++ [(Channel.LgInfo, "Using joystick"%string)])
                    (with_gamepad_idx [a; i] st))
    | None => Ok (true, st)
    end
  else if negb (present b) then
    Ok (false,
        with_log (log st ++ [(Channel.LgInfo, "Pad has been disconnected"%string)])
                 (with_gamepad_idx [a; -1] st))
  else Ok (true, st).
Proof.
  intros E. unfold check_pad. rewrite E.
  change (load [a; b] 1) with (Ok b). cbn [bind].
  destruct (b =? -1); [|destruct (negb (present b)); reflexivity].
  change (load [a; b] 0) with (Ok a). cbn [bind].
  change (find _ _) with
    (find (fun i => negb (i =? a) && present i && is_gamepad i)
          (seqZ (GLFW_JOYSTICK_1 K)
                (GLFW_JOYSTICK_LAST K - GLFW_JOYSTICK_1 K + 1))).
  destruct (find _ _); reflexivity.
Qed.

(** [check_gamepads] keeps the pads apart.  Starting with the two pads on
    different joysticks (or both without one), it ends the same way: pad 1
    is never connected while pad 0 is not, the two never share a joystick,
    and every pad that is connected afterwards sits on a joystick GLFW
    reports as present.  Keys, buttons and mappings are not touched. *)
Theorem check_gamepads_keeps_pads_apart K present is_gamepad st :
  0 <= GLFW_JOYSTICK_1 K ->
  pads_distinct st ->
  exists st' idx0 idx1,
    check_gamepads K present is_gamepad st = Ok st'
    /\ gamepad_idx st' = [idx0; idx1]
    /\ pads_distinct st'
    /\ (idx0 <> -1 -> present idx0 = true)
    /\ (idx1 <> -1 -> present idx1 = true)
    /\ g_key_status st' = g_key_status st
    /\ g_buffered_key_status st' = g_buffered_key_status st
    /\ g_input_mode_mapping st' = g_input_mode_mapping st.
Proof.
  intros HJ (a & b & Hidx & Ha & Hab).
  assert (Hdist : forall st' x y,
            gamepad_idx st' = [x; y] -> (x = -1 -> y = -1) ->
            (x <> -1 -> x <> y) -> pads_distinct st').
  { intros st' x y E1 E2 E3. exists x, y. auto. }
  unfold check_gamepads.
  rewrite (check_pad_first K present is_gamepad st a b Hidx).
  destruct (Z.eqb_spec a (-1)) as [->|Hane].
  - (* pad 0 has no joystick, hence pad 1 has none *)
    rewrite (Ha eq_refl) in *.
    destruct (find _ _) as [i|] eqn:F0; cbn [bind].
    + apply find_seqZ_Some in F0 as [Hi Hfi].
      apply andb_true_iff in Hfi as [Hfi Hgi].
      rewrite (check_pad_second K present is_gamepad
                 (with_log _ (with_gamepad_idx [i; -1] st)) i (-1) eq_refl).
      cbn [Z.eqb Pos.eqb].
      destruct (find (fun i => negb _ && _ && _) _) as [j|] eqn:F1; cbn [bind snd].
      * apply find_seqZ_Some in F1 as [Hj Hfj].
        apply andb_true_iff in Hfj as [Hfj _].
        apply andb_true_iff in Hfj as [Hne Hpj].
        apply negb_true_iff, Z.eqb_neq in Hne.
        eexists _, i, j. split; [reflexivity|].
        split; [reflexivity|].
        split; [apply (Hdist _ i j); [reflexivity | lia | congruence]|].
        destruct st; repeat split; auto.
      * eexists _, i, (-1). split; [reflexivity|].
        split; [reflexivity|].
        split; [apply (Hdist _ i (-1)); [reflexivity | lia | lia]|].
        destruct st; repeat split; auto; congruence.
    + rewrite (check_pad_second K present is_gamepad st (-1) (-1) Hidx).
      cbn [Z.eqb Pos.eqb].
      destruct (find (fun i => negb _ && _ && _) _) as [j|] eqn:F1; cbn [bind snd].
      * exfalso. apply find_seqZ_Some in F1 as [Hj Hfj].
        apply andb_true_iff in Hfj as [Hfj Hgj].
        apply andb_true_iff in Hfj as [_ Hpj].
        pose proof (find_seqZ_None _ _ _ j F0 Hj) as Hn.
        cbn beta in Hn. rewrite Hpj, Hgj in Hn. discriminate.
      * eexists _, (-1), (-1). split; [reflexivity|].
        split; [exact Hidx|].
        split; [apply (Hdist _ (-1) (-1)); [exact Hidx | auto | congruence]|].
        repeat split; auto; congruence.
  - (* pad 0 sits on joystick a *)
    specialize (Hab Hane).
    destruct (present a) eqn:Pa; cbn [negb bind].
    + rewrite (check_pad_second K present is_gamepad st a b Hidx).
      destruct (Z.eqb_spec b (-1)) as [->|Hbne].
      * destruct (find (fun i => negb _ && _ && _) _) as [j|] eqn:F1; cbn [bind snd].
        -- apply find_seqZ_Some in F1 as [Hj Hfj].
           apply andb_true_iff in Hfj as [Hfj _].
           apply andb_true_iff in Hfj as [Hne Hpj].
           apply negb_true_iff, Z.eqb_neq in Hne.
           eexists _, a, j. split; [reflexivity|].
           split; [reflexivity|].
           split; [apply (Hdist _ a j);
                   [reflexivity | congruence | congruence]|].
           destruct st; repeat split; auto.
        -- eexists _, a, (-1). split; [reflexivity|].
           split; [exact Hidx|].
           split; [apply (Hdist _ a (-1)); [exact Hidx | congruence | auto]|].
           repeat split; auto; congruence.
      * destruct (present b) eqn:Pb; cbn [negb bind snd].
        -- eexists _, a, b. split; [reflexivity|].
           split; [exact Hidx|].
           split; [apply (Hdist _ a b); [exact Hidx | congruence | auto]|].
           repeat split; auto.
        -- eexists _, a, (-1). split; [reflexivity|].
           split; [reflexivity|].
           split; [apply (Hdist _ a (-1));
                   [reflexivity | congruence | auto]|].
           destruct st; repeat split; auto; congruence.
    + change (store (gamepad_idx _) 1 (-1)) with (Ok [-1; -1]). cbn [bind].
      eexists _, (-1), (-1). split; [reflexivity|].
      split; [reflexivity|].
      split; [apply (Hdist _ (-1) (-1));
              [reflexivity | auto | congruence]|].
      destruct st; repeat split; auto; congruence.
Qed.

Lemma check_gamepads_keeps_pads_apart_witness :
  exists st' idx0 idx1,
    check_gamepads glfw3 (Z.eqb 3) (Z.eqb 3) initial_state = Ok st'
    /\ gamepad_idx st' = [idx0; idx1]
    /\ pads_distinct st'
    /\ (idx0 <> -1 -> (3 =? idx0) = true)
    /\ (idx1 <> -1 -> (3 =? idx1) = true)
    /\ g_key_status st' = g_key_status initial_state
    /\ g_buffered_key_status st' = g_buffered_key_status initial_state
    /\ g_input_mode_mapping st' = g_input_mode_mapping initial_state.
Proof.
  apply (check_gamepads_keeps_pads_apart glfw3 (Z.eqb 3) (Z.eqb 3)
           initial_state).
  - vm_compute. discriminate.
  - exists (-1), (-1). repeat split; auto.
Defined.

Lemma ClearKey_in_range K key st :
  well_formed K st ->
  0 <= key < NUM_KEYS K ->
  ClearKey K key st
  = Ok (with_keys (<[Z.to_nat key := false]> (g_key_status st))
                  (<[Z.to_nat key := false]> (g_buffered_key_status st)) st).
Proof.
  intros (Hk & Hb & _) Hin. unfold ClearKey.
  replace ((key <? 0) || (key >? NUM_KEYS K)) with false
    by (symmetry; apply orb_false_iff; rewrite Z.gtb_ltb; split;
        apply Z.ltb_ge; lia).
  rewrite !store_in_range by lia. reflexivity.
Qed.

Lemma OnKeyPress_in_range K key st :
  well_formed K st ->
  input_mode st <> Enabled ->
  0 <= key < NUM_KEYS K ->
  OnKeyPress K false key st
  = Ok (with_keys (<[Z.to_nat key := true]> (g_key_status st))
                  (<[Z.to_nat key := true]> (g_buffered_key_status st)) st).
Proof.
  intros (Hk & Hb & _) Hmode Hin. unfold OnKeyPress.
  replace (is_enabled (input_mode st)) with false
    by (revert Hmode; destruct (input_mode st); intros; simpl; congruence).
  replace (key <? NUM_KEYS K) with true by (symmetry; apply Z.ltb_lt; lia).
  rewrite !store_in_range by lia. reflexivity.
Qed.

Lemma with_keys_well_formed K st ks bs :
  well_formed K st ->
  length ks = length (g_key_status st) ->
  length bs = length (g_buffered_key_status st) ->
  well_formed K (with_keys ks bs st).
Proof.
  intros (Hk & Hb & R) Lk Lb. destruct st.
  unfold well_formed, with_keys in *. cbn in *.
  split; [congruence|]. split; [congruence|]. exact R.
Qed.

Lemma lookup_insert_other {A} (l : list A) i k v :
  k <> i -> <[i := v]> l !! k = l !! k.
Proof.
  intros H. apply list_lookup_insert_ne. congruence.
Qed.

(** Mouse buttons live after the keyboard keys: for a button GLFW can
    report (0 .. GLFW_MOUSE_BUTTON_LAST), outside input mode,
    [on_mouse_key] always ends normally -- the slot [button +
    GLFW_KEY_LAST] is inside both key arrays, the last button using the
    last slot --, the arrays keep their sizes, and no slot other than that
    one changes, in particular no keyboard key below [GLFW_KEY_LAST]. *)
Theorem on_mouse_key_in_bounds K cursor_normal imgui_active button action st :
  well_formed K st ->
  input_mode st <> Enabled ->
  0 <= GLFW_KEY_LAST K ->
  0 <= button <= GLFW_MOUSE_BUTTON_LAST K ->
  exists st',
    on_mouse_key K cursor_normal imgui_active button action st = Ok st'
    /\ well_formed K st'
    /\ GLFW_KEY_LAST K <= button + GLFW_KEY_LAST K < NUM_KEYS K
    /\ forall k : nat,
         k <> Z.to_nat (button + GLFW_KEY_LAST K) ->
         g_key_status st' !! k = g_key_status st !! k
         /\ g_buffered_key_status st' !! k = g_buffered_key_status st !! k.
Proof.
  intros Hwf Hmode HK Hb.
  assert (Hin : 0 <= button + GLFW_KEY_LAST K < NUM_KEYS K)
    by (unfold NUM_KEYS; lia).
  assert (Hsame : exists st', Ok st = Ok st' /\ well_formed K st'
            /\ GLFW_KEY_LAST K <= button + GLFW_KEY_LAST K < NUM_KEYS K
            /\ forall k : nat,
                 k <> Z.to_nat (button + GLFW_KEY_LAST K) ->
                 g_key_status st' !! k = g_key_status st !! k
                 /\ g_buffered_key_status st' !! k
                    = g_buffered_key_status st !! k).
  { exists st. split; [reflexivity|]. split; [exact Hwf|].
    split; [lia|]. intros k _. split; reflexivity. }
  unfold on_mouse_key. cbv zeta.
  destruct ((button =? 0) && cursor_normal).
  - rewrite (ClearKey_in_range K _ st Hwf Hin). eexists. split; [reflexivity|].
    split; [apply with_keys_well_formed;
            [exact Hwf | apply length_insert | apply length_insert]|].
    split; [lia|]. intros k Hk. destruct st; cbn.
    split; apply lookup_insert_other; exact Hk.
  - destruct action.
    + destruct imgui_active; [exact Hsame|].
      rewrite (OnKeyPress_in_range K _ st Hwf Hmode Hin). eexists. split; [reflexivity|].
      split; [apply with_keys_well_formed;
              [exact Hwf | apply length_insert | apply length_insert]|].
      split; [lia|]. intros k Hk. destruct st; cbn.
      split; apply lookup_insert_other; exact Hk.
    + rewrite (OnKeyRelease_in_range K _ st Hwf Hmode Hin).
      eexists. split; [reflexivity|].
      split; [apply with_keys_well_formed;
              [exact Hwf | apply length_insert | reflexivity]|].
      split; [lia|]. intros k Hk. destruct st; cbn.
      split; [apply lookup_insert_other; exact Hk | reflexivity].
    + exact Hsame.
Qed.

Lemma on_mouse_key_in_bounds_witness :
  exists st',
    on_mouse_key glfw3 false false 7 Press initial_state = Ok st'
    /\ well_formed glfw3 st'
    /\ GLFW_KEY_LAST glfw3 <= 7 + GLFW_KEY_LAST glfw3 < NUM_KEYS glfw3
    /\ forall k : nat,
         k <> Z.to_nat (7 + GLFW_KEY_LAST glfw3) ->
         g_key_status st' !! k = g_key_status initial_state !! k
         /\ g_buffered_key_status st' !! k
            = g_buffered_key_status initial_state !! k.
Proof.
  apply (on_mouse_key_in_bounds glfw3 false false 7 Press initial_state).
  - exact initial_state_well_formed.
  - discriminate.
  - vm_compute. discriminate.
  - vm_compute. split; discriminate.
Defined.

Lemma OnKeyPress_input_mode K key st (n : nat) row :
  input_mode st = Enabled ->
  input_mode_pad st = 0 ->
  input_mode_index st = Z.of_nat n ->
  (n < 16)%nat ->
  key <> GLFW_KEY_ESCAPE K ->
  load (gamepad_idx st) 0 = Ok (-1) ->
  mapping_well_formed (g_input_mode_mapping st) ->
  KeyboardButtonMapping (g_input_mode_mapping st) !! 0%nat = Some row ->
  exists st',
    OnKeyPress K false key st = Ok st'
    /\ input_mode st' = (if (S n =? 16)%nat then Disabled else Enabled)
    /\ input_mode_pad st' = 0
    /\ input_mode_index st' = Z.of_nat (S n)
    /\ input_mode_key st' = to_u64 key
    /\ gamepad_idx st' = gamepad_idx st
    /\ mapping_well_formed (g_input_mode_mapping st')
    /\ KeyboardButtonMapping (g_input_mode_mapping st')
       = <[0%nat := <[n := key]> row]>
           (KeyboardButtonMapping (g_input_mode_mapping st))
    /\ ControllerButtonMapping (g_input_mode_mapping st')
       = ControllerButtonMapping (g_input_mode_mapping st)
    /\ g_key_status st' = g_key_status st
    /\ g_buffered_key_status st' = g_buffered_key_status st
    /\ g_gamepad_buttons st' = g_gamepad_buttons st.
Proof.
  intros Hmode Hpad Hidx Hn Hkey Hpad0 Hwf Hrow.
  assert (Hp : 0 <= 0 < CONTROLLER_COUNT) by (unfold CONTROLLER_COUNT; lia).
  assert (Hb : 0 <= Z.of_nat n < Button_Max) by (unfold Button_Max; lia).
  destruct (MapButton_valid (Z.of_nat n) 0 key (g_input_mode_mapping st) st
              (-1) Hwf Hp Hb Hpad0)
    as (krow & crow & Hkr & Hcr & Hkl & Hcl & HM).
  change (Z.to_nat 0) with 0%nat in *.
  assert (krow = row) by congruence. subst krow.
  cbn [Z.eqb Pos.eqb] in HM. rewrite Nat2Z.id in HM.
  unfold OnKeyPress. rewrite Hmode. cbn [is_enabled].
  replace (key =? GLFW_KEY_ESCAPE K) with false
    by (symmetry; apply Z.eqb_neq; exact Hkey).
  rewrite Hidx, Hpad, HM. cbn [bind].
  assert (Hu : to_u64 (Z.of_nat n + 1) = Z.of_nat (S n)).
  { unfold to_u64. rewrite Z.mod_small; [lia|].
    split; [lia|]. apply Z.lt_le_trans with 17; [lia|]. vm_compute.
    discriminate. }
  rewrite Hu. destruct Hwf as (Lc & Lk & Fc & Fk).
  assert (Hwf' : mapping_well_formed
            (mkMappingInfo (IsDebugModeEnabled (g_input_mode_mapping st))
               (IsBufferedInputEnabled (g_input_mode_mapping st))
               (ControllerButtonMapping (g_input_mode_mapping st))
               (<[0%nat := <[n := key]> row]>
                  (KeyboardButtonMapping (g_input_mode_mapping st))))).
  { unfold mapping_well_formed. cbn.
    split; [exact Lc|]. split; [rewrite length_insert; exact Lk|].
    split; [exact Fc|]. apply Forall_insert_row; [exact Fk|].
    rewrite length_insert. exact Hkl. }
  cbn [input_mode_index with_input_mode]. unfold Button_Max.
  destruct (Nat.eqb_spec (S n) 16) as [E|E].
  - replace (Z.of_nat (S n) >=? 16) with true
      by (symmetry; rewrite Z.geb_leb; apply Z.leb_le; lia).
    eexists. split; [reflexivity|].
    cbn [ExitInputMode with_input_mode input_mode input_mode_pad
         input_mode_index input_mode_key gamepad_idx g_input_mode_mapping
         g_key_status g_buffered_key_status g_gamepad_buttons
         KeyboardButtonMapping ControllerButtonMapping].
    split; [reflexivity|]. split; [exact Hpad|].
    do 3 (split; [reflexivity|]). split; [exact Hwf'|].
    repeat split; reflexivity.
  - replace (Z.of_nat (S n) >=? 16) with false
      by (symmetry; rewrite Z.geb_leb; apply Z.leb_gt; lia).
    eexists. split; [reflexivity|].
    cbn [ExitInputMode with_input_mode input_mode input_mode_pad
         input_mode_index input_mode_key gamepad_idx g_input_mode_mapping
         g_key_status g_buffered_key_status g_gamepad_buttons
         KeyboardButtonMapping ControllerButtonMapping].
    split; [exact Hmode|]. split; [exact Hpad|].
    do 3 (split; [reflexivity|]). split; [exact Hwf'|].
    repeat split; reflexivity.
Qed.

Lemma press_keys_cons K key keys st st1 :
  OnKeyPress K false key st = Ok st1 ->
  press_keys K (key :: keys) st = press_keys K keys st1.
Proof.
  intros E. unfold press_keys. cbn [fold_left bind]. rewrite E. reflexivity.
Qed.

Lemma press_keys_input_mode K keys : forall st (n : nat) row table,
  input_mode st = (if (n =? 16)%nat then Disabled else Enabled) ->
  input_mode_pad st = 0 ->
  input_mode_index st = Z.of_nat n ->
  (n + length keys = 16)%nat ->
  Forall (fun key => key <> GLFW_KEY_ESCAPE K) keys ->
  load (gamepad_idx st) 0 = Ok (-1) ->
  mapping_well_formed (g_input_mode_mapping st) ->
  KeyboardButtonMapping (g_input_mode_mapping st) = <[0%nat := row]> table ->
  length row = 16%nat ->
  exists st',
    press_keys K keys st = Ok st'
    /\ input_mode st' = Disabled
    /\ KeyboardButtonMapping (g_input_mode_mapping st')
       = <[0%nat := take n row ++ keys]> table
    /\ ControllerButtonMapping (g_input_mode_mapping st')
       = ControllerButtonMapping (g_input_mode_mapping st)
    /\ gamepad_idx st' = gamepad_idx st
    /\ g_key_status st' = g_key_status st
    /\ g_buffered_key_status st' = g_buffered_key_status st
    /\ g_gamepad_buttons st' = g_gamepad_buttons st.
Proof.
  induction keys as [|key keys IH];
    intros st n row table Hmode Hpad Hidx Hlen Hesc Hpad0 Hwf Htab Hrow.
  - cbn [length] in Hlen. assert (n = 16%nat) by lia. subst n.
    exists st. split; [reflexivity|]. split; [exact Hmode|].
    rewrite app_nil_r, take_ge by lia. repeat split; auto.
  - cbn [length] in Hlen. assert (Hn : (n < 16)%nat) by lia.
    replace (n =? 16)%nat with false in Hmode
      by (symmetry; apply Nat.eqb_neq; lia).
    inversion Hesc as [|? ? Hkey Hrest]; subst.
    assert (Ltab : (0 < length table)%nat).
    { destruct Hwf as (_ & Lk & _). rewrite Htab, length_insert in Lk.
      unfold CONTROLLER_COUNT in Lk. lia. }
    assert (Hr0 : KeyboardButtonMapping (g_input_mode_mapping st) !! 0%nat
                  = Some row).
    { rewrite Htab. apply list_lookup_insert_eq. exact Ltab. }
    destruct (OnKeyPress_input_mode K key st n row Hmode Hpad Hidx Hn Hkey
                Hpad0 Hwf Hr0)
      as (st1 & E & M1 & P1 & I1 & _ & G1 & W1 & T1 & C1 & K1 & B1 & J1).
    rewrite (press_keys_cons K key keys st st1 E).
    rewrite Htab, list_insert_insert_eq in T1.
    destruct (IH st1 (S n) (<[n := key]> row) table) as
      (st' & E' & M' & T' & C' & G' & K' & B' & J'); auto.
    + lia.
    + congruence.
    + rewrite length_insert. exact Hrow.
    + exists st'. split; [exact E'|]. split; [exact M'|].
      split.
      * rewrite T'. f_equal.
        rewrite (take_S_r _ n key)
          by (apply list_lookup_insert_eq; lia).
        rewrite take_insert_ge by lia. rewrite <- app_assoc. reflexivity.
      * repeat split; congruence.
Qed.

(** A whole binding session: after [EnterInputMode], with pad 0 on the
    keyboard, sixteen key presses none of which is Escape bind the sixteen
    buttons of pad 0 in order -- the keyboard row of pad 0 becomes the list
    of the keys pressed -- and the last press leaves input mode
    ([Disabled], not [Canceled]).  Pad 1's row, the controller table, the
    key arrays and the gamepad buttons are as before: keys pressed while
    binding are not recorded as pressed. *)
Theorem input_mode_session K keys st :
  mapping_well_formed (g_input_mode_mapping st) ->
  load (gamepad_idx st) 0 = Ok (-1) ->
  length keys = 16%nat ->
  Forall (fun key => key <> GLFW_KEY_ESCAPE K) keys ->
  exists st',
    press_keys K keys (EnterInputMode st) = Ok st'
    /\ input_mode st' = Disabled
    /\ KeyboardButtonMapping (g_input_mode_mapping st')
       = <[0%nat := keys]> (KeyboardButtonMapping (g_input_mode_mapping st))
    /\ ControllerButtonMapping (g_input_mode_mapping st')
       = ControllerButtonMapping (g_input_mode_mapping st)
    /\ g_key_status st' = g_key_status st
    /\ g_buffered_key_status st' = g_buffered_key_status st
    /\ g_gamepad_buttons st' = g_gamepad_buttons st.
Proof.
  intros Hwf Hpad0 Hlen Hesc.
  pose proof Hwf as (_ & Lk & _ & Fk).
  assert (Hp : 0 <= 0 < CONTROLLER_COUNT) by (unfold CONTROLLER_COUNT; lia).
  destruct (table_row _ 0 Lk Fk Hp) as (row & Hr & Hrl).
  change (Z.to_nat 0) with 0%nat in Hr.
  destruct (press_keys_input_mode K keys (EnterInputMode st) 0 row
              (KeyboardButtonMapping (g_input_mode_mapping st)))
    as (st' & E & M & T & C & G & Ks & Bs & Js).
  - reflexivity.
  - reflexivity.
  - reflexivity.
  - lia.
  - exact Hesc.
  - destruct st; exact Hpad0.
  - destruct st; exact Hwf.
  - destruct st; cbn in *. symmetry. apply list_insert_id. exact Hr.
  - exact Hrl.
  - exists st'. split; [exact E|]. split; [exact M|].
    split; [rewrite T; reflexivity|].
    destruct st; cbn in *. repeat split; assumption.
Qed.

Lemma input_mode_session_witness :
  exists st',
    press_keys glfw3 (seqZ 65 16) (EnterInputMode initial_state) = Ok st'
    /\ input_mode st' = Disabled
    /\ KeyboardButtonMapping (g_input_mode_mapping st')
       = <[0%nat := seqZ 65 16]>
           (KeyboardButtonMapping (g_input_mode_mapping initial_state))
    /\ ControllerButtonMapping (g_input_mode_mapping st')
       = ControllerButtonMapping (g_input_mode_mapping initial_state)
    /\ g_key_status st' = g_key_status initial_state
    /\ g_buffered_key_status st' = g_buffered_key_status initial_state
    /\ g_gamepad_buttons st' = g_gamepad_buttons initial_state.
Proof.
  apply (input_mode_session glfw3 (seqZ 65 16) initial_state).
  - exact (proj2 (proj2 (proj2 (proj2 (proj2 initial_state_well_formed))))).
  - reflexivity.
  - reflexivity.
  - vm_compute. repeat (constructor; [discriminate|]). constructor.
Defined.

End PeripheralsFacts.

(* ===================================================================== *)
(** ** Properties of the game versions                                    *)
(* ===================================================================== *)

Module VersionsFacts.
Import Versions.

(** Names and versions round-trip: for every [GameVersion] the table
    [game_version_names] has an entry (the index [(int)v - 1] is inside
    [data]), [game_name_to_version] maps that name back to the version
    without asserting, and [valid_game_version] accepts it. *)
Theorem game_version_names_round_trip (v : GameVersion) :
  exists name,
    PerGameVersion_at game_version_names v = Some name
    /\ game_name_to_version name = Some v
    /\ valid_game_version name = true.
Proof.
  destruct v; eexists; (split; [reflexivity|]); split; reflexivity.
Qed.

(** [valid_game_version] is the guard of [game_name_to_version]: it accepts
    a name exactly when [game_name_to_version] returns a version instead of
    asserting, and these names are exactly the entries of
    [game_version_names]. *)
Theorem valid_game_version_guards (name : string) :
  (valid_game_version name = true
   <-> exists v, game_name_to_version name = Some v)
  /\ (valid_game_version name = true
      <-> exists v, PerGameVersion_at game_version_names v = Some name).
Proof.
  unfold valid_game_version, game_name_to_version.
  destruct (String.eqb_spec name "sly1") as [->|N1].
  - split; split; intros _; try reflexivity;
      [exists Sly1 | exists Sly1]; reflexivity.
  - destruct (String.eqb_spec name "sly2") as [->|N2].
    + split; split; intros _; try reflexivity;
        [exists Sly2 | exists Sly2]; reflexivity.
    + split; split; try discriminate.
      * intros [v H]. discriminate H.
      * intros [[] H]; cbv in H; congruence.
Qed.

End VersionsFacts.

(* ===================================================================== *)
(** ** Properties of the video modes                                      *)
(* ===================================================================== *)

Module ScreensFacts.
Import Display Screens.

(** The loop both functions run: it ends on the first mode of the largest
    key among the starting mode and the listed ones. *)
Lemma largest_mode (key : GLFWvidmode -> Z) vmodes : forall v0,
  exists vm,
    fold_left
      (fun vmode m =>
         match vmode with
         | None => Some m
         | Some v => if key v <? key m then Some m else Some v
         end)
      vmodes (Some v0) = Some vm
    /\ (vm = v0 \/ In vm vmodes)
    /\ key v0 <= key vm
    /\ (forall m, In m vmodes -> key m <= key vm).
Proof.
  induction vmodes as [|m vmodes IH]; intros v0.
  - exists v0. cbn. repeat split; auto; [lia | intros m []].
  - cbn [fold_left]. destruct (Z.ltb_spec (key v0) (key m)) as [L|L].
    + destruct (IH m) as (vm & E & I & K & A).
      exists vm. split; [exact E|].
      split; [right; destruct I as [->|I]; [left; reflexivity | right; exact I]|].
      split; [lia|]. intros m' [<-|Hin]; [exact K | apply A; exact Hin].
    + destruct (IH v0) as (vm & E & I & K & A).
      exists vm. split; [exact E|].
      split; [destruct I as [->|I]; [left; reflexivity | right; right; exact I]|].
      split; [exact K|]. intros m' [<-|Hin]; [lia | apply A; exact Hin].
Qed.

Section VideoModes.

Variable glfwGetVideoModes : Monitor -> list GLFWvidmode.

(** In fullscreen mode and without an index ([vmode_idx < 0]),
    [get_screen_size] reports the size of the tallest mode: a mode of the
    monitor (its current one or one of the listed ones) that no other is
    taller than.  The width is that mode's width, whatever the widths of
    the others. *)
Theorem get_screen_size_tallest g vmode_idx d monitor :
  get_monitor g (fullscreen_screen d) = Some monitor ->
  fullscreen_mode d = Fullscreen ->
  vmode_idx < 0 ->
  exists vm,
    get_screen_size glfwGetVideoModes g vmode_idx d
    = Some (vm_width vm, vm_height vm)
    /\ (vm = video_mode monitor \/ In vm (glfwGetVideoModes monitor))
    /\ vm_height (video_mode monitor) <= vm_height vm
    /\ (forall m, In m (glfwGetVideoModes monitor) ->
                  vm_height m <= vm_height vm).
Proof.
  intros Hm Hmode Hidx. unfold get_screen_size.
  rewrite Hm. cbn [mbind option_bind]. cbv zeta.
  replace (vmode_idx >=? 0) with false
    by (symmetry; rewrite Z.geb_leb; apply Z.leb_gt; lia).
  rewrite Hmode. change (Fullscreen =? Fullscreen) with true. cbv iota.
  destruct (largest_mode vm_height (glfwGetVideoModes monitor)
              (video_mode monitor)) as (vm & E & I & K & A).
  exists vm. rewrite E. cbn [mbind option_bind option_ret mret].
  repeat split; auto.
Qed.

(** In fullscreen mode and without an index, [get_screen_rate] reports
    the highest refresh rate among the monitor's current mode and the
    listed ones -- chosen on its own, so it need not be the rate of the
    mode whose size [get_screen_size] reports. *)
Theorem get_screen_rate_fastest g vmode_idx d monitor :
  get_monitor g (fullscreen_screen d) = Some monitor ->
  fullscreen_mode d = Fullscreen ->
  vmode_idx < 0 ->
  exists vm,
    get_screen_rate glfwGetVideoModes g vmode_idx d = Some (refreshRate vm)
    /\ (vm = video_mode monitor \/ In vm (glfwGetVideoModes monitor))
    /\ refreshRate (video_mode monitor) <= refreshRate vm
    /\ (forall m, In m (glfwGetVideoModes monitor) ->
                  refreshRate m <= refreshRate vm).
Proof.
  intros Hm Hmode Hidx. unfold get_screen_rate.
  rewrite Hm. cbn [mbind option_bind]. cbv zeta.
  replace (vmode_idx >=? 0) with false
    by (symmetry; rewrite Z.geb_leb; apply Z.leb_gt; lia).
  rewrite Hmode. change (Fullscreen =? Fullscreen) with true. cbv iota.
  destruct (largest_mode refreshRate (glfwGetVideoModes monitor)
              (video_mode monitor)) as (vm & E & I & K & A).
  exists vm. rewrite E. cbn [mbind option_bind option_ret mret].
  repeat split; auto.
Qed.

End VideoModes.

Lemma get_screen_size_tallest_witness :
  exists vm,
    get_screen_size sample_modes Samples.one_monitor (-1) fullscreen_display
    = Some (vm_width vm, vm_height vm)
    /\ (vm = video_mode Samples.monitor0 \/ In vm (sample_modes Samples.monitor0))
    /\ vm_height (video_mode Samples.monitor0) <= vm_height vm
    /\ (forall m, In m (sample_modes Samples.monitor0) ->
                  vm_height m <= vm_height vm).
Proof.
  apply (get_screen_size_tallest sample_modes Samples.one_monitor (-1)
           fullscreen_display Samples.monitor0);
    reflexivity.
Defined.

Lemma get_screen_rate_fastest_witness :
  exists vm,
    get_screen_rate sample_modes Samples.one_monitor (-1) fullscreen_display
    = Some (refreshRate vm)
    /\ (vm = video_mode Samples.monitor0 \/ In vm (sample_modes Samples.monitor0))
    /\ refreshRate (video_mode Samples.monitor0) <= refreshRate vm
    /\ (forall m, In m (sample_modes Samples.monitor0) ->
                  refreshRate m <= refreshRate vm).
Proof.
  apply (get_screen_rate_fastest sample_modes Samples.one_monitor (-1)
           fullscreen_display Samples.monitor0);
    reflexivity.
Defined.

End ScreensFacts.

(* ===================================================================== *)
(** ** Properties of the main display                                     *)
(* ===================================================================== *)

Module MainDisplayFacts.
Import Display MainDisplay.

Lemma GetMainDisplay_front d rest w :
  m_window d = Some w -> GetMainDisplay (d :: rest) = Some d.
Proof.
  intros H. unfold GetMainDisplay, is_active. rewrite H. reflexivity.
Qed.

Lemma GetMainDisplay_Some displays d :
  GetMainDisplay displays = Some d ->
  exists rest w, displays = d :: rest /\ m_window d = Some w.
Proof.
  unfold GetMainDisplay, is_active.
  destruct displays as [|front rest]; [discriminate|].
  destruct (m_window front) as [w|] eqn:W; [|discriminate].
  intros E. injection E as <-. eauto.
Qed.

(** [InitMainDisplay] never replaces a main display: with one in place it
    returns 1 and leaves [g_displays] alone, as it does when the renderer
    makes no display.  Otherwise it returns 0 and the new display takes
    the first place of [g_displays] -- pushed on an empty list, put over an
    entry without a window -- the other displays staying where they are;
    it is the main display from then on if it has a window. *)
Theorem InitMainDisplay_installs made g_displays log :
  exists r g_displays' log',
    InitMainDisplay (Some made) g_displays log = Some (r, g_displays', log')
    /\ (r = 0 \/ r = 1)
    /\ (r = 0 <-> GetMainDisplay g_displays = None /\ made <> None)
    /\ (r = 1 -> g_displays' = g_displays)
    /\ (forall d, GetMainDisplay g_displays = Some d ->
                  GetMainDisplay g_displays' = Some d)
    /\ (forall display, r = 0 -> made = Some display ->
          g_displays' = display :: tail g_displays
          /\ GetMainDisplay g_displays'
             = (if is_active display then Some display else None)).
Proof.
  unfold InitMainDisplay.
  destruct (GetMainDisplay g_displays) as [d|] eqn:G.
  - eexists 1, _, _. split; [reflexivity|].
    split; [right; reflexivity|].
    split; [split; [discriminate | intros [H _]; discriminate H]|].
    split; [reflexivity|].
    split; [intros d0 E; rewrite G; exact E | discriminate].
  - cbn [mbind option_bind]. destruct made as [display|].
    + eexists 0, _, _. split; [reflexivity|].
      split; [left; reflexivity|].
      split; [split; [intros _; split; [reflexivity | discriminate]
                     | reflexivity]|].
      split; [discriminate|].
      split; [discriminate|].
      intros display' _ E. injection E as <-.
      assert (S : set_main_display display g_displays
                  = display :: tail g_displays).
      { unfold set_main_display. destruct g_displays; reflexivity. }
      rewrite S. split; [reflexivity|]. reflexivity.
    + eexists 1, _, _. split; [reflexivity|].
      split; [right; reflexivity|].
      split; [split; [discriminate | intros [_ H]; congruence]|].
      split; [reflexivity|].
      split; [discriminate | discriminate].
Qed.

Lemma fullscreen_pending_false g d :
  fullscreen_pending g d = Some false ->
  fullscreen_mode d = m_fullscreen_target_mode d.
Proof.
  unfold fullscreen_pending.
  destruct (get_monitor g (fullscreen_screen d)); [|discriminate].
  cbn [mbind option_bind]. intros E. injection E as E.
  apply orb_false_iff in E as [E _].
  unfold base_fullscreen_pending in E.
  apply orb_false_iff in E as [E _].
  apply negb_false_iff, Z.eqb_eq in E. exact E.
Qed.

(** A mode asked for with [Graphics::set_fullscreen] is only recorded:
    [Graphics::get_fullscreen] goes on reporting the mode the display is
    in.  The next pass of the loop makes the change -- whatever window
    events it polls first, as long as the window is not minimized -- and
    from then on [get_fullscreen] reports the mode asked for; the other
    displays are not touched. *)
Theorem set_fullscreen_takes_a_frame g mode screen d rest events m idx l :
  monitors g <> [] ->
  is_active d = true ->
  minimized (glfwPollEvents events (Display.set_fullscreen mode screen d))
  = false ->
  let asked := MainDisplay.set_fullscreen mode screen (d :: rest) in
  fst (Graphics.get_fullscreen (Graphics.mkGlobals asked m idx l))
  = Some (fullscreen_mode d)
  /\ exists d',
       Loop_body g events asked = Some (d' :: rest)
       /\ fst (Graphics.get_fullscreen
                 (Graphics.mkGlobals (d' :: rest) m idx l))
          = Some mode.
Proof.
  intros Hne Hact Hmin.
  assert (Hw : exists w, m_window d = Some w).
  { unfold is_active in Hact. destruct (m_window d); [eauto | discriminate]. }
  destruct Hw as [w Hw].
  set (d1 := Display.set_fullscreen mode screen d) in *.
  assert (Hw1 : m_window d1 = Some w) by (destruct d; exact Hw).
  assert (A : MainDisplay.set_fullscreen mode screen (d :: rest) = d1 :: rest).
  { unfold MainDisplay.set_fullscreen.
    rewrite (GetMainDisplay_front d rest w Hw). reflexivity. }
  cbv zeta. rewrite A. split.
  - unfold Graphics.get_fullscreen. cbn [Graphics.g_displays].
    rewrite (GetMainDisplay_front d1 rest w Hw1). destruct d; reflexivity.
  - unfold Loop_body. rewrite (GetMainDisplay_front d1 rest w Hw1).
    destruct (DisplayMore.glfwPollEvents_keeps_modes events d1)
      as (P1 & P2 & P3 & P4 & P5 & P6 & P7).
    set (d2 := glfwPollEvents events d1) in *.
    assert (T3 : m_fullscreen_target_mode (update_last_fullscreen_mode d2)
                 = mode).
    { transitivity (m_fullscreen_target_mode d2);
        [destruct d2; reflexivity|].
      rewrite P2. destruct d; reflexivity. }
    assert (W3 : m_window (update_last_fullscreen_mode d2) = Some w).
    { transitivity (m_window d2); [destruct d2; reflexivity|].
      rewrite P7. exact Hw1. }
    assert (M3 : minimized (update_last_fullscreen_mode d2) = false).
    { transitivity (minimized d2); [destruct d2; reflexivity | exact Hmin]. }
    unfold render. fold d2. cbv zeta.
    destruct (DisplayFacts.get_monitor_total g
                (fullscreen_screen (update_last_fullscreen_mode d2)) Hne)
      as [monitor Hmon].
    destruct (fullscreen_pending g (update_last_fullscreen_mode d2))
      as [pending|] eqn:Hp.
    2:{ unfold fullscreen_pending in Hp. rewrite Hmon in Hp. discriminate Hp. }
    cbn [mbind option_bind]. rewrite M3. cbn [negb]. rewrite andb_true_r.
    destruct pending.
    + destruct (DisplayMore.fullscreen_flush_total g _ w Hne W3) as (d' & w' & F & W').
      rewrite F. cbn [mbind option_bind]. exists d'.
      split; [reflexivity|].
      unfold Graphics.get_fullscreen. cbn [Graphics.g_displays].
      rewrite (GetMainDisplay_front d' rest w' W'). cbn [fst].
      destruct (DisplayMore.fullscreen_flush_some g _ d' F)
        as (_ & _ & E & _).
      unfold fullscreen_mode. rewrite E, T3. reflexivity.
    + cbn [mbind option_bind]. exists (update_last_fullscreen_mode d2).
      split; [reflexivity|].
      unfold Graphics.get_fullscreen. cbn [Graphics.g_displays].
      rewrite (GetMainDisplay_front _ rest w W3). cbn [fst].
      rewrite (fullscreen_pending_false g _ Hp), T3. reflexivity.
Qed.

Lemma set_fullscreen_takes_a_frame_witness :
  fst (Graphics.get_fullscreen
         (Graphics.mkGlobals
            (MainDisplay.set_fullscreen Fullscreen 0
               [Samples.windowed_display])
            (Graphics.PeripheralMappingInfo Samples.sample_globals)
            [-1; -1] []))
  = Some Windowed
  /\ exists d',
       Loop_body Samples.one_monitor [WindowPos 10 10]
         (MainDisplay.set_fullscreen Fullscreen 0 [Samples.windowed_display])
       = Some [d']
       /\ fst (Graphics.get_fullscreen
                 (Graphics.mkGlobals [d']
                    (Graphics.PeripheralMappingInfo Samples.sample_globals)
                    [-1; -1] []))
          = Some Fullscreen.
Proof.
  apply (set_fullscreen_takes_a_frame Samples.one_monitor Fullscreen 0
           Samples.windowed_display [] [WindowPos 10 10]
           (Graphics.PeripheralMappingInfo Samples.sample_globals)
           [-1; -1] []).
  - discriminate.
  - reflexivity.
  - reflexivity.
Defined.

End MainDisplayFacts.
